(** * Portfolio manifest builders

    A shallow embedding of the two build scripts of the portfolio
    repository:

    - the filesystem pipeline ([buildProjectsJson], reading one
      [project.yml] per folder of [public/projects]), and
    - the database pipeline ([exportProjectsToJson] of
      [tools/export-projects.js], reading the SQLite file [projects.db]).

    Both write [public/projects.json].  The file system, the YAML parser
    and the SQLite store are the environment: they are modelled as
    explicit inputs (oracles and a database state), the scripts as
    functions over them that return the console output, the write
    performed and the exit status. *)

From Stdlib Require Import String Ascii List ZArith NArith Lia Bool.
From Stdlib Require Import Sorting.Sorted Sorting.Permutation.
Import ListNotations.

Set Warnings "-register-all".

Local Open Scope string_scope.
Local Open Scope Z_scope.

(** ** JavaScript strings

    A string is a sequence of code units; [ascii] stands for the code
    units 0..255 (Latin-1), which is enough for every literal of the two
    scripts. *)

Module JsString.

Definition code (c : ascii) : N := N_of_ascii c.

(** ECMAScript WhiteSpace and LineTerminator code points below 256:
    TAB, LF, VT, FF, CR, SP and NBSP. *)
Definition is_ws (c : ascii) : bool :=
  let n := code c in
  ((n =? 9) || (n =? 10) || (n =? 11) || (n =? 12) || (n =? 13)
   || (n =? 32) || (n =? 160))%N.

Fixpoint trimStart (s : string) : string :=
  match s with
  | EmptyString => EmptyString
  | String c r => if is_ws c then trimStart r else s
  end.

Fixpoint trimEnd (s : string) : string :=
  match s with
  | EmptyString => EmptyString
  | String c r =>
      match trimEnd r with
      | EmptyString => if is_ws c then EmptyString else String c EmptyString
      | r' => String c r'
      end
  end.

(** [String.prototype.trim] *)
Definition trim (s : string) : string := trimEnd (trimStart s).

(** [String.prototype.split] with a one-character separator: the empty
    string splits into one empty segment. *)
Fixpoint split (sep : ascii) (s : string) : list string :=
  match s with
  | EmptyString => [EmptyString]
  | String c r =>
      if Ascii.eqb c sep then EmptyString :: split sep r
      else match split sep r with
           | [] => [String c EmptyString]
           | h :: t => String c h :: t
           end
  end.

(** [String.prototype.toLowerCase] on Latin-1: A-Z and the accented
    capitals U+00C0..U+00DE (U+00D7, the multiplication sign, apart). *)
Definition lower_char (c : ascii) : ascii :=
  let n := code c in
  if (((65 <=? n) && (n <=? 90))
      || ((192 <=? n) && (n <=? 222) && negb (n =? 215)))%N
  then ascii_of_N (n + 32) else c.

Fixpoint toLowerCase (s : string) : string :=
  match s with
  | EmptyString => EmptyString
  | String c r => String (lower_char c) (toLowerCase r)
  end.

(** A string is falsy exactly when it is empty. *)
Definition nonempty (s : string) : bool :=
  match s with EmptyString => false | _ => true end.

Fixpoint drop (n : nat) (s : string) : string :=
  match n, s with
  | O, _ => s
  | S k, String _ r => drop k r
  | S _, EmptyString => EmptyString
  end.

(** [s.replace(pat, rep)] with a string pattern: the first occurrence
    only (the replacement has no [$] pattern here). *)
Fixpoint replace (pat rep s : string) : string :=
  if prefix pat s then rep ++ drop (String.length pat) s
  else match s with
       | EmptyString => EmptyString
       | String c r => String c (replace pat rep r)
       end.

(** BINARY collation: code units compared left to right, a proper
    prefix first. *)
Fixpoint compare (s t : string) : comparison :=
  match s, t with
  | EmptyString, EmptyString => Eq
  | EmptyString, String _ _ => Lt
  | String _ _, EmptyString => Gt
  | String a s', String b t' =>
      match N.compare (code a) (code b) with
      | Eq => compare s' t'
      | o => o
      end
  end.

End JsString.

(** ** [Array.prototype.sort]

    Since ECMAScript 2019 the sort is stable, so with a consistent
    comparator the result is the one stable ordering; an insertion sort
    that moves an element only past those it compares greater than
    computes it.  The comparator's result goes through [ToNumber], and
    [NaN] counts as [+0].

    With a comparator that is not consistent ECMAScript leaves the order
    to the engine, and [array_sort] need not be the order of any engine:
    the statements on the order of a sorted array below are about
    consistent comparators. *)

Definition JsNumber := option Z.

Definition sortNumber (v : JsNumber) : Z :=
  match v with Some z => z | None => 0 end.

Section ArraySort.

Context {A : Type}.
Variable comparefn : A -> A -> JsNumber.

Definition cmpZ (x y : A) : Z := sortNumber (comparefn x y).

Fixpoint sort_insert (x : A) (l : list A) : list A :=
  match l with
  | [] => [x]
  | y :: t => if 0 <? cmpZ x y then y :: sort_insert x t else x :: l
  end.

Fixpoint array_sort (l : list A) : list A :=
  match l with
  | [] => []
  | x :: t => sort_insert x (array_sort t)
  end.

(** [x] may stand before [y] in a stably sorted array: the comparator
    does not put [x] after [y], and when it does not tell them apart,
    [x] was [before] [y] in the input. *)
Definition inOrder (before : A -> A -> Prop) (x y : A) : Prop :=
  cmpZ x y <= 0 /\ (cmpZ y x <= 0 -> before x y).

End ArraySort.

(** Ids that are exactly 1, 2, ..., N in some order. *)
Definition denseIds (ids : list Z) : Prop :=
  Permutation ids (map Z.of_nat (seq 1 (length ids))).

(** ** Completions and effects

    A script run yields a completion (normal, an exception on its way up,
    or [process.exit]) and the effects it performed in order: console
    lines and file writes. *)

Inductive Completion (A : Type) : Type :=
| Normal (a : A)
| Throw
| Exit (code : Z).
Arguments Normal {A} a.
Arguments Throw {A}.
Arguments Exit {A} code.

Inductive Effect (C D : Type) : Type :=
| Console (c : C)
| MkDir (p : string)
| WriteFile (p : string) (data : D).
Arguments Console {C D} c.
Arguments MkDir {C D} p.
Arguments WriteFile {C D} p data.

(** The data of the last write to [p], if any. *)
Fixpoint lastWrite {C D : Type} (p : string) (es : list (Effect C D))
  : option D :=
  match es with
  | [] => None
  | e :: r =>
      match lastWrite p r with
      | Some d => Some d
      | None =>
          match e with
          | WriteFile q d => if String.eqb p q then Some d else None
          | _ => None
          end
      end
  end.

Definition isWrite {C D : Type} (e : Effect C D) : bool :=
  match e with WriteFile _ _ => true | _ => false end.

(** Exit status of the node process: 0 when the module body completes,
    1 on an uncaught exception, the given code on [process.exit]. *)
Definition exitStatus {A : Type} (c : Completion A) : Z :=
  match c with Normal _ => 0 | Throw => 1 | Exit code => code end.

(** ** [path] on POSIX *)

Module Path.

(** [path.join(a, b)] before normalisation; the file-system oracles
    below take the joined string and stand for the call on the
    normalised path. *)
Definition join (a b : string) : string := a ++ "/" ++ b.

(** [path.basename]: the last non-empty segment. *)
Definition basename (p : string) : string :=
  last (filter JsString.nonempty (JsString.split "/" p)) EmptyString.

Fixpoint lastDot (s : string) : option nat :=
  match s with
  | EmptyString => None
  | String c r =>
      match lastDot r with
      | Some i => Some (S i)
      | None => if Ascii.eqb c "." then Some O else None
      end
  end.

(** [path.extname] of a directory entry name (no separator in it):
    from the last dot on, empty when there is no dot, when the only dot
    leads the name, and for [".."]. *)
Definition extname (file : string) : string :=
  match lastDot file with
  | None | Some O => EmptyString
  | Some i => if String.eqb file ".." then EmptyString
              else JsString.drop i file
  end.

(** [path.parse(file).name]: the name without that extension. *)
Definition parseName (file : string) : string :=
  match lastDot file with
  | None | Some O => file
  | Some i => if String.eqb file ".." then file
              else substring 0 i file
  end.

End Path.

(** ** Values a sidecar file parses to *)

Inductive JsVal : Type :=
| JUndefined
| JNull
| JBool (b : bool)
| JNum (z : Z)
| JNaN
| JStr (s : string)
| JDate (t : JsNumber)
| JArr (items : list JsVal)
| JMap (fields : list (string * JsVal)).

Definition truthy (v : JsVal) : bool :=
  match v with
  | JUndefined | JNull | JNaN => false
  | JBool b => b
  | JNum z => negb (z =? 0)
  | JStr s => JsString.nonempty s
  | JDate _ | JArr _ | JMap _ => true
  end.

(** [v || d] *)
Definition orElse (v d : JsVal) : JsVal := if truthy v then v else d.

Fixpoint assoc {V : Type} (k : string) (l : list (string * V)) : option V :=
  match l with
  | [] => None
  | (k', v) :: r => if String.eqb k k' then Some v else assoc k r
  end.

(** [v.k] for one of the sidecar keys: only a mapping has them. *)
Definition getProp (v : JsVal) (k : string) : JsVal :=
  match v with
  | JMap fields => match assoc k fields with Some x => x | None => JUndefined end
  | _ => JUndefined
  end.

(** ** The file system as the scripts see it *)

Record FileSystem : Type := {
  existsSync : string -> bool;
  (** [fs.readdirSync]; [None] when it throws *)
  readdirSync : string -> option (list string);
  (** [fs.statSync(p).isDirectory()]; [None] when [statSync] throws *)
  statIsDirectory : string -> option bool;
  (** [yaml.load(fs.readFileSync(p, 'utf8'))]; [None] when either throws *)
  loadYaml : string -> option JsVal;
  (** whether [fs.mkdirSync(p)] and [fs.writeFileSync(p, ...)] succeed *)
  mkdirOk : string -> bool;
  writeOk : string -> bool
}.

(** ** The filesystem pipeline *)

Module FsPipeline.

Record Asset : Type := { path : string; thumbnail : option string }.

Record Tech : Type := { name : string; icon : option string }.

Record Project : Type := {
  id : Z;
  title : JsVal;
  subtitle : JsVal;
  description : JsVal;
  start_date : JsVal;
  end_date : JsVal;
  tech : list Tech;
  images : list Asset;
  videos : list Asset;
  image_layout : JsVal;
  github_url : JsVal;
  live_url : JsVal
}.

(** The console lines of the script, by template. *)
Inductive Line : Type :=
| LogScanning
| ErrDirNotFound (dir : string)
| LogProcessing (folder : string)
| ErrReadingYaml (projectPath : string)
| ErrScanningImages (projectPath : string)
| ErrScanningVideos (projectPath : string)
| LogAdded (t : JsVal)
| LogFoundImages (n : nat)
| LogFoundVideos (n : nat)
| LogBuilt (n : nat)
| LogOutput (outputPath : string)
| LogSummary (t : JsVal) (nimages nvideos : nat)
| ErrBuilding.

Definition isError (l : Line) : bool :=
  match l with
  | ErrDirNotFound _ | ErrReadingYaml _ | ErrScanningImages _
  | ErrScanningVideos _ | ErrBuilding => true
  | _ => false
  end.

Definition Eff : Type := Effect Line (list Project).

(** A computation: its completion and the effects it performed. *)
Definition Js (A : Type) : Type := Completion A * list Eff.

Definition ret {A : Type} (a : A) : Js A := (Normal a, []).

Definition bind {A B : Type} (m : Js A) (f : A -> Js B) : Js B :=
  match m with
  | (Normal a, es) => let (c, es') := f a in (c, (es ++ es')%list)
  | (Throw, es) => (Throw, es)
  | (Exit code, es) => (Exit code, es)
  end.

Definition say (l : Line) : Js unit := (Normal tt, [Console l]).

Definition throw {A : Type} : Js A := (Throw, []).

(** [try { m } catch (error) { h }] *)
Definition tryCatch {A : Type} (m : Js A) (h : Js A) : Js A :=
  match m with
  | (Throw, es) => let (c, es') := h in (c, (es ++ es')%list)
  | other => other
  end.

Declare Scope js_scope.
Delimit Scope js_scope with js.
Notation "x <- m ;; k" := (bind m (fun x => k))
  (at level 61, m at next level, right associativity) : js_scope.
Notation "m ;;; k" := (bind m (fun _ => k))
  (at level 61, right associativity) : js_scope.
Local Open Scope js_scope.

(** Effects that write no file. *)
Definition silent (es : list Eff) : Prop :=
  Forall (fun e => isWrite e = false) es.

Definition projectsDir : string := "public/projects".

Section WithFileSystem.

Variable fs : FileSystem.

(** [readProjectYaml] answers [null], after logging, when the file cannot
    be read or parsed. *)
Definition readProjectYaml (projectPath : string) : Js JsVal :=
  match loadYaml fs (Path.join projectPath "project.yml") with
  | Some doc => ret doc
  | None => say (ErrReadingYaml projectPath) ;;; ret JNull
  end.

Definition publicPath (projectPath file : string) : string :=
  "/portfolio/projects/" ++ Path.basename projectPath ++ "/" ++ file.

Definition imageExtensions : list string :=
  [".jpg"; ".jpeg"; ".png"; ".gif"; ".webp"; ".svg"].

Definition videoExtensions : list string :=
  [".mp4"; ".webm"; ".mov"; ".avi"; ".mkv"].

Definition thumbnailExtensions : list string :=
  [".jpg"; ".jpeg"; ".png"; ".webp"].

(** [allowedExtensions.includes(path.extname(file).toLowerCase())] *)
Definition hasExtension (allowed : list string) (file : string) : bool :=
  existsb (String.eqb (JsString.toLowerCase (Path.extname file))) allowed.

Definition imageAsset (projectPath file : string) : Asset :=
  {| path := publicPath projectPath file;
     thumbnail := Some (publicPath projectPath file) |}.

Definition scanProjectImages (projectPath : string) : Js (list Asset) :=
  match readdirSync fs projectPath with
  | Some files =>
      ret (map (imageAsset projectPath)
               (filter (hasExtension imageExtensions) files))
  | None => say (ErrScanningImages projectPath) ;;; ret []
  end.

Definition thumbFile (baseName thumbExt : string) : string :=
  baseName ++ "-thumb" ++ thumbExt.

(** The [for ... of thumbnailExtensions] loop with its [break]. *)
Fixpoint findThumbnail (projectPath baseName : string)
         (exts : list string) : option string :=
  match exts with
  | [] => None
  | thumbExt :: rest =>
      if existsSync fs (Path.join projectPath (thumbFile baseName thumbExt))
      then Some (publicPath projectPath (thumbFile baseName thumbExt))
      else findThumbnail projectPath baseName rest
  end.

Definition videoAsset (projectPath file : string) : Asset :=
  {| path := publicPath projectPath file;
     thumbnail := findThumbnail projectPath (Path.parseName file)
                                thumbnailExtensions |}.

Definition scanProjectVideos (projectPath : string) : Js (list Asset) :=
  match readdirSync fs projectPath with
  | Some files =>
      ret (map (videoAsset projectPath)
               (filter (hasExtension videoExtensions) files))
  | None => say (ErrScanningVideos projectPath) ;;; ret []
  end.

Definition iconFile (iconPath : string) : string :=
  Path.join "public" (JsString.replace "/portfolio/" "" iconPath).

Definition resolveTech (techName : string) : Tech :=
  let svg := "/portfolio/icons/" ++ JsString.toLowerCase techName ++ ".svg" in
  if existsSync fs (iconFile svg)
  then {| name := techName; icon := Some svg |}
  else
    let png := "/portfolio/icons/" ++ JsString.toLowerCase techName ++ ".png" in
    {| name := techName;
       icon := if existsSync fs (iconFile png) then Some png else None |}.

(** [techString.split(',').map(t => t.trim()).filter(t => t)] *)
Definition techNames (techString : string) : list string :=
  filter JsString.nonempty (map JsString.trim (JsString.split "," techString)).

Definition processTechString (techString : JsVal) : list Tech :=
  match techString with
  | JStr s => if JsString.nonempty s then map resolveTech (techNames s) else []
  | _ => []
  end.

(** [new Date(v).getTime()]; [None] is the [NaN] of an invalid date. *)
Variable dateValue : JsVal -> JsNumber.

(** The comparator handed to [projects.sort]. *)
Definition compareEndDate (a b : Project) : JsNumber :=
  if negb (truthy (end_date a)) && negb (truthy (end_date b)) then Some 0
  else if negb (truthy (end_date a)) then Some 1
  else if negb (truthy (end_date b)) then Some (-1)
  else match dateValue (end_date b), dateValue (end_date a) with
       | Some tb, Some ta => Some (tb - ta)
       | _, _ => None
       end.

(** A record whose end date, when it has one, is a valid date. *)
Definition validEndDate (p : Project) : Prop :=
  truthy (end_date p) = true -> dateValue (end_date p) <> None.

Definition buildProject (projectId : Z) (projectData : JsVal)
           (techs : list Tech) (projectImages projectVideos : list Asset)
  : Project :=
  {| id := projectId;
     title := getProp projectData "title";
     subtitle := orElse (getProp projectData "subtitle") JNull;
     description := orElse (getProp projectData "description") (JStr "");
     start_date := orElse (getProp projectData "start_date") (JStr "");
     end_date := orElse (getProp projectData "end_date") (JStr "");
     tech := techs;
     images := projectImages;
     videos := projectVideos;
     image_layout := orElse (getProp projectData "image_layout") (JStr "grid");
     github_url := orElse (getProp projectData "github_url") JNull;
     live_url := orElse (getProp projectData "live_url") JNull |}.

Definition sayIf (b : bool) (l : Line) : Js unit :=
  if b then say l else ret tt.

(** The state of the [forEach] over the folders: the [projects] array
    and the [projectId] counter. *)
Definition LoopState : Type := (list Project * Z)%type.

Definition processFolder (st : LoopState) (folder : string) : Js LoopState :=
  let projectPath := Path.join projectsDir folder in
  match statIsDirectory fs projectPath with
  | None => throw
  | Some false => ret st
  | Some true =>
      say (LogProcessing folder) ;;;
      projectData <- readProjectYaml projectPath ;;
      if truthy projectData then
        projectImages <- scanProjectImages projectPath ;;
        projectVideos <- scanProjectVideos projectPath ;;
        let project :=
          buildProject (snd st) projectData
                       (processTechString (getProp projectData "tech"))
                       projectImages projectVideos in
        say (LogAdded (getProp projectData "title")) ;;;
        sayIf (0 <? length projectImages)%nat
              (LogFoundImages (length projectImages)) ;;;
        sayIf (0 <? length projectVideos)%nat
              (LogFoundVideos (length projectVideos)) ;;;
        ret ((fst st ++ [project])%list, snd st + 1)
      else ret st
  end.

(** What the loop body does for one folder, read off [processFolder]:
    the document of its sidecar, whether a record is pushed, and the
    record. *)
Definition folderData (folder : string) : JsVal :=
  match loadYaml fs (Path.join (Path.join projectsDir folder) "project.yml") with
  | Some doc => doc
  | None => JNull
  end.

Definition emitsRecord (folder : string) : bool :=
  match statIsDirectory fs (Path.join projectsDir folder) with
  | Some true => truthy (folderData folder)
  | _ => false
  end.

Definition imagesOf (projectPath : string) : list Asset :=
  match readdirSync fs projectPath with
  | Some files =>
      map (imageAsset projectPath) (filter (hasExtension imageExtensions) files)
  | None => []
  end.

Definition videosOf (projectPath : string) : list Asset :=
  match readdirSync fs projectPath with
  | Some files =>
      map (videoAsset projectPath) (filter (hasExtension videoExtensions) files)
  | None => []
  end.

Definition recordOf (projectId : Z) (folder : string) : Project :=
  buildProject projectId (folderData folder)
               (processTechString (getProp (folderData folder) "tech"))
               (imagesOf (Path.join projectsDir folder))
               (videosOf (Path.join projectsDir folder)).

(** The [projects] array after the loop over [folders], the counter
    starting at [projectId]. *)
Fixpoint assemble (folders : list string) (projectId : Z) : list Project :=
  match folders with
  | [] => []
  | folder :: rest =>
      if emitsRecord folder
      then recordOf projectId folder :: assemble rest (projectId + 1)
      else assemble rest projectId
  end.

(** The candidate directories of a listing, and those among them
    whose sidecar cannot be read or parsed. *)
Definition isDirectory (folder : string) : bool :=
  match statIsDirectory fs (Path.join projectsDir folder) with
  | Some true => true
  | _ => false
  end.

Definition candidates (folders : list string) : list string :=
  filter isDirectory folders.

Definition sidecarMissing (folder : string) : bool :=
  match loadYaml fs (Path.join (Path.join projectsDir folder) "project.yml") with
  | Some _ => false
  | None => true
  end.

Definition statSucceeds (folder : string) : bool :=
  match statIsDirectory fs (Path.join projectsDir folder) with
  | Some _ => true
  | None => false
  end.

Fixpoint forEach {S T : Type} (f : S -> T -> Js S) (l : list T) (st : S)
  : Js S :=
  match l with
  | [] => ret st
  | x :: r => st' <- f st x ;; forEach f r st'
  end.

Definition outputPath : string := "public/projects.json".

Definition writeFileSync (p : string) (data : list Project) : Js unit :=
  if writeOk fs p then (Normal tt, [WriteFile p data]) else throw.

Definition summaryLine (st : unit) (project : Project) : Js unit :=
  say (LogSummary (title project) (length (images project))
                  (length (videos project))).

Definition buildBody : Js unit :=
  match readdirSync fs projectsDir with
  | None => throw
  | Some projectFolders =>
      st <- forEach processFolder projectFolders ([], 1) ;;
      let projects := array_sort compareEndDate (fst st) in
      writeFileSync outputPath projects ;;;
      say (LogBuilt (length projects)) ;;;
      say (LogOutput outputPath) ;;;
      forEach summaryLine projects tt
  end.

Definition buildProjectsJson : Js unit :=
  say LogScanning ;;;
  if negb (existsSync fs projectsDir)
  then say (ErrDirNotFound projectsDir)
  else tryCatch buildBody (say ErrBuilding).

(** The array of the last write to [public/projects.json]. *)
Definition written : option (list Project) :=
  lastWrite outputPath (snd buildProjectsJson).

(** The count property read literally: whenever exactly one candidate
    directory has no readable sidecar, the manifest written has one
    record less than there are candidates. *)
Definition oneMissingLeavesOneOut : Prop :=
  forall folders m,
    readdirSync fs projectsDir = Some folders ->
    length (filter sidecarMissing (candidates folders)) = 1%nat ->
    written = Some m ->
    S (length m) = length (candidates folders).

(** What the run leaves in [public/projects.json], over its previous
    content. *)
Definition manifestAfter (previous : option (list Project))
  : option (list Project) :=
  match lastWrite outputPath (snd buildProjectsJson) with
  | Some m => Some m
  | None => previous
  end.

End WithFileSystem.

End FsPipeline.

(** ** The SQLite store *)

Module Sqlite.

(** The cells of a table by storage class: NULL, INTEGER, TEXT and
    BLOB.  A REAL cell is not modelled: the stores of this development
    hold none.

    The same type stands for what [better-sqlite3] hands to JavaScript:
    [null], a number, a string, a [Buffer].  A number that stems from an
    INTEGER cell is a double with an integer value, and [SqlInt d] is
    the number of value [d]: see [jsValue]. *)
Inductive SqlValue : Type :=
| SqlNull
| SqlInt (z : Z)
| SqlText (s : string)
| SqlBlob (b : string).

(** A row of a table, and a result row of a query: the object with one
    property per column. *)
Definition Row : Type := list (string * SqlValue).

(** The multiple of [2 ^ e] nearest to [a], for [a >= 0]; of two
    nearest ones the even multiple. *)
Definition roundTo (e a : Z) : Z :=
  let q := a / 2 ^ e in
  let r := a mod 2 ^ e in
  if (2 ^ e <? 2 * r) || ((2 * r =? 2 ^ e) && Z.odd q)
  then (q + 1) * 2 ^ e
  else q * 2 ^ e.

(** The double nearest to an integer, ties to the even significand: the
    conversion of a 64-bit INTEGER to a JavaScript number.  A double has
    53 significant bits, so an integer below [2 ^ 53] in absolute value
    is kept, and one of [n > 53] bits is rounded to a multiple of
    [2 ^ (n - 53)]. *)
Definition toDouble (z : Z) : Z :=
  let a := Z.abs z in
  if a <? 2 ^ 53 then z
  else Z.sgn z * roundTo (Z.log2 a - 52) a.

(** A cell as [better-sqlite3] hands it to JavaScript (safe integers
    are not switched on): an INTEGER as the nearest double, NULL, TEXT
    and BLOB as they are. *)
Definition jsValue (v : SqlValue) : SqlValue :=
  match v with
  | SqlInt z => SqlInt (toDouble z)
  | _ => v
  end.

(** A row as [.all()] returns it. *)
Definition jsRow (r : Row) : Row :=
  map (fun kv => (fst kv, jsValue (snd kv))) r.

(** The cells that reach JavaScript as they are stored. *)
Definition unrounded (v : SqlValue) : Prop :=
  match v with
  | SqlInt z => Z.abs z <= 2 ^ 53
  | _ => True
  end.

(** [Number.isSafeInteger] on the numbers, true of the other values:
    the values JavaScript holds that tell the cell they were read
    from. *)
Definition safe (v : SqlValue) : Prop :=
  match v with
  | SqlInt z => Z.abs z < 2 ^ 53
  | _ => True
  end.

(** What [PRAGMA table_info] tells of a column. *)
Record Column : Type := { col_name : string; notnull : bool }.

Record Table : Type := {
  columns : list Column;
  rows : list Row;
  (** next AUTOINCREMENT key *)
  next_id : Z
}.

(** The tables of the database file, by name.  SQLite takes the name
    of a table without regard to case and keeps views under the same
    names, while the script looks [projects] up in [sqlite_master] as a
    table of this very spelling.  A store holds its tables under the
    spellings of the script and no view of such a name, and its file can
    be written: a table [Projects], a view [projects] and a read-only
    file are outside the model. *)
Record Database : Type := {
  projects : option Table;
  technologies : option Table;
  projects_new : option Table
}.

Definition column (c : string) (r : Row) : SqlValue :=
  match assoc c r with Some v => v | None => SqlNull end.

Definition hasColumn (c : string) (t : Table) : bool :=
  existsb (fun col => String.eqb (col_name col) c) (columns t).

Definition isNull (v : SqlValue) : bool :=
  match v with SqlNull => true | _ => false end.

Definition classRank (v : SqlValue) : Z :=
  match v with SqlNull => 0 | SqlInt _ => 1 | SqlText _ => 2 | SqlBlob _ => 3 end.

(** The ordering of values in [ORDER BY]: NULL, then numbers, then text
    (BINARY collation), then blobs. *)
Definition sqlCompare (a b : SqlValue) : comparison :=
  match a, b with
  | SqlInt x, SqlInt y => Z.compare x y
  | SqlText s, SqlText t => JsString.compare s t
  | SqlBlob s, SqlBlob t => JsString.compare s t
  | _, _ => Z.compare (classRank a) (classRank b)
  end.

(** One [DESC] term: the greater value first. *)
Definition descending (c : comparison) : Z :=
  match c with Gt => -1 | Eq => 0 | Lt => 1 end.

(** Default of a column left out of an INSERT, for the schemas this
    script creates. *)
Definition defaultOf (now : string) (t : Table) (c : string) : SqlValue :=
  if String.eqb c "id" then SqlInt (next_id t)
  else if String.eqb c "created_at" || String.eqb c "updated_at"
       then SqlText now
       else SqlNull.

Definition newRow (now : string) (t : Table) (vals : Row) : Row :=
  map (fun col =>
         (col_name col,
          match assoc (col_name col) vals with
          | Some v => v
          | None => defaultOf now t (col_name col)
          end))
      (columns t).

Definition violatesNotNull (t : Table) (r : Row) : bool :=
  existsb (fun col => notnull col && isNull (column (col_name col) r))
          (columns t).

(** [INSERT INTO t (cols) VALUES (vals)]; [None] when the statement
    fails (unknown column, NOT NULL constraint). *)
Definition insertInto (now : string) (t : Table) (vals : Row) : option Table :=
  if forallb (fun kv => hasColumn (fst kv) t) vals then
    let r := newRow now t vals in
    if violatesNotNull t r then None
    else Some {| columns := columns t;
                 rows := (rows t ++ [r])%list;
                 next_id := next_id t + 1 |}
  else None.

(** A run of single-row INSERT statements, each committed on its own:
    the table after the statements that succeeded, and whether all did. *)
Fixpoint insertAll (now : string) (t : Table) (l : list Row) : Table * bool :=
  match l with
  | [] => (t, true)
  | vals :: rest =>
      match insertInto now t vals with
      | Some t' => insertAll now t' rest
      | None => (t, false)
      end
  end.

End Sqlite.

(** ** The database pipeline *)

Module DbPipeline.

Import Sqlite.

(** A property of an output object: [None] is [undefined]. *)
Definition JsField : Type := option SqlValue.

Record Tech : Type := { name : string; icon : JsField; iconType : JsField }.

Inductive OutValue : Type :=
| Col (v : SqlValue)
| TechArray (l : list Tech).

(** An output object: its properties in order. *)
Definition Record_ : Type := list (string * OutValue).

Inductive Line : Type :=
| LogCreating
| LogMigrating
| LogMigrated
| LogNoMigration
| LogTechnologiesInserted
| LogSampleCreated
| LogExported (jsonPath : string)
| LogTotal (n : nat)
| ErrExporting.

Definition Eff : Type := Effect Line (list Record_).

(** A computation over the open database. *)
Definition Db (A : Type) : Type :=
  Database -> Completion A * Database * list Eff.

Definition ret {A : Type} (a : A) : Db A := fun db => (Normal a, db, []).

Definition bind {A B : Type} (m : Db A) (f : A -> Db B) : Db B :=
  fun db =>
    match m db with
    | (Normal a, db', es) =>
        match f a db' with (c, db'', es') => (c, db'', (es ++ es')%list) end
    | (Throw, db', es) => (Throw, db', es)
    | (Exit code, db', es) => (Exit code, db', es)
    end.

Definition say (l : Line) : Db unit := fun db => (Normal tt, db, [Console l]).

Definition throw {A : Type} : Db A := fun db => (Throw, db, []).

Definition getDb : Db Database := fun db => (Normal db, db, []).

Definition putDb (db' : Database) : Db unit := fun _ => (Normal tt, db', []).

(** [try { m } catch (error) { h }] *)
Definition tryCatch {A : Type} (m : Db A) (h : Db A) : Db A :=
  fun db =>
    match m db with
    | (Throw, db', es) =>
        match h db' with (c, db'', es') => (c, db'', (es ++ es')%list) end
    | other => other
    end.

(** Effects that write no file, and computations with only such. *)
Definition silent (es : list Eff) : Prop :=
  Forall (fun e => isWrite e = false) es.

Definition Silent {A : Type} (m : Db A) : Prop :=
  forall db, silent (snd (m db)) /\
             forall code, fst (fst (m db)) <> Exit code.

Definition processExit {A : Type} (code : Z) : Db A :=
  fun db => (Exit code, db, []).

Declare Scope db_scope.
Delimit Scope db_scope with db.
Notation "x <- m ;; k" := (bind m (fun x => k))
  (at level 61, m at next level, right associativity) : db_scope.
Notation "m ;;; k" := (bind m (fun _ => k))
  (at level 61, right associativity) : db_scope.
Local Open Scope db_scope.

Definition col (n : string) (nn : bool) : Column :=
  {| col_name := n; notnull := nn |}.

(** [CREATE TABLE projects (...)] as the script writes it. *)
Definition projectsSchema : list Column :=
  [col "id" false; col "title" true; col "description" false;
   col "image" false; col "tech" false; col "start_date" false;
   col "end_date" false; col "created_at" false; col "updated_at" false].

Definition technologiesSchema : list Column :=
  [col "id" false; col "name" true; col "icon_path" true;
   col "icon_type" true; col "created_at" false].

Definition emptyTable (schema : list Column) : Table :=
  {| columns := schema; rows := []; next_id := 1 |}.

Definition initialTechnologies : list (string * string * string) :=
  [("bash", "/portfolio/icons/bash.svg", "svg");
   ("c#", "/portfolio/icons/c#.svg", "svg");
   ("c++", "/portfolio/icons/c++.svg", "svg");
   ("c", "/portfolio/icons/c.svg", "svg");
   ("dart", "/portfolio/icons/dart.svg", "svg");
   ("go", "/portfolio/icons/go.svg", "svg");
   ("haskell", "/portfolio/icons/haskell.svg", "svg");
   ("java", "/portfolio/icons/java.svg", "svg");
   ("javascript", "/portfolio/icons/javascript.svg", "svg");
   ("kotlin", "/portfolio/icons/kotlin.svg", "svg");
   ("php", "/portfolio/icons/php.png", "png");
   ("python", "/portfolio/icons/python.svg", "svg");
   ("ruby", "/portfolio/icons/ruby.svg", "svg");
   ("rust", "/portfolio/icons/rust.svg", "svg");
   ("typescript", "/portfolio/icons/typescript.svg", "svg")].

Definition techValues (t : string * string * string) : Row :=
  let '(n, p, ty) := t in
  [("name", SqlText n); ("icon_path", SqlText p); ("icon_type", SqlText ty)].

Definition projectValues
           (p : string * string * string * string * string * string) : Row :=
  let '(t, d, i, te, sd, ed) := p in
  [("title", SqlText t); ("description", SqlText d); ("image", SqlText i);
   ("tech", SqlText te); ("start_date", SqlText sd); ("end_date", SqlText ed)].

Definition initialProjects
  : list (string * string * string * string * string * string) :=
  [("E-Commerce Platform",
    "A full-stack e-commerce application built with React, Node.js, and MongoDB.",
    "https://images.unsplash.com/photo-1556742049-0cfed4f6a45d?w=400&h=200&fit=crop",
    "React,Node.js,MongoDB,Express", "2024-01-15", "2024-06-30");
   ("Task Management App",
    "A collaborative task management tool with real-time updates and team features.",
    "https://images.unsplash.com/photo-1454165804606-c3d57bc86b40?w=400&h=200&fit=crop",
    "React,Firebase,Tailwind CSS", "2024-03-01", "2024-08-15");
   ("Portfolio Website",
    "A modern, responsive portfolio website showcasing my work and skills.",
    "https://images.unsplash.com/photo-1467232004584-a241de8bcf5d?w=400&h=200&fit=crop",
    "React,Vite,Pico CSS", "2024-07-01", "2024-08-24")].

(** [tableInfo.some(col => (col.name === 'description' || ...) &&
    col.notnull === 1)] *)
Definition hasOldSchema (tableInfo : list Column) : bool :=
  existsb (fun c =>
             (String.eqb (col_name c) "description"
              || String.eqb (col_name c) "image"
              || String.eqb (col_name c) "tech")
             && notnull c)
          tableInfo.

Section WithEnvironment.

(** [CURRENT_TIMESTAMP] of the run, the script's directory and the
    file system around it. *)
Variable now : string.
Variable dirname : string.
Variable fs : FileSystem.

Definition orEmpty (schema : list Column) (t : option Table) : option Table :=
  match t with Some _ => t | None => Some (emptyTable schema) end.

(** The two [CREATE TABLE IF NOT EXISTS] statements: each creates its
    table when the store has none of the name (see [Database] for the
    stores taken into account: on them the statements do not fail). *)
Definition createTables : Db unit :=
  db <- getDb ;;
  putDb {| projects := orEmpty projectsSchema (projects db);
           technologies := orEmpty technologiesSchema (technologies db);
           projects_new := projects_new db |}.

Definition migratedColumns : list string :=
  ["id"; "title"; "description"; "image"; "tech"; "start_date";
   "end_date"; "created_at"; "updated_at"].

Definition maxId (l : list Row) : Z :=
  fold_right (fun r m => match column "id" r with
                         | SqlInt z => Z.max z m
                         | _ => m
                         end) 0 l.

(** [INSERT INTO projects_new (...) SELECT ... FROM projects] *)
Definition copyRows (old : Table) : option Table :=
  if forallb (fun c => hasColumn c old) migratedColumns then
    let copied :=
      map (fun r => map (fun c => (c, column c r)) migratedColumns)
          (rows old) in
    if existsb (fun r => isNull (column "title" r)) copied then None
    else Some {| columns := projectsSchema;
                 rows := copied;
                 next_id := maxId copied + 1 |}
  else None.

(** The body of the inner [try]: the migration from the old schema. *)
Definition migrate : Db unit :=
  db <- getDb ;;
  let tableInfo :=
    match projects db with Some t => columns t | None => [] end in
  if hasOldSchema tableInfo then
    say LogMigrating ;;;
    match projects_new db with
    | Some _ => throw
    | None =>
        putDb {| projects := projects db;
                 technologies := technologies db;
                 projects_new := Some (emptyTable projectsSchema) |} ;;;
        match projects db with
        | None => throw
        | Some old =>
            match copyRows old with
            | None => throw
            | Some t =>
                putDb {| projects := Some t;
                         technologies := technologies db;
                         projects_new := None |} ;;;
                say LogMigrated
            end
        end
    end
  else ret tt.

Definition seedTechnologies : Db unit :=
  db <- getDb ;;
  match technologies db with
  | None => throw
  | Some t =>
      if (length (rows t) =? 0)%nat then
        let (t', ok) := insertAll now t (map techValues initialTechnologies) in
        putDb {| projects := projects db;
                 technologies := Some t';
                 projects_new := projects_new db |} ;;;
        if ok then say LogTechnologiesInserted else throw
      else ret tt
  end.

Definition seedProjects : Db unit :=
  db <- getDb ;;
  match projects db with
  | None => throw
  | Some t =>
      let (t', ok) := insertAll now t (map projectValues initialProjects) in
      putDb {| projects := Some t';
               technologies := technologies db;
               projects_new := projects_new db |} ;;;
      if ok then say LogSampleCreated else throw
  end.

(** The branch taken when [sqlite_master] has no [projects] table. *)
Definition bootstrap : Db unit :=
  say LogCreating ;;;
  createTables ;;;
  tryCatch migrate (say LogNoMigration) ;;;
  seedTechnologies ;;;
  seedProjects.

(** [CASE WHEN end_date IS NOT NULL THEN end_date ELSE created_at END] *)
Definition orderKey (r : Row) : SqlValue :=
  if isNull (column "end_date" r) then column "created_at" r
  else column "end_date" r.

(** [ORDER BY <key> DESC, created_at DESC] as a comparator. *)
Definition orderBy (a b : Row) : JsNumber :=
  match sqlCompare (orderKey a) (orderKey b) with
  | Eq => Some (descending (sqlCompare (column "created_at" a)
                                       (column "created_at" b)))
  | o => Some (descending o)
  end.

(** The main query: SQLite orders the rows by the cells as stored, and
    [.all()] hands each row over as an object.  Rows equal on both terms
    come in scan order. *)
Definition selectProjects : Db (list Row) :=
  db <- getDb ;;
  match projects db with
  | None => throw
  | Some t =>
      if hasColumn "end_date" t && hasColumn "created_at" t
      then ret (map jsRow (array_sort orderBy (rows t)))
      else throw
  end.

(** [SELECT * FROM technologies], read with [.all()]. *)
Definition selectTechnologies : Db (list Row) :=
  db <- getDb ;;
  match technologies db with
  | None => throw
  | Some t => ret (map jsRow (rows t))
  end.

(** [technologies.map(tech => [tech.name.toLowerCase(), tech])]; a
    name that is no string has no [toLowerCase]. *)
Fixpoint techEntries (l : list Row) : option (list (string * Row)) :=
  match l with
  | [] => Some []
  | r :: rest =>
      match assoc "name" r, techEntries rest with
      | Some (SqlText n), Some es => Some ((JsString.toLowerCase n, r) :: es)
      | _, _ => None
      end
  end.

(** [techMap.get]: of the entries with one key the [Map] keeps the
    last. *)
Definition mapGet (k : string) (entries : list (string * Row)) : option Row :=
  assoc k (rev entries).

(** [project.tech ? project.tech.split(',') : []]; [None] when the
    value is truthy and has no [split]. *)
Definition techArray (project : Row) : option (list string) :=
  match assoc "tech" project with
  | None | Some SqlNull => Some []
  | Some (SqlInt z) => if z =? 0 then Some [] else None
  | Some (SqlText s) =>
      if JsString.nonempty s then Some (JsString.split "," s) else Some []
  | Some (SqlBlob _) => None
  end.

Definition techWithIcon (techMap : list (string * Row)) (techName : string)
  : Tech :=
  match mapGet (JsString.toLowerCase (JsString.trim techName)) techMap with
  | Some techData =>
      {| name := JsString.trim techName;
         icon := assoc "icon_path" techData;
         iconType := assoc "icon_type" techData |}
  | None =>
      {| name := JsString.trim techName;
         icon := Some SqlNull;
         iconType := Some SqlNull |}
  end.

(** Assignment to a property: in place when the object has it, at the
    end otherwise. *)
Fixpoint setField (k : string) (v : OutValue) (o : Record_) : Record_ :=
  match o with
  | [] => [(k, v)]
  | (k', v') :: r =>
      if String.eqb k k' then (k, v) :: r else (k', v') :: setField k v r
  end.

(** [{ ...project, tech: techWithIcons }] *)
Definition withTechArray (techMap : list (string * Row)) (project : Row)
  : option Record_ :=
  match techArray project with
  | Some names =>
      Some (setField "tech" (TechArray (map (techWithIcon techMap) names))
                     (map (fun kv => (fst kv, Col (snd kv))) project))
  | None => None
  end.

Fixpoint mapAll {X Y : Type} (f : X -> option Y) (l : list X)
  : option (list Y) :=
  match l with
  | [] => Some []
  | x :: r =>
      match f x, mapAll f r with
      | Some y, Some ys => Some (y :: ys)
      | _, _ => None
      end
  end.

Definition publicDir : string := Path.join (Path.join dirname "..") "public".

Definition jsonPath : string := Path.join publicDir "projects.json".

Definition ensurePublicDir : Db unit :=
  if negb (existsSync fs publicDir) then
    if mkdirOk fs publicDir
    then (fun db => (Normal tt, db, [MkDir publicDir]))
    else throw
  else ret tt.

Definition writeFileSync (p : string) (data : list Record_) : Db unit :=
  if writeOk fs p
  then (fun db => (Normal tt, db, [WriteFile p data]))
  else throw.

(** The main read, the assembly and the write. *)
Definition exportRows : Db unit :=
  projectRows <- selectProjects ;;
  techRows <- selectTechnologies ;;
  match techEntries techRows with
  | None => throw
  | Some techMap =>
      match mapAll (withTechArray techMap) projectRows with
      | None => throw
      | Some projectsWithTechArray =>
          ensurePublicDir ;;;
          writeFileSync jsonPath projectsWithTechArray ;;;
          say (LogExported jsonPath) ;;;
          say (LogTotal (length projectRows))
      end
  end.

(** The body of the outer [try], once the database is open.  The
    lookup in [sqlite_master] finds a row exactly when the store holds a
    table under the name [projects] (see [Database]). *)
Definition exportBody : Db unit :=
  db <- getDb ;;
  (match projects db with
   | None => bootstrap
   | Some _ => ret tt
   end) ;;;
  exportRows.

(** The database as the bootstrap leaves it for the main read. *)
Definition prepared (db : Database) : Database :=
  snd (fst ((match projects db with
             | None => bootstrap
             | Some _ => ret tt
             end) db)).

(** The script: [store] is what [projects.db] holds, [None] when
    [new Database] cannot open it. *)
Definition exportProjectsToJson (store : option Database)
  : Completion unit * option Database * list Eff :=
  match store with
  | Some db =>
      match tryCatch exportBody (say ErrExporting ;;; processExit 1) db with
      | (c, db', es) => (c, Some db', es)
      end
  | None => (Exit 1, None, [Console ErrExporting])
  end.

(** The array written to the manifest, if the run wrote it. *)
Definition manifest (store : option Database) : option (list Record_) :=
  lastWrite jsonPath (snd (exportProjectsToJson store)).

End WithEnvironment.

(** Reading an output object. *)
Definition outColumn (c : string) (o : Record_) : SqlValue :=
  match assoc c o with
  | Some (Col v) => v
  | _ => SqlNull
  end.

Definition outKey (o : Record_) : SqlValue :=
  if isNull (outColumn "end_date" o) then outColumn "created_at" o
  else outColumn "end_date" o.

Definition techNamesOf (o : Record_) : list string :=
  match assoc "tech" o with
  | Some (TechArray l) => map name l
  | _ => []
  end.

Definition recordId (o : Record_) : option Z :=
  match assoc "id" o with
  | Some (Col (SqlInt z)) => Some z
  | _ => None
  end.

(** A record without end date: NULL or the empty string. *)
Definition undated (o : Record_) : bool :=
  match outColumn "end_date" o with
  | SqlNull => true
  | SqlText s => negb (JsString.nonempty s)
  | _ => false
  end.

(** The order property read literally on a manifest: every record
    without end date comes after every record with one. *)
Definition undatedLast (m : list Record_) : Prop :=
  forall i j a b,
    nth_error m i = Some a -> nth_error m j = Some b ->
    undated a = true -> undated b = false -> (j < i)%nat.

(** The numbering property read literally on a manifest. *)
Definition denselyNumbered (m : list Record_) : Prop :=
  exists ids, map recordId m = map Some ids /\ denseIds ids.

(** The columns property read literally on a manifest and the rows it
    stems from: each record has every column of its row but [tech] with
    the value the store holds. *)
Definition columnsAsStored (sourceRows : list Row) (m : list Record_) : Prop :=
  Forall2 (fun row out =>
             forall c, c <> "tech" -> assoc c out = option_map Col (assoc c row))
          sourceRows m.

(** The comma-separated segments of the [tech] cell of a row; a cell
    that is NULL, missing or the empty text has none. *)
Definition segmentsOf (row : Row) : list string :=
  match assoc "tech" row with
  | Some (SqlText s) =>
      if JsString.nonempty s then JsString.split "," s else []
  | _ => []
  end.

(** A row of [technologies] bears the name of a segment: its [name] is
    a text that equals the trimmed segment up to case. *)
Definition bearsName (r : Row) (segment : string) : Prop :=
  exists n,
    assoc "name" r = Some (SqlText n) /\
    JsString.toLowerCase n = JsString.toLowerCase (JsString.trim segment).

(** The resolved technology of a segment, in the words of the
    specification: the trimmed name, with icon and icon type of the row
    of [technologies] that bears the name, the last one when there are
    several, and both null when there is none. *)
Definition resolvedFrom (techRows : list Row) (segment : string) (e : Tech)
  : Prop :=
  name e = JsString.trim segment /\
  ((exists before r after,
       techRows = (before ++ r :: after)%list /\
       bearsName r segment /\
       (forall r', In r' after -> ~ bearsName r' segment) /\
       icon e = option_map jsValue (assoc "icon_path" r) /\
       iconType e = option_map jsValue (assoc "icon_type" r))
   \/
   ((forall r, In r techRows -> ~ bearsName r segment) /\
    icon e = Some SqlNull /\ iconType e = Some SqlNull)).

End DbPipeline.

(** ** Concrete worlds

    Small file systems and stores on which the scripts are run below. *)

Module Examples.

Import Sqlite.

(** No [public/projects] directory. *)
Definition noRootFs : FileSystem :=
  {| existsSync := fun _ => false;
     readdirSync := fun _ => None;
     statIsDirectory := fun _ => None;
     loadYaml := fun _ => None;
     mkdirOk := fun _ => true;
     writeOk := fun _ => true |}.

(** Three project folders and a stray file: [alpha] has no sidecar,
    [beta] ended in June 2024 and holds a video with its thumbnail,
    [gamma] has no end date, [delta] ended in August 2024. *)
Definition demoFs : FileSystem :=
  {| existsSync := fun p =>
       existsb (String.eqb p)
               ["public/projects"; "public/projects/beta/demo-thumb.png";
                "public/icons/react.svg"; "public/icons/mongodb.png"];
     readdirSync := fun p =>
       if String.eqb p "public/projects"
       then Some ["README.md"; "alpha"; "beta"; "gamma"; "delta"]
       else if String.eqb p "public/projects/beta"
       then Some ["cover.JPG"; "demo-thumb.png"; "demo.mp4"; "project.yml"]
       else if String.eqb p "public/projects/alpha" then Some ["notes.txt"]
       else Some ["project.yml"];
     statIsDirectory := fun p =>
       Some (negb (String.eqb p "public/projects/README.md"));
     loadYaml := fun p =>
       if String.eqb p "public/projects/beta/project.yml"
       then Some (JMap [("title", JStr "Beta");
                        ("end_date", JStr "2024-06-30");
                        ("tech", JStr "React, Node.js,  MongoDB")])
       else if String.eqb p "public/projects/gamma/project.yml"
       then Some (JMap [("title", JStr "Gamma")])
       else if String.eqb p "public/projects/delta/project.yml"
       then Some (JMap [("title", JStr "Delta");
                        ("end_date", JStr "2024-08-15")])
       else None;
     mkdirOk := fun _ => true;
     writeOk := fun _ => true |}.

(** Two project folders: [a] has no sidecar, the sidecar of [b] is an
    empty file, which [yaml.load] turns into [undefined]. *)
Definition emptySidecarFs : FileSystem :=
  {| existsSync := fun _ => true;
     readdirSync := fun p =>
       if String.eqb p "public/projects" then Some ["a"; "b"] else Some [];
     statIsDirectory := fun _ => Some true;
     loadYaml := fun p =>
       if String.eqb p "public/projects/b/project.yml" then Some JUndefined
       else None;
     mkdirOk := fun _ => true;
     writeOk := fun _ => true |}.

(** Three project folders whose end dates are, in listing order, June
    2024, a text that is no date, and August 2024. *)
Definition badDateFs : FileSystem :=
  {| existsSync := fun _ => true;
     readdirSync := fun p =>
       if String.eqb p "public/projects" then Some ["x"; "y"; "z"] else Some [];
     statIsDirectory := fun _ => Some true;
     loadYaml := fun p =>
       if String.eqb p "public/projects/x/project.yml"
       then Some (JMap [("title", JStr "X"); ("end_date", JStr "2024-06-30")])
       else if String.eqb p "public/projects/y/project.yml"
       then Some (JMap [("title", JStr "Y"); ("end_date", JStr "soon")])
       else if String.eqb p "public/projects/z/project.yml"
       then Some (JMap [("title", JStr "Z"); ("end_date", JStr "2024-08-15")])
       else None;
     mkdirOk := fun _ => true;
     writeOk := fun _ => true |}.

(** Time values of the dates above (milliseconds since the epoch). *)
Definition dateOf (v : JsVal) : JsNumber :=
  match v with
  | JStr s =>
      if String.eqb s "2024-06-30" then Some 1719705600000
      else if String.eqb s "2024-08-15" then Some 1723680000000
      else None
  | JDate t => t
  | JNum z => Some z
  | _ => None
  end.

Definition runNow : string := "2025-03-01 12:00:00".
Definition toolsDir : string := "/srv/portfolio/tools".

(** The surroundings of the database script: [public] exists and can
    be written. *)
Definition diskFs : FileSystem :=
  {| existsSync := fun _ => true;
     readdirSync := fun _ => None;
     statIsDirectory := fun _ => None;
     loadYaml := fun _ => None;
     mkdirOk := fun _ => true;
     writeOk := fun _ => true |}.

Definition projectRow (i : Z) (t te : string) (ed : SqlValue) (created : string)
  : Row :=
  [("id", SqlInt i); ("title", SqlText t); ("description", SqlText "");
   ("image", SqlText ""); ("tech", SqlText te); ("start_date", SqlNull);
   ("end_date", ed); ("created_at", SqlText created);
   ("updated_at", SqlText created)].

Definition technologyRow (i : Z) (n p ty : string) : Row :=
  [("id", SqlInt i); ("name", SqlText n); ("icon_path", SqlText p);
   ("icon_type", SqlText ty); ("created_at", SqlText "2024-01-01 00:00:00")].

Definition someTechnologies : Table :=
  {| columns := DbPipeline.technologiesSchema;
     rows := [technologyRow 1 "react" "/portfolio/icons/react.svg" "svg";
              technologyRow 2 "rust" "/portfolio/icons/rust.svg" "svg"];
     next_id := 3 |}.

Definition someProjects : list Row :=
  [projectRow 2 "Dated" "React,,Node" (SqlText "2024-06-30")
              "2024-01-10 09:00:00";
   projectRow 5 "Undated" "Rust" SqlNull "2025-01-20 09:00:00"].

(** A store with the current schema: ids 2 and 5 (1, 3 and 4 were
    deleted), the second row without end date. *)
Definition storeDb : Database :=
  {| projects := Some {| columns := DbPipeline.projectsSchema;
                         rows := someProjects;
                         next_id := 6 |};
     technologies := Some someTechnologies;
     projects_new := None |}.

(** The same rows under the legacy schema, where [description], [image]
    and [tech] are NOT NULL. *)
Definition legacySchema : list Column :=
  [DbPipeline.col "id" false; DbPipeline.col "title" true;
   DbPipeline.col "description" true; DbPipeline.col "image" true;
   DbPipeline.col "tech" true; DbPipeline.col "start_date" false;
   DbPipeline.col "end_date" false; DbPipeline.col "created_at" false;
   DbPipeline.col "updated_at" false].

Definition legacyDb : Database :=
  {| projects := Some {| columns := legacySchema;
                         rows := someProjects;
                         next_id := 6 |};
     technologies := Some someTechnologies;
     projects_new := None |}.

(** A store whose [technologies] table is missing. *)
Definition noTechnologiesDb : Database :=
  {| projects := projects storeDb;
     technologies := None;
     projects_new := None |}.

(** A database file just created: no table at all. *)
Definition freshDb : Database :=
  {| projects := None; technologies := None; projects_new := None |}.

End Examples.

(** ** More concrete worlds *)

Module MoreExamples.

Import Sqlite.

(** One project folder whose sidecar is fine but whose listing cannot be
    read. *)
Definition unreadableFs : FileSystem :=
  {| existsSync := fun _ => true;
     readdirSync := fun p =>
       if String.eqb p "public/projects" then Some ["locked"] else None;
     statIsDirectory := fun _ => Some true;
     loadYaml := fun _ => Some (JMap [("title", JStr "Locked")]);
     mkdirOk := fun _ => true;
     writeOk := fun _ => true |}.

(** A listing with a dangling entry: [statSync] throws on [gone]. *)
Definition danglingFs : FileSystem :=
  {| existsSync := fun _ => true;
     readdirSync := fun p =>
       if String.eqb p "public/projects" then Some ["fine"; "gone"] else Some [];
     statIsDirectory := fun p =>
       if String.eqb p "public/projects/gone" then None else Some true;
     loadYaml := fun _ => Some (JMap [("title", JStr "Fine")]);
     mkdirOk := fun _ => true;
     writeOk := fun _ => true |}.

(** Three folders without end date. *)
Definition undatedFs : FileSystem :=
  {| existsSync := fun _ => true;
     readdirSync := fun p =>
       if String.eqb p "public/projects" then Some ["one"; "two"; "three"]
       else Some [];
     statIsDirectory := fun _ => Some true;
     loadYaml := fun p => Some (JMap [("title", JStr p)]);
     mkdirOk := fun _ => true;
     writeOk := fun _ => true |}.




(** A legacy table that lacks the [image] column: its rows cannot be
    copied. *)
Definition narrowLegacyDb : Database :=
  {| projects := Some {| columns := [DbPipeline.col "id" false;
                                     DbPipeline.col "title" true;
                                     DbPipeline.col "description" true];
                         rows := [[("id", SqlInt 1); ("title", SqlText "Old");
                                   ("description", SqlText "")]];
                         next_id := 2 |};
     technologies := None;
     projects_new := None |}.

(** No [projects] table, but a [technologies] table with rows of its own. *)
Definition ownTechnologiesDb : Database :=
  {| projects := None;
     technologies := Some Examples.someTechnologies;
     projects_new := None |}.

(** A store whose one row has the id [2 ^ 53 + 1]. *)
Definition bigIdRow : Row :=
  Examples.projectRow 9007199254740993 "Big" "Rust" (SqlText "2024-06-30")
                      "2024-01-10 09:00:00".

Definition bigIdDb : Database :=
  {| projects := Some {| columns := DbPipeline.projectsSchema;
                         rows := [bigIdRow];
                         next_id := 9007199254740994 |};
     technologies := Some Examples.someTechnologies;
     projects_new := None |}.

(** Two rows whose end dates are counts of nanoseconds that differ by
    one, and are the same double; the row with the later end date was
    created first. *)
Definition tiedKeysDb : Database :=
  {| projects :=
       Some {| columns := DbPipeline.projectsSchema;
               rows := [Examples.projectRow 1 "Older" "" (SqlInt 1719705600000000001)
                                            "2024-01-10 09:00:00";
                        Examples.projectRow 2 "Newer" "" (SqlInt 1719705600000000000)
                                            "2025-01-20 09:00:00"];
               next_id := 3 |};
     technologies := Some Examples.someTechnologies;
     projects_new := None |}.

(** A disk on which [public] is missing and cannot be created. *)
Definition readOnlyFs : FileSystem :=
  {| existsSync := fun _ => false;
     readdirSync := fun _ => None;
     statIsDirectory := fun _ => None;
     loadYaml := fun _ => None;
     mkdirOk := fun _ => false;
     writeOk := fun _ => true |}.

End MoreExamples.

(** * Properties *)

(** ** Lists and effects *)

Lemma StronglySorted_nth_error {A : Type} (R : A -> A -> Prop) (l : list A) :
  StronglySorted R l ->
  forall (i j : nat) (a b : A),
    (i < j)%nat -> nth_error l i = Some a -> nth_error l j = Some b -> R a b.
Proof.
  induction 1 as [|x l Hs IH Hall]; intros i j a b Hij Hi Hj.
  - destruct i; discriminate.
  - destruct j as [|j]; [lia|].
    destruct i as [|i]; simpl in Hi, Hj.
    + injection Hi as <-.
      rewrite Forall_forall in Hall. apply Hall.
      eapply nth_error_In; eassumption.
    + eapply IH; [|eassumption|eassumption]. lia.
Qed.

Lemma lastWrite_app {C D : Type} (p : string) (a b : list (Effect C D)) :
  lastWrite p (a ++ b) =
  match lastWrite p b with Some d => Some d | None => lastWrite p a end.
Proof.
  induction a as [|e a IH]; simpl.
  - destruct (lastWrite p b); reflexivity.
  - rewrite IH. destruct (lastWrite p b); reflexivity.
Qed.

Lemma lastWrite_none {C D : Type} (p : string) (es : list (Effect C D)) :
  Forall (fun e => isWrite e = false) es -> lastWrite p es = None.
Proof.
  induction 1 as [|e es He _ IH]; simpl; [reflexivity|].
  rewrite IH. destruct e; simpl in He; congruence.
Qed.

(** ** The stable sort *)

Section ArraySortFacts.

Context {A : Type}.
Variable comparefn : A -> A -> JsNumber.

Lemma sort_insert_perm (x : A) (l : list A) :
  Permutation (sort_insert comparefn x l) (x :: l).
Proof.
  induction l as [|y t IH]; simpl; [apply Permutation_refl|].
  destruct (0 <? cmpZ comparefn x y).
  - eapply Permutation_trans; [apply perm_skip, IH | apply perm_swap].
  - apply Permutation_refl.
Qed.

Lemma array_sort_perm (l : list A) : Permutation (array_sort comparefn l) l.
Proof.
  induction l as [|x t IH]; simpl; [constructor|].
  eapply Permutation_trans; [apply sort_insert_perm|].
  apply perm_skip, IH.
Qed.

Lemma array_sort_length (l : list A) :
  length (array_sort comparefn l) = length l.
Proof. apply Permutation_length, array_sort_perm. Qed.

(** On the elements where the comparator is consistent ([valid]), the
    result is ordered by it, and elements it does not tell apart keep
    the order [before] they had in the input. *)
Variable valid : A -> Prop.
Variable before : A -> A -> Prop.

Hypothesis cmp_antisym :
  forall x y, valid x -> valid y -> 0 < cmpZ comparefn x y -> cmpZ comparefn y x < 0.
Hypothesis cmp_trans :
  forall x y z, valid x -> valid y -> valid z ->
                cmpZ comparefn x y <= 0 -> cmpZ comparefn y z <= 0 -> cmpZ comparefn x z <= 0.

Lemma sort_insert_sorted (x : A) (s : list A) :
  valid x -> Forall valid s -> Forall (before x) s ->
  StronglySorted (inOrder comparefn before) s ->
  StronglySorted (inOrder comparefn before) (sort_insert comparefn x s).
Proof.
  intros Hx Hv Hb Hs. induction Hs as [|y t Hs IH Hall]; simpl.
  - repeat constructor.
  - inversion Hv as [|? ? Hy Hvt]; subst.
    inversion Hb as [|? ? Hxy Hbt]; subst.
    destruct (0 <? cmpZ comparefn x y) eqn:E.
    + apply Z.ltb_lt in E. constructor; [apply IH; assumption|].
      eapply Permutation_Forall;
        [apply Permutation_sym, sort_insert_perm|].
      constructor; [|assumption].
      split; [pose proof (cmp_antisym x y Hx Hy E); lia | lia].
    + apply Z.ltb_ge in E. constructor; [constructor; assumption|].
      constructor; [split; [assumption | intros _; assumption]|].
      rewrite Forall_forall in *. intros z Hz.
      split; [|intros _; apply Hbt, Hz].
      apply (cmp_trans x y z Hx Hy (Hvt z Hz) E).
      apply (Hall z Hz).
Qed.

Lemma array_sort_sorted (l : list A) :
  Forall valid l -> StronglySorted before l ->
  StronglySorted (inOrder comparefn before) (array_sort comparefn l).
Proof.
  intros Hv Hs. induction Hs as [|x t Hs IH Hall]; simpl; [constructor|].
  inversion Hv; subst.
  apply sort_insert_sorted; try assumption.
  - eapply Permutation_Forall;
      [apply Permutation_sym, array_sort_perm | assumption].
  - eapply Permutation_Forall;
      [apply Permutation_sym, array_sort_perm | assumption].
  - apply IH; assumption.
Qed.

End ArraySortFacts.

(** ** String comparison *)

Lemma code_inj (a b : ascii) : JsString.code a = JsString.code b -> a = b.
Proof.
  unfold JsString.code. intros H.
  rewrite <- (ascii_N_embedding a), <- (ascii_N_embedding b), H. reflexivity.
Qed.

Lemma compare_eq (s t : string) : JsString.compare s t = Eq -> s = t.
Proof.
  revert t. induction s as [|a s IH]; intros [|b t]; simpl; try discriminate;
    [reflexivity|].
  destruct (N.compare_spec (JsString.code a) (JsString.code b)) as [E|E|E];
    try discriminate.
  intros H. apply code_inj in E. apply IH in H. congruence.
Qed.

Lemma compare_refl (s : string) : JsString.compare s s = Eq.
Proof.
  induction s as [|a s IH]; simpl; [reflexivity|].
  rewrite N.compare_refl. exact IH.
Qed.

Lemma compare_antisym (s t : string) :
  JsString.compare t s = CompOpp (JsString.compare s t).
Proof.
  revert t. induction s as [|a s IH]; intros [|b t]; simpl; try reflexivity.
  rewrite (N.compare_antisym (JsString.code a) (JsString.code b)).
  destruct (JsString.code a ?= JsString.code b)%N; simpl;
    [apply IH | reflexivity | reflexivity].
Qed.

Lemma compare_lt_trans (s t u : string) :
  JsString.compare s t = Lt -> JsString.compare t u = Lt ->
  JsString.compare s u = Lt.
Proof.
  revert t u. induction s as [|a s IH]; intros [|b t] [|c u]; simpl;
    try discriminate; try reflexivity.
  destruct (N.compare_spec (JsString.code a) (JsString.code b)) as [E1|E1|E1];
    destruct (N.compare_spec (JsString.code b) (JsString.code c)) as [E2|E2|E2];
    try discriminate; intros H1 H2.
  - rewrite E1, E2, N.compare_refl. eapply IH; eassumption.
  - rewrite E1. apply N.compare_lt_iff in E2. rewrite E2. reflexivity.
  - rewrite <- E2. apply N.compare_lt_iff in E1. rewrite E1. reflexivity.
  - assert (E : (JsString.code a < JsString.code c)%N) by lia.
    apply N.compare_lt_iff in E. rewrite E. reflexivity.
Qed.

(** ** The loop of the filesystem pipeline *)

Section FsLoop.

Import FsPipeline.
Variable fs : FileSystem.

Lemma silent_app (a b : list Eff) : silent a -> silent b -> silent (a ++ b).
Proof. intros; apply Forall_app; split; assumption. Qed.

Lemma sayIf_silent (b : bool) (l : Line) :
  exists es, sayIf b l = (Normal tt, es) /\ silent es.
Proof.
  destruct b; simpl; eexists; split; try reflexivity; repeat constructor.
Qed.

Lemma scanProjectImages_spec (p : string) :
  exists es, scanProjectImages fs p = (Normal (imagesOf fs p), es) /\ silent es.
Proof.
  unfold scanProjectImages, imagesOf.
  destruct (readdirSync fs p); simpl; eexists; split; try reflexivity;
    repeat constructor.
Qed.

Lemma scanProjectVideos_spec (p : string) :
  exists es, scanProjectVideos fs p = (Normal (videosOf fs p), es) /\ silent es.
Proof.
  unfold scanProjectVideos, videosOf.
  destruct (readdirSync fs p); simpl; eexists; split; try reflexivity;
    repeat constructor.
Qed.

Lemma readProjectYaml_spec (folder : string) :
  exists es,
    readProjectYaml fs (Path.join projectsDir folder)
    = (Normal (folderData fs folder), es) /\ silent es.
Proof.
  unfold readProjectYaml, folderData.
  destruct (loadYaml fs _); simpl; eexists; split; try reflexivity;
    repeat constructor.
Qed.

(** One turn of the loop either throws (when [statSync] does) or leaves
    the state [assemble] describes; it writes nothing. *)
Lemma processFolder_spec (st : LoopState) (folder : string) :
  exists es,
    silent es /\
    match statIsDirectory fs (Path.join projectsDir folder) with
    | None => processFolder fs st folder = (Throw, es)
    | Some _ =>
        processFolder fs st folder
        = (Normal (if emitsRecord fs folder
                   then ((fst st ++ [recordOf fs (snd st) folder])%list,
                         snd st + 1)
                   else st), es)
    end.
Proof.
  unfold processFolder, emitsRecord.
  destruct (statIsDirectory fs (Path.join projectsDir folder)) as [[|]|].
  - destruct (readProjectYaml_spec folder) as (e1 & -> & H1).
    unfold bind at 1 2. simpl.
    destruct (truthy (folderData fs folder)) eqn:T.
    + destruct (scanProjectImages_spec (Path.join projectsDir folder))
        as (e2 & -> & H2).
      destruct (scanProjectVideos_spec (Path.join projectsDir folder))
        as (e3 & -> & H3).
      destruct (sayIf_silent (0 <? length (imagesOf fs (Path.join projectsDir folder)))%nat
                  (LogFoundImages (length (imagesOf fs (Path.join projectsDir folder)))))
        as (e4 & E4 & H4).
      destruct (sayIf_silent (0 <? length (videosOf fs (Path.join projectsDir folder)))%nat
                  (LogFoundVideos (length (videosOf fs (Path.join projectsDir folder)))))
        as (e5 & E5 & H5).
      unfold bind. simpl. rewrite E4, E5. simpl.
      eexists; split; [|reflexivity].
      repeat (apply silent_app || (constructor; [reflexivity|]) || assumption
              || constructor).
    + simpl. eexists; split; [|reflexivity].
      repeat (apply silent_app || (constructor; [reflexivity|]) || assumption
              || constructor).
  - eexists; split; [|reflexivity]. constructor.
  - eexists; split; [|reflexivity]. constructor.
Qed.

Lemma forEach_processFolder (folders : list string) (st : LoopState) :
  exists es,
    silent es /\
    if forallb (fun folder =>
                  match statIsDirectory fs (Path.join projectsDir folder) with
                  | Some _ => true
                  | None => false
                  end) folders
    then forEach (processFolder fs) folders st
         = (Normal ((fst st ++ assemble fs folders (snd st))%list,
                    snd st + Z.of_nat (length (assemble fs folders (snd st)))),
            es)
    else forEach (processFolder fs) folders st = (Throw, es).
Proof.
  revert st. induction folders as [|folder rest IH]; intros st; simpl.
  - exists []. split; [constructor|].
    unfold ret. rewrite app_nil_r, Z.add_0_r. destruct st; reflexivity.
  - destruct (processFolder_spec st folder) as (e1 & H1 & E1).
    destruct (statIsDirectory fs (Path.join projectsDir folder)) eqn:S.
    + rewrite E1. unfold bind. simpl.
      destruct (IH (if emitsRecord fs folder
                    then ((fst st ++ [recordOf fs (snd st) folder])%list,
                          snd st + 1)
                    else st)) as (e2 & H2 & E2).
      exists (e1 ++ e2)%list. split; [apply silent_app; assumption|].
      unfold LoopState in *.
      destruct (forallb _ rest).
      * rewrite E2. destruct (emitsRecord fs folder); cbn [fst snd length].
        -- rewrite <- app_assoc. cbn [app]. rewrite Nat2Z.inj_succ.
           do 3 f_equal. lia.
        -- reflexivity.
      * rewrite E2. reflexivity.
    + rewrite E1. unfold bind. exists e1. split; [assumption | reflexivity].
Qed.

End FsLoop.

(** ** A run of the filesystem pipeline *)

Section FsRun.

Import FsPipeline.
Variable fs : FileSystem.
Variable dateValue : JsVal -> JsNumber.

Lemma summary_silent (projects : list Project) (u : unit) :
  exists es, forEach summaryLine projects u = (Normal tt, es) /\ silent es.
Proof.
  revert u. induction projects as [|p r IH]; intros []; simpl.
  - exists []. split; [reflexivity | constructor].
  - destruct (IH tt) as (es & E & H).
    unfold bind. cbn [summaryLine say]. rewrite E.
    eexists; split; [reflexivity|].
    constructor; [reflexivity | assumption].
Qed.

(** The body of the [try]: it throws without a write, or completes with
    exactly one write, of the sorted array. *)
Lemma buildBody_cases :
  (exists es,
      buildBody fs dateValue = (Throw, es) /\ silent es /\
      (readdirSync fs projectsDir = None \/
       exists folders,
         readdirSync fs projectsDir = Some folders /\
         (forallb (fun folder =>
                     match statIsDirectory fs (Path.join projectsDir folder) with
                     | Some _ => true
                     | None => false
                     end) folders = false
          \/ writeOk fs outputPath = false)))
  \/
  (exists folders es1 es2,
      readdirSync fs projectsDir = Some folders /\
      forallb (fun folder =>
                 match statIsDirectory fs (Path.join projectsDir folder) with
                 | Some _ => true
                 | None => false
                 end) folders = true /\
      writeOk fs outputPath = true /\
      buildBody fs dateValue
      = (Normal tt,
         (es1 ++ WriteFile outputPath
                   (array_sort (compareEndDate dateValue) (assemble fs folders 1))
              :: es2)%list) /\
      silent es1 /\ silent es2 /\
      es1 = snd (forEach (processFolder fs) folders ([], 1))).
Proof.
  unfold buildBody.
  destruct (readdirSync fs projectsDir) as [folders|] eqn:R.
  2:{ left. exists []. repeat split; [constructor | left; reflexivity]. }
  destruct (forEach_processFolder fs folders ([], 1)) as (e1 & H1 & E1).
  destruct (forallb _ folders) eqn:F.
  - rewrite E1. unfold bind at 1. cbn [fst snd app].
    unfold writeFileSync.
    destruct (writeOk fs outputPath) eqn:W.
    + right.
      destruct (summary_silent
                  (array_sort (compareEndDate dateValue) (assemble fs folders 1)) tt)
        as (e3 & E3 & H3).
      unfold bind, say. cbn [fst snd]. rewrite E3. cbn [app].
      exists folders, e1.
      eexists. repeat split; try assumption; try reflexivity.
      * repeat (constructor; [reflexivity|]). assumption.
      * rewrite E1. reflexivity.
    + left. unfold bind, throw. exists (e1 ++ [])%list.
      repeat split; [apply silent_app; [assumption | constructor]|].
      right. exists folders. split; [reflexivity | right; reflexivity].
  - left. rewrite E1. unfold bind. exists e1.
    repeat split; [assumption|].
    right. exists folders. split; [reflexivity | left; assumption].
Qed.

(** Whatever the file system holds, the call returns normally. *)
Lemma buildProjectsJson_normal : fst (buildProjectsJson fs dateValue) = Normal tt.
Proof.
  unfold buildProjectsJson, bind, say.
  destruct (negb (existsSync fs projectsDir)); [reflexivity|].
  unfold tryCatch.
  destruct buildBody_cases as [(es & -> & _) | (f & e1 & e2 & _ & _ & _ & -> & _)];
    reflexivity.
Qed.

(** Every manifest written is the sorted array of the records of the
    listed folders, numbered from 1. *)
Lemma buildProjectsJson_written (m : list Project) :
  lastWrite outputPath (snd (buildProjectsJson fs dateValue)) = Some m ->
  exists folders,
    existsSync fs projectsDir = true /\
    readdirSync fs projectsDir = Some folders /\
    m = array_sort (compareEndDate dateValue) (assemble fs folders 1) /\
    forallb (statSucceeds fs) folders = true /\
    incl (snd (forEach (processFolder fs) folders ([], 1)))
         (snd (buildProjectsJson fs dateValue)).
Proof.
  unfold buildProjectsJson, bind, say.
  destruct (existsSync fs projectsDir) eqn:X; cbn [negb]; [|discriminate].
  unfold tryCatch.
  destruct buildBody_cases
    as [(es & -> & H & _) | (f & e1 & e2 & R & F & _ & -> & H1 & H2 & E1)].
  - cbn [snd app]. intros L.
    change (Console LogScanning :: (es ++ [Console ErrBuilding])%list)
      with (([Console LogScanning] ++ es ++ [Console ErrBuilding])%list) in L.
    rewrite lastWrite_none in L; [discriminate|].
    apply silent_app; [repeat constructor|].
    apply silent_app; [assumption | repeat constructor].
  - cbn [snd app]. intros L.
    change (Console LogScanning :: (e1 ++ WriteFile outputPath
             (array_sort (compareEndDate dateValue) (assemble fs f 1)) :: e2)%list)
      with ((Console LogScanning :: e1) ++ [WriteFile outputPath
             (array_sort (compareEndDate dateValue) (assemble fs f 1))] ++ e2)%list
      in L.
    rewrite !lastWrite_app, (lastWrite_none _ e2 H2) in L.
    cbn in L. injection L as <-.
    exists f. repeat split; try assumption.
    rewrite <- E1. intros e He. cbn [snd]. right.
    apply in_or_app. left. assumption.
Qed.

Lemma buildProjectsJson_writes (folders : list string) :
  existsSync fs projectsDir = true ->
  readdirSync fs projectsDir = Some folders ->
  forallb (fun folder =>
             match statIsDirectory fs (Path.join projectsDir folder) with
             | Some _ => true
             | None => false
             end) folders = true ->
  writeOk fs outputPath = true ->
  lastWrite outputPath (snd (buildProjectsJson fs dateValue))
  = Some (array_sort (compareEndDate dateValue) (assemble fs folders 1)).
Proof.
  intros X R F W.
  unfold buildProjectsJson, bind, say. rewrite X. cbn [negb].
  unfold tryCatch.
  destruct buildBody_cases
    as [(es & _ & _ & [R'|(f & R' & [F'|W'])])
       | (f & e1 & e2 & R' & _ & _ & -> & H1 & H2 & _)]; try congruence.
  rewrite R in R'. injection R' as <-. cbn [snd app].
    change (Console LogScanning :: (e1 ++ WriteFile outputPath
             (array_sort (compareEndDate dateValue) (assemble fs folders 1)) :: e2)%list)
      with ((Console LogScanning :: e1) ++ [WriteFile outputPath
             (array_sort (compareEndDate dateValue) (assemble fs folders 1))] ++ e2)%list.
    rewrite !lastWrite_app, (lastWrite_none _ e2 H2). reflexivity.
Qed.

End FsRun.

(** ** The asset scanner *)

Lemma findThumbnail_spec (fs : FileSystem) (projectPath baseName : string)
      (exts : list string) :
  match FsPipeline.findThumbnail fs projectPath baseName exts with
  | Some t =>
      exists pre ext post,
        exts = (pre ++ ext :: post)%list /\
        Forall (fun e => existsSync fs (Path.join projectPath
                                          (FsPipeline.thumbFile baseName e)) = false) pre /\
        existsSync fs (Path.join projectPath (FsPipeline.thumbFile baseName ext)) = true /\
        t = FsPipeline.publicPath projectPath (FsPipeline.thumbFile baseName ext)
  | None =>
      Forall (fun e => existsSync fs (Path.join projectPath
                                        (FsPipeline.thumbFile baseName e)) = false) exts
  end.
Proof.
  induction exts as [|e rest IH]; simpl; [constructor|].
  destruct (existsSync fs (Path.join projectPath (FsPipeline.thumbFile baseName e)))
           eqn:X.
  - exists [], e, rest. repeat split; [constructor | assumption].
  - destruct (FsPipeline.findThumbnail fs projectPath baseName rest).
    + destruct IH as (pre & ext & post & -> & Hpre & Hx & ->).
      exists (e :: pre), ext, post. repeat split; try assumption.
      constructor; assumption.
    + constructor; assumption.
Qed.

(** C7: every video file of a project directory becomes a descriptor whose
    thumbnail is the public path of [<base>-thumb<ext>] for the first
    extension of [.jpg, .jpeg, .png, .webp] for which that sibling exists,
    and null when there is none; [demo.mp4] with a sibling
    [demo-thumb.png] (and no [.jpg] or [.jpeg] one before it) gets the path
    of [demo-thumb.png]. *)
Theorem C7_video_thumbnail (fs : FileSystem) (projectPath : string)
        (files : list string) :
  readdirSync fs projectPath = Some files ->
  (exists es,
      FsPipeline.scanProjectVideos fs projectPath
      = (Normal (map (FsPipeline.videoAsset fs projectPath)
                     (filter (FsPipeline.hasExtension FsPipeline.videoExtensions) files)),
         es))
  /\ (forall file,
         FsPipeline.path (FsPipeline.videoAsset fs projectPath file)
         = FsPipeline.publicPath projectPath file
         /\ match FsPipeline.thumbnail (FsPipeline.videoAsset fs projectPath file) with
            | Some t =>
                exists pre ext post,
                  FsPipeline.thumbnailExtensions = (pre ++ ext :: post)%list /\
                  Forall (fun e =>
                            existsSync fs
                              (Path.join projectPath
                                 (Path.parseName file ++ "-thumb" ++ e)) = false) pre /\
                  existsSync fs
                    (Path.join projectPath (Path.parseName file ++ "-thumb" ++ ext))
                  = true /\
                  t = FsPipeline.publicPath projectPath
                        (Path.parseName file ++ "-thumb" ++ ext)
            | None =>
                Forall (fun e =>
                          existsSync fs
                            (Path.join projectPath
                               (Path.parseName file ++ "-thumb" ++ e)) = false)
                       FsPipeline.thumbnailExtensions
            end)
  /\ (In "demo.mp4" files ->
      existsSync fs (Path.join projectPath "demo-thumb.jpg") = false ->
      existsSync fs (Path.join projectPath "demo-thumb.jpeg") = false ->
      existsSync fs (Path.join projectPath "demo-thumb.png") = true ->
      In {| FsPipeline.path := FsPipeline.publicPath projectPath "demo.mp4";
            FsPipeline.thumbnail :=
              Some (FsPipeline.publicPath projectPath "demo-thumb.png") |}
         (map (FsPipeline.videoAsset fs projectPath)
              (filter (FsPipeline.hasExtension FsPipeline.videoExtensions) files))).
Proof.
  intros R. split; [|split].
  - unfold FsPipeline.scanProjectVideos. rewrite R. eexists. reflexivity.
  - intros file. split; [reflexivity|].
    unfold FsPipeline.videoAsset; cbn [FsPipeline.thumbnail].
    apply (findThumbnail_spec fs projectPath (Path.parseName file)
                              FsPipeline.thumbnailExtensions).
  - intros Hin Hjpg Hjpeg Hpng.
    apply in_map_iff. exists "demo.mp4". split.
    + unfold FsPipeline.videoAsset. f_equal.
      change (Path.parseName "demo.mp4") with "demo".
      unfold FsPipeline.thumbnailExtensions, FsPipeline.findThumbnail.
      change (FsPipeline.thumbFile "demo" ".jpg") with "demo-thumb.jpg".
      change (FsPipeline.thumbFile "demo" ".jpeg") with "demo-thumb.jpeg".
      change (FsPipeline.thumbFile "demo" ".png") with "demo-thumb.png".
      rewrite Hjpg, Hjpeg, Hpng. reflexivity.
    + apply filter_In. split; [assumption | reflexivity].
Qed.

(** C9: every image descriptor the scanner produces carries its own path
    as thumbnail; the field is never null. *)
Theorem C9_image_thumbnail_is_path (fs : FileSystem) (projectPath : string) :
  exists (l : list FsPipeline.Asset) (es : list FsPipeline.Eff),
    FsPipeline.scanProjectImages fs projectPath = (Normal l, es) /\
    Forall (fun a => FsPipeline.thumbnail a = Some (FsPipeline.path a)) l.
Proof.
  unfold FsPipeline.scanProjectImages.
  destruct (readdirSync fs projectPath) as [files|].
  - eexists; eexists; split; [reflexivity|].
    apply Forall_forall. intros a Ha.
    apply in_map_iff in Ha. destruct Ha as (file & <- & _). reflexivity.
  - eexists; eexists; split; [reflexivity | constructor].
Qed.

(** C8: when the projects root directory does not exist, the run logs the
    error and returns; it performs no write, so the manifest file keeps
    its previous content. *)
Theorem C8_missing_root_no_write (fs : FileSystem) (dateValue : JsVal -> JsNumber)
        (previous : option (list FsPipeline.Project)) :
  existsSync fs FsPipeline.projectsDir = false ->
  FsPipeline.buildProjectsJson fs dateValue
  = (Normal tt, [Console FsPipeline.LogScanning;
                 Console (FsPipeline.ErrDirNotFound FsPipeline.projectsDir)])
  /\ FsPipeline.silent (snd (FsPipeline.buildProjectsJson fs dateValue))
  /\ FsPipeline.manifestAfter fs dateValue previous = previous.
Proof.
  intros X.
  assert (E : FsPipeline.buildProjectsJson fs dateValue
              = (Normal tt, [Console FsPipeline.LogScanning;
                             Console (FsPipeline.ErrDirNotFound FsPipeline.projectsDir)])).
  { unfold FsPipeline.buildProjectsJson. rewrite X. reflexivity. }
  split; [exact E|]. split.
  - rewrite E. repeat constructor.
  - unfold FsPipeline.manifestAfter. rewrite E. reflexivity.
Qed.

(** ** A run of the database pipeline *)

Section DbRun.

Import Sqlite DbPipeline.

Variable now : string.
Variable dirname : string.
Variable fs : FileSystem.

Lemma Silent_bind {A B : Type} (m : Db A) (f : A -> Db B) :
  Silent m -> (forall a, Silent (f a)) -> Silent (bind m f).
Proof.
  intros Hm Hf db. unfold bind.
  destruct (Hm db) as [Hs Hx].
  destruct (m db) as [[[a| |code] db'] es]; simpl in *;
    [|split; [assumption | discriminate] | exfalso; eapply Hx; reflexivity].
  destruct (Hf a db') as [Hs' Hx'].
  destruct (f a db') as [[c db''] es']. simpl in *.
  split; [apply Forall_app; split; assumption | assumption].
Qed.

Lemma Silent_tryCatch {A : Type} (m h : Db A) :
  Silent m -> Silent h -> Silent (tryCatch m h).
Proof.
  intros Hm Hh db. unfold tryCatch.
  destruct (Hm db) as [Hs Hx].
  destruct (m db) as [[[a| |code] db'] es]; simpl in *;
    [split; [assumption | discriminate] | | exfalso; eapply Hx; reflexivity].
  destruct (Hh db') as [Hs' Hx'].
  destruct (h db') as [[c db''] es']. simpl in *.
  split; [apply Forall_app; split; assumption | assumption].
Qed.

Lemma Silent_ret {A : Type} (a : A) : Silent (ret a).
Proof. intros db. split; [constructor | discriminate]. Qed.

Lemma Silent_throw {A : Type} : Silent (@throw A).
Proof. intros db. split; [constructor | discriminate]. Qed.

Lemma Silent_say (l : Line) : Silent (say l).
Proof. intros db. split; [repeat constructor | discriminate]. Qed.

Lemma Silent_getDb : Silent getDb.
Proof. intros db. split; [constructor | discriminate]. Qed.

Lemma Silent_putDb (d : Database) : Silent (putDb d).
Proof. intros db. split; [constructor | discriminate]. Qed.

Lemma bind_run {A B : Type} (m : Db A) (f : A -> Db B) (db : Database) :
  bind m f db =
  match m db with
  | (Normal a, db', es) =>
      match f a db' with (c, db'', es') => (c, db'', (es ++ es')%list) end
  | (Throw, db', es) => (Throw, db', es)
  | (Exit code, db', es) => (Exit code, db', es)
  end.
Proof. reflexivity. Qed.

Ltac silent :=
  repeat first
    [ apply Silent_bind; [|intros ?]
    | apply Silent_tryCatch
    | apply Silent_ret
    | apply Silent_throw
    | apply Silent_say
    | apply Silent_getDb
    | apply Silent_putDb
    | match goal with
      | |- Silent (match ?x with _ => _ end) => destruct x
      | |- Silent (if ?x then _ else _) => destruct x
      | |- Silent (let (_, _) := ?x in _) => destruct x
      end ].

Lemma Silent_bootstrap : Silent (bootstrap now).
Proof.
  unfold bootstrap, createTables, migrate, seedTechnologies, seedProjects.
  silent.
Qed.

Lemma Silent_selectProjects : Silent selectProjects.
Proof. unfold selectProjects. silent. Qed.

Lemma Silent_selectTechnologies : Silent selectTechnologies.
Proof. unfold selectTechnologies. silent. Qed.

Lemma Silent_ensurePublicDir : Silent (ensurePublicDir dirname fs).
Proof.
  unfold ensurePublicDir.
  destruct (negb _); [destruct (mkdirOk _ _)|]; silent.
  intros db. split; [repeat constructor | discriminate].
Qed.

(** The main read and the write either throw without a write, or
    complete with one write: the rows of [projects] as JavaScript
    receives them, in the order of the main query, each with its [tech]
    resolved.  The database is only read. *)
Lemma exportRows_cases (db : Database) :
  (exists es,
      exportRows dirname fs db = (Throw, db, es) /\ silent es)
  \/
  (exists t techs techMap m es1 es2,
      exportRows dirname fs db
      = (Normal tt, db, (es1 ++ WriteFile (jsonPath dirname) m :: es2)%list) /\
      silent es1 /\ silent es2 /\
      projects db = Some t /\
      hasColumn "end_date" t = true /\ hasColumn "created_at" t = true /\
      technologies db = Some techs /\
      techEntries (map jsRow (rows techs)) = Some techMap /\
      mapAll (withTechArray techMap) (map jsRow (array_sort orderBy (rows t)))
      = Some m).
Proof.
  unfold exportRows, selectProjects, selectTechnologies, ensurePublicDir,
    writeFileSync, bind, getDb, ret, throw, say.
  destruct (projects db) as [t|] eqn:Pt.
  2:{ left. eexists. split; [reflexivity | constructor]. }
  destruct (hasColumn "end_date" t && hasColumn "created_at" t) eqn:Hc.
  2:{ left. eexists. split; [reflexivity | constructor]. }
  apply andb_prop in Hc. destruct Hc as [Hc1 Hc2].
  destruct (technologies db) as [techs|] eqn:Tt.
  2:{ left. eexists. split; [reflexivity | constructor]. }
  destruct (techEntries (map jsRow (rows techs))) as [techMap|] eqn:Te.
  2:{ left. eexists. split; [reflexivity | constructor]. }
  destruct (mapAll (withTechArray techMap)
                   (map jsRow (array_sort orderBy (rows t))))
    as [m|] eqn:Ma.
  2:{ left. eexists. split; [reflexivity | constructor]. }
  destruct (negb (existsSync fs (publicDir dirname)));
    [destruct (mkdirOk fs (publicDir dirname))|];
    destruct (writeOk fs (jsonPath dirname)); cbn [app].
  - right. exists t, techs, techMap, m, [MkDir (publicDir dirname)].
    eexists. split; [reflexivity|].
    repeat split; try assumption; try reflexivity; repeat constructor.
  - left. eexists. split; [reflexivity | repeat constructor].
  - left. eexists. split; [reflexivity | repeat constructor].
  - left. eexists. split; [reflexivity | repeat constructor].
  - right. exists t, techs, techMap, m, [].
    eexists. split; [reflexivity|].
    repeat split; try assumption; try reflexivity; repeat constructor.
  - left. eexists. split; [reflexivity | repeat constructor].
Qed.

(** The same for the whole body: the bootstrap comes first and writes no
    file. *)
Lemma exportBody_cases (db : Database) :
  (exists es,
      exportBody now dirname fs db = (Throw, prepared now db, es) /\ silent es)
  \/
  (exists t techs techMap m es1 es2,
      exportBody now dirname fs db
      = (Normal tt, prepared now db,
         (es1 ++ WriteFile (jsonPath dirname) m :: es2)%list) /\
      silent es1 /\ silent es2 /\
      projects (prepared now db) = Some t /\
      hasColumn "end_date" t = true /\ hasColumn "created_at" t = true /\
      technologies (prepared now db) = Some techs /\
      techEntries (map jsRow (rows techs)) = Some techMap /\
      mapAll (withTechArray techMap) (map jsRow (array_sort orderBy (rows t)))
      = Some m).
Proof.
  unfold prepared. unfold exportBody.
  rewrite bind_run. cbn [getDb app]. rewrite bind_run.
  assert (Hprep : Silent (match projects db with
                          | None => bootstrap now
                          | Some _ => ret tt
                          end)).
  { destruct (projects db); [apply Silent_ret | apply Silent_bootstrap]. }
  destruct (Hprep db) as [Hs0 Hx0].
  destruct ((match projects db with
             | None => bootstrap now
             | Some _ => ret tt
             end) db) as [[[[]| |code] db0] es0]; cbn [fst snd] in *.
  2:{ left. exists es0. split; [reflexivity | assumption]. }
  2:{ exfalso. eapply Hx0. reflexivity. }
  destruct (exportRows_cases db0)
    as [(es & -> & Hs) | (t & techs & techMap & m & es1 & es2 & -> & H1 & H2 & H)].
  - left. eexists. split; [reflexivity|]. apply Forall_app; split; assumption.
  - right. exists t, techs, techMap, m, (es0 ++ es1)%list, es2.
    split; [rewrite <- app_assoc; reflexivity|].
    split; [apply Forall_app; split; assumption|].
    split; [assumption | exact H].
Qed.

End DbRun.

(** ** Order and numbering of the filesystem manifest *)

Section FsOrder.

Import FsPipeline.
Variable fs : FileSystem.
Variable dateValue : JsVal -> JsNumber.

(** The comparator is consistent on records whose non-empty end date is
    a valid date. *)
Lemma compareEndDate_antisym (x y : Project) :
  validEndDate dateValue x -> validEndDate dateValue y ->
  0 < cmpZ (compareEndDate dateValue) x y ->
  cmpZ (compareEndDate dateValue) y x < 0.
Proof.
  unfold validEndDate, cmpZ, compareEndDate. intros Hx Hy.
  destruct (truthy (end_date x)), (truthy (end_date y)); cbn; try lia.
  destruct (dateValue (end_date x)), (dateValue (end_date y)); cbn;
    try lia; try (exfalso; apply Hx; reflexivity);
    try (exfalso; apply Hy; reflexivity).
Qed.

Lemma compareEndDate_trans (x y z : Project) :
  validEndDate dateValue x -> validEndDate dateValue y ->
  validEndDate dateValue z ->
  cmpZ (compareEndDate dateValue) x y <= 0 ->
  cmpZ (compareEndDate dateValue) y z <= 0 ->
  cmpZ (compareEndDate dateValue) x z <= 0.
Proof.
  unfold validEndDate, cmpZ, compareEndDate. intros Hx Hy Hz.
  destruct (truthy (end_date x)), (truthy (end_date y)),
    (truthy (end_date z)); cbn; try lia.
  destruct (dateValue (end_date x)), (dateValue (end_date y)),
    (dateValue (end_date z)); cbn; try lia;
    try (exfalso; apply Hx; reflexivity);
    try (exfalso; apply Hy; reflexivity);
    try (exfalso; apply Hz; reflexivity).
Qed.

(** The loop numbers the records it pushes from the counter on. *)
Lemma assemble_ids (folders : list string) (start : nat) :
  map id (assemble fs folders (Z.of_nat start))
  = map Z.of_nat (seq start (length (assemble fs folders (Z.of_nat start)))).
Proof.
  revert start. induction folders as [|folder rest IH]; intros start; simpl;
    [reflexivity|].
  destruct (emitsRecord fs folder); [|apply IH].
  cbn [map length seq]. f_equal.
  replace (Z.of_nat start + 1) with (Z.of_nat (S start)) by lia.
  apply IH.
Qed.

Lemma assemble_numbered (folders : list string) (start : Z) :
  StronglySorted (fun a b => id a < id b) (assemble fs folders start) /\
  Forall (fun p => start <= id p) (assemble fs folders start).
Proof.
  revert start. induction folders as [|folder rest IH]; intros start; simpl.
  - split; constructor.
  - destruct (emitsRecord fs folder); [|apply IH].
    destruct (IH (start + 1)) as [Hs Hf]. split.
    + constructor; [assumption|].
      eapply Forall_impl; [|exact Hf]. cbn. intros p Hp. lia.
    + constructor; [cbn; lia|].
      eapply Forall_impl; [|exact Hf]. cbn. intros p Hp. lia.
Qed.

(** The sorted array: ordered by the comparator, ties in the order of
    the ids. *)
Lemma sorted_manifest (folders : list string) :
  Forall (validEndDate dateValue) (assemble fs folders 1) ->
  StronglySorted
    (inOrder (compareEndDate dateValue) (fun a b => id a < id b))
    (array_sort (compareEndDate dateValue) (assemble fs folders 1)).
Proof.
  intros Hv.
  apply (array_sort_sorted (compareEndDate dateValue) (validEndDate dateValue)).
  - apply compareEndDate_antisym.
  - apply compareEndDate_trans.
  - assumption.
  - apply assemble_numbered.
Qed.

End FsOrder.

(** ** Numbers handed to JavaScript *)

Section JsNumbers.

Import Sqlite.

Lemma roundTo_bounds (e a : Z) :
  0 <= e ->
  (a / 2 ^ e) * 2 ^ e <= roundTo e a <= (a / 2 ^ e + 1) * 2 ^ e.
Proof.
  intros He. assert (P : 0 < 2 ^ e) by (apply Z.pow_pos_nonneg; lia).
  unfold roundTo. destruct (_ || _); nia.
Qed.

(** Rounding to the multiples of one power of two is monotone. *)
Lemma roundTo_mono (e a b : Z) :
  0 <= e -> a <= b -> roundTo e a <= roundTo e b.
Proof.
  intros He Hab. assert (P : 0 < 2 ^ e) by (apply Z.pow_pos_nonneg; lia).
  assert (Hq : a / 2 ^ e <= b / 2 ^ e) by (apply Z.div_le_mono; lia).
  pose proof (Z.div_mod a (2 ^ e) ltac:(lia)) as Ea.
  pose proof (Z.div_mod b (2 ^ e) ltac:(lia)) as Eb.
  pose proof (Z.mod_pos_bound a (2 ^ e) P) as Ra.
  pose proof (Z.mod_pos_bound b (2 ^ e) P) as Rb.
  destruct (Z.eq_dec (a / 2 ^ e) (b / 2 ^ e)) as [E|N].
  - unfold roundTo. rewrite <- E.
    assert (Hr : a mod 2 ^ e <= b mod 2 ^ e) by (rewrite <- E in Eb; lia).
    destruct ((2 ^ e <? 2 * (a mod 2 ^ e))
              || ((2 * (a mod 2 ^ e) =? 2 ^ e) && Z.odd (a / 2 ^ e))) eqn:Ca;
      destruct ((2 ^ e <? 2 * (b mod 2 ^ e))
                || ((2 * (b mod 2 ^ e) =? 2 ^ e) && Z.odd (a / 2 ^ e))) eqn:Cb;
      try nia.
    exfalso.
    apply orb_false_iff in Cb. destruct Cb as [Cb1 Cb2].
    apply Z.ltb_ge in Cb1.
    apply orb_true_iff in Ca. destruct Ca as [Ca|Ca].
    + apply Z.ltb_lt in Ca. lia.
    + apply andb_true_iff in Ca. destruct Ca as [Ca1 Ca2].
      apply Z.eqb_eq in Ca1. rewrite Ca2, andb_true_r in Cb2.
      apply Z.eqb_neq in Cb2. lia.
  - pose proof (roundTo_bounds e a He) as Ba.
    pose proof (roundTo_bounds e b He) as Bb. nia.
Qed.

(** An integer of at least [2 ^ 53] lies in the binade of its exponent,
    and so does what it is rounded to, the upper end included. *)
Lemma big_exponent (a : Z) :
  2 ^ 53 <= a ->
  1 <= Z.log2 a - 52 /\
  2 ^ 52 * 2 ^ (Z.log2 a - 52) <= a < 2 ^ 53 * 2 ^ (Z.log2 a - 52).
Proof.
  intros Ha.
  assert (Hl : 53 <= Z.log2 a).
  { rewrite <- (Z.log2_pow2 53) by lia. apply Z.log2_le_mono. exact Ha. }
  split; [lia|].
  rewrite <- !Z.pow_add_r by lia.
  replace (52 + (Z.log2 a - 52)) with (Z.log2 a) by lia.
  replace (53 + (Z.log2 a - 52)) with (Z.succ (Z.log2 a)) by lia.
  apply Z.log2_spec. lia.
Qed.

Lemma roundTo_big (a : Z) :
  2 ^ 53 <= a ->
  2 ^ 52 * 2 ^ (Z.log2 a - 52) <= roundTo (Z.log2 a - 52) a
  <= 2 ^ 53 * 2 ^ (Z.log2 a - 52).
Proof.
  intros Ha. destruct (big_exponent a Ha) as (He & Hlo & Hhi).
  set (e := Z.log2 a - 52) in *.
  assert (P : 0 < 2 ^ e) by (apply Z.pow_pos_nonneg; lia).
  pose proof (roundTo_bounds e a ltac:(lia)) as B.
  assert (Q1 : 2 ^ 52 <= a / 2 ^ e).
  { apply Z.div_le_lower_bound; lia. }
  assert (Q2 : a / 2 ^ e < 2 ^ 53).
  { apply Z.div_lt_upper_bound; lia. }
  nia.
Qed.

Lemma toDouble_mono_nonneg (x y : Z) :
  0 <= x -> x <= y -> toDouble x <= toDouble y.
Proof.
  intros Hx Hxy. unfold toDouble.
  rewrite (Z.abs_eq x), (Z.abs_eq y) by lia.
  destruct (x <? 2 ^ 53) eqn:Sx; destruct (y <? 2 ^ 53) eqn:Sy;
    try apply Z.ltb_lt in Sx; try apply Z.ltb_ge in Sx;
    try apply Z.ltb_lt in Sy; try apply Z.ltb_ge in Sy; try lia.
  - rewrite Z.sgn_pos by lia.
    pose proof (roundTo_big y Sy) as By.
    destruct (big_exponent y Sy) as (He & _).
    assert (2 ^ 1 <= 2 ^ (Z.log2 y - 52)) by (apply Z.pow_le_mono_r; lia).
    change (2 ^ 1) with 2 in *. change (2 ^ 53) with (2 ^ 52 * 2) in Sx. lia.
  - rewrite !Z.sgn_pos by lia. rewrite !Z.mul_1_l.
    assert (Hl : Z.log2 x <= Z.log2 y) by (apply Z.log2_le_mono; lia).
    destruct (Z.eq_dec (Z.log2 x) (Z.log2 y)) as [E|N].
    + rewrite E. apply roundTo_mono; [|lia].
      destruct (big_exponent y Sy); lia.
    + pose proof (roundTo_big x Sx) as Bx.
      pose proof (roundTo_big y Sy) as By.
      destruct (big_exponent x Sx) as (Hex & _).
      assert (2 ^ (Z.log2 x - 52 + 1) <= 2 ^ (Z.log2 y - 52))
        by (apply Z.pow_le_mono_r; lia).
      rewrite Z.pow_add_r in H by lia. change (2 ^ 1) with 2 in H.
      change (2 ^ 53) with (2 ^ 52 * 2) in Bx. nia.
Qed.

Lemma toDouble_opp (z : Z) : toDouble (- z) = - toDouble z.
Proof.
  unfold toDouble. rewrite Z.abs_opp, Z.sgn_opp.
  destruct (Z.abs z <? 2 ^ 53); lia.
Qed.

(** The conversion to a double is monotone: within a binade by
    [roundTo_mono], across binades because each is rounded into
    itself. *)
Lemma toDouble_mono (x y : Z) : x <= y -> toDouble x <= toDouble y.
Proof.
  intros Hxy.
  destruct (Z.le_gt_cases 0 x) as [Hx|Hx].
  - apply toDouble_mono_nonneg; assumption.
  - destruct (Z.le_gt_cases y 0) as [Hy|Hy].
    + pose proof (toDouble_mono_nonneg (- y) (- x) ltac:(lia) ltac:(lia)) as H.
      rewrite !toDouble_opp in H. lia.
    + pose proof (toDouble_mono_nonneg 0 (- x) ltac:(lia) ltac:(lia)) as H1.
      pose proof (toDouble_mono_nonneg 0 y ltac:(lia) ltac:(lia)) as H2.
      rewrite toDouble_opp in H1. change (toDouble 0) with 0 in *. lia.
Qed.

(** Up to [2 ^ 53] every integer is a double. *)
Lemma toDouble_exact (z : Z) : Z.abs z <= 2 ^ 53 -> toDouble z = z.
Proof.
  intros H. unfold toDouble.
  destruct (Z.abs z <? 2 ^ 53) eqn:S; [reflexivity|].
  apply Z.ltb_ge in S.
  assert (E : Z.abs z = 2 ^ 53) by lia.
  rewrite E. destruct (Z.abs_spec z) as [[_ A]|[_ A]].
  - rewrite <- A, E. reflexivity.
  - assert (z = - 2 ^ 53) by lia. subst z. reflexivity.
Qed.

(** A safe integer is the double of no other integer. *)
Lemma toDouble_small (z : Z) : Z.abs (toDouble z) < 2 ^ 53 -> toDouble z = z.
Proof.
  intros H. apply toDouble_exact.
  destruct (Z.le_gt_cases (Z.abs z) (2 ^ 53)) as [L|G]; [exact L|exfalso].
  destruct (Z.abs_spec z) as [[Hz A]|[Hz A]].
  - pose proof (toDouble_mono (2 ^ 53) z ltac:(lia)) as M.
    change (toDouble (2 ^ 53)) with (2 ^ 53) in M. lia.
  - pose proof (toDouble_mono z (- 2 ^ 53) ltac:(lia)) as M.
    change (toDouble (- 2 ^ 53)) with (- 2 ^ 53) in M. lia.
Qed.

Lemma toDouble_zero (z : Z) : toDouble z = 0 <-> z = 0.
Proof.
  split; [|intros ->; reflexivity].
  intros H. rewrite <- (toDouble_small z); [exact H|]. rewrite H. reflexivity.
Qed.

Lemma jsValue_unrounded (v : SqlValue) : unrounded v -> jsValue v = v.
Proof.
  destruct v; cbn; try reflexivity.
  intros H. rewrite toDouble_exact by exact H. reflexivity.
Qed.

Lemma jsValue_safe (v : SqlValue) : safe (jsValue v) -> jsValue v = v.
Proof.
  destruct v; cbn; try reflexivity.
  intros H. rewrite toDouble_small by exact H. reflexivity.
Qed.

Lemma isNull_jsValue (v : SqlValue) : isNull (jsValue v) = isNull v.
Proof. destruct v; reflexivity. Qed.

Lemma assoc_jsRow (c : string) (r : Row) :
  assoc c (jsRow r) = option_map jsValue (assoc c r).
Proof.
  induction r as [|[k v] r IH]; simpl; [reflexivity|].
  destruct (String.eqb c k); [reflexivity | exact IH].
Qed.

Lemma column_jsRow (c : string) (r : Row) :
  column c (jsRow r) = jsValue (column c r).
Proof.
  unfold column. rewrite assoc_jsRow. destruct (assoc c r); reflexivity.
Qed.

(** A text cell is handed over as it is, and only a text cell gives a
    string. *)
Lemma assoc_jsRow_text (c : string) (r : Row) (s : string) :
  assoc c (jsRow r) = Some (SqlText s) <-> assoc c r = Some (SqlText s).
Proof.
  rewrite assoc_jsRow.
  destruct (assoc c r) as [[| | |]|]; cbn; split; congruence.
Qed.

End JsNumbers.

(** ** The order of the main query *)

Section SqlOrder.

Import Sqlite DbPipeline.

Lemma sqlCompare_antisym (a b : SqlValue) :
  sqlCompare b a = CompOpp (sqlCompare a b).
Proof.
  destruct a, b; cbn; try reflexivity;
    solve [apply Z.compare_antisym | apply compare_antisym].
Qed.

Lemma sqlCompare_eq (a b : SqlValue) : sqlCompare a b = Eq -> a = b.
Proof.
  destruct a, b; cbn; try discriminate; try reflexivity; intros H.
  - apply Z.compare_eq in H. congruence.
  - apply compare_eq in H. congruence.
  - apply compare_eq in H. congruence.
Qed.

Lemma sqlCompare_refl (a : SqlValue) : sqlCompare a a = Eq.
Proof.
  destruct a; cbn; try reflexivity;
    solve [apply Z.compare_refl | apply compare_refl].
Qed.

Lemma sqlCompare_lt_trans (a b c : SqlValue) :
  sqlCompare a b = Lt -> sqlCompare b c = Lt -> sqlCompare a c = Lt.
Proof.
  destruct a, b, c; cbn; try discriminate; try reflexivity;
    try (intros; reflexivity); try (intros; discriminate);
    try apply compare_lt_trans.
  rewrite !Z.compare_lt_iff. lia.
Qed.

Lemma sqlCompare_gt_trans (a b c : SqlValue) :
  sqlCompare a b = Gt -> sqlCompare b c = Gt -> sqlCompare a c = Gt.
Proof.
  intros H1 H2.
  rewrite (sqlCompare_antisym c a).
  rewrite (sqlCompare_lt_trans c b a); [reflexivity | |].
  - rewrite (sqlCompare_antisym b c), H2. reflexivity.
  - rewrite (sqlCompare_antisym a b), H1. reflexivity.
Qed.

(** The conversion to doubles keeps the order, though not strictly. *)
Lemma sqlCompare_jsValue (a b : SqlValue) :
  sqlCompare a b <> Lt -> sqlCompare (jsValue a) (jsValue b) <> Lt.
Proof.
  destruct a as [|x|s|s], b as [|y|t|t]; cbn; try (intros H; exact H).
  rewrite !Z.compare_lt_iff. intros H.
  pose proof (toDouble_mono y x ltac:(lia)). lia.
Qed.

(** [ORDER BY k DESC, created_at DESC] is a total preorder on rows. *)
Lemma orderBy_antisym (x y : Row) :
  0 < cmpZ orderBy x y -> cmpZ orderBy y x < 0.
Proof.
  unfold cmpZ, orderBy.
  rewrite (sqlCompare_antisym (orderKey x) (orderKey y)).
  rewrite (sqlCompare_antisym (column "created_at" x) (column "created_at" y)).
  destruct (sqlCompare (orderKey x) (orderKey y)); cbn; try lia.
  destruct (sqlCompare (column "created_at" x) (column "created_at" y));
    cbn; lia.
Qed.

Lemma orderBy_trans (x y z : Row) :
  cmpZ orderBy x y <= 0 -> cmpZ orderBy y z <= 0 -> cmpZ orderBy x z <= 0.
Proof.
  unfold cmpZ, orderBy.
  destruct (sqlCompare (orderKey x) (orderKey y)) eqn:K1;
    destruct (sqlCompare (orderKey y) (orderKey z)) eqn:K2;
    cbn [sortNumber descending]; try lia.
  - apply sqlCompare_eq in K1, K2. rewrite K1, K2, sqlCompare_refl.
    destruct (sqlCompare (column "created_at" x) (column "created_at" y)) eqn:C1;
      destruct (sqlCompare (column "created_at" y) (column "created_at" z)) eqn:C2;
      cbn [sortNumber descending]; try lia; intros _ _.
    + apply sqlCompare_eq in C1, C2. rewrite C1, C2, sqlCompare_refl. cbn. lia.
    + apply sqlCompare_eq in C1. rewrite C1, C2. cbn. lia.
    + apply sqlCompare_eq in C2. rewrite <- C2, C1. cbn. lia.
    + rewrite (sqlCompare_gt_trans _ _ _ C1 C2). cbn. lia.
  - apply sqlCompare_eq in K1. rewrite K1, K2. cbn. lia.
  - apply sqlCompare_eq in K2. rewrite <- K2, K1. cbn. lia.
  - rewrite (sqlCompare_gt_trans _ _ _ K1 K2). cbn. lia.
Qed.

(** The main query hands the rows over in that order. *)
Lemma selected_sorted (l : list Row) :
  StronglySorted (inOrder orderBy (fun _ _ => True)) (array_sort orderBy l).
Proof.
  apply (array_sort_sorted orderBy (fun _ => True)).
  - intros x y _ _. apply orderBy_antisym.
  - intros x y z _ _ _. apply orderBy_trans.
  - apply Forall_forall. intros; exact I.
  - induction l; constructor; [assumption|].
    apply Forall_forall. intros; exact I.
Qed.

End SqlOrder.

(** ** The records of the database manifest *)

Section DbManifest.

Import Sqlite DbPipeline.

Variable now : string.
Variable dirname : string.
Variable fs : FileSystem.

Lemma mapAll_Forall2 {X Y : Type} (f : X -> option Y) (l : list X)
      (l' : list Y) :
  mapAll f l = Some l' -> Forall2 (fun x y => f x = Some y) l l'.
Proof.
  revert l'. induction l as [|x r IH]; intros l'; simpl.
  - intros [= <-]. constructor.
  - destruct (f x) as [y|] eqn:E; [|discriminate].
    destruct (mapAll f r) as [ys|]; [|discriminate].
    intros [= <-]. constructor; [assumption | apply IH; reflexivity].
Qed.

Lemma Forall2_map_l {X X' Y : Type} (g : X -> X') (R : X' -> Y -> Prop)
      (l : list X) (l' : list Y) :
  Forall2 R (map g l) l' -> Forall2 (fun x y => R (g x) y) l l'.
Proof.
  revert l'. induction l as [|x r IH]; intros l' H; inversion H; subst;
    constructor; [assumption | apply IH; assumption].
Qed.

Lemma assoc_setField_same (k : string) (v : OutValue) (o : Record_) :
  assoc k (setField k v o) = Some v.
Proof.
  induction o as [|[k' v'] r IH]; simpl.
  - rewrite String.eqb_refl. reflexivity.
  - destruct (String.eqb k k') eqn:E; simpl.
    + rewrite String.eqb_refl. reflexivity.
    + rewrite E. exact IH.
Qed.

Lemma assoc_setField_other (c k : string) (v : OutValue) (o : Record_) :
  c <> k -> assoc c (setField k v o) = assoc c o.
Proof.
  intros Hne. induction o as [|[k' v'] r IH]; simpl.
  - apply String.eqb_neq in Hne. rewrite Hne. reflexivity.
  - destruct (String.eqb k k') eqn:E; simpl.
    + apply String.eqb_eq in E. subst k'.
      apply String.eqb_neq in Hne. rewrite Hne. reflexivity.
    + rewrite IH. reflexivity.
Qed.

Lemma assoc_columns (c : string) (row : Row) :
  assoc c (map (fun kv => (fst kv, Col (snd kv))) row)
  = option_map Col (assoc c row).
Proof.
  induction row as [|[k v] r IH]; simpl; [reflexivity|].
  destruct (String.eqb c k); [reflexivity | exact IH].
Qed.

(** An output object has the columns of its row, and the resolved
    array under [tech]. *)
Lemma withTechArray_columns (techMap : list (string * Row)) (row : Row)
      (out : Record_) :
  withTechArray techMap row = Some out ->
  (forall c, c <> "tech" -> assoc c out = option_map Col (assoc c row)) /\
  exists names,
    techArray row = Some names /\
    assoc "tech" out = Some (TechArray (map (techWithIcon techMap) names)).
Proof.
  unfold withTechArray.
  destruct (techArray row) as [names|]; [|discriminate].
  intros [= <-]. split.
  - intros c Hc. rewrite assoc_setField_other by assumption.
    apply assoc_columns.
  - exists names. split; [reflexivity | apply assoc_setField_same].
Qed.

(** The completion of the script: normal, or [process.exit(1)] when the
    database cannot be opened or the body throws. *)
Lemma exportProjectsToJson_cases (store : option Database) :
  (exists es,
      exportProjectsToJson now dirname fs store
      = (Exit 1, option_map (prepared now) store, es) /\
      silent es /\
      (store = None \/
       exists db, store = Some db /\
                  fst (fst (exportBody now dirname fs db)) = Throw))
  \/
  (exists db t techs techMap m es1 es2,
      store = Some db /\
      fst (fst (exportBody now dirname fs db)) = Normal tt /\
      exportProjectsToJson now dirname fs store
      = (Normal tt, Some (prepared now db),
         (es1 ++ WriteFile (jsonPath dirname) m :: es2)%list) /\
      silent es1 /\ silent es2 /\
      projects (prepared now db) = Some t /\
      hasColumn "end_date" t = true /\ hasColumn "created_at" t = true /\
      technologies (prepared now db) = Some techs /\
      techEntries (map jsRow (rows techs)) = Some techMap /\
      mapAll (withTechArray techMap) (map jsRow (array_sort orderBy (rows t)))
      = Some m).
Proof.
  destruct store as [db|]; cbn [exportProjectsToJson option_map].
  2:{ left. exists [Console ErrExporting].
      split; [reflexivity|]. split; [repeat constructor | left; reflexivity]. }
  unfold tryCatch.
  destruct (exportBody_cases now dirname fs db)
    as [(es & E & Hs)
       | (t & techs & techMap & m & es1 & es2 & E & H1 & H2 & H)].
  - rewrite E. left. eexists. split; [reflexivity|]. split.
    + apply Forall_app; split; [assumption | repeat constructor].
    + right. exists db. rewrite E. split; reflexivity.
  - rewrite E. right.
    exists db, t, techs, techMap, m, es1, es2.
    split; [reflexivity|]. split; [rewrite E; reflexivity|].
    split; [reflexivity|].
    split; [assumption|]. split; [assumption | exact H].
Qed.

Lemma database_after (store : option Database) :
  snd (fst (exportProjectsToJson now dirname fs store))
  = option_map (prepared now) store.
Proof.
  destruct (exportProjectsToJson_cases store)
    as [(es & -> & _)
       | (db & t & techs & techMap & m & es1 & es2 & -> & _ & -> & _)];
    reflexivity.
Qed.

(** Every manifest written is the image of the rows of the table, in
    the order of the main query and as JavaScript receives them. *)
Lemma manifest_rows (store : option Database) (m : list Record_) :
  manifest now dirname fs store = Some m ->
  exists db t techs techMap,
    store = Some db /\
    fst (fst (exportProjectsToJson now dirname fs store)) = Normal tt /\
    projects (prepared now db) = Some t /\
    technologies (prepared now db) = Some techs /\
    techEntries (map jsRow (rows techs)) = Some techMap /\
    Forall2 (fun row out => withTechArray techMap (jsRow row) = Some out)
            (array_sort orderBy (rows t)) m.
Proof.
  unfold manifest.
  destruct (exportProjectsToJson_cases store)
    as [(es & -> & Hs & _)
       | (db & t & techs & techMap & m' & es1 & es2 & -> & _ & ->
          & H1 & H2 & Pt & _ & _ & Tt & Te & Ma)]; cbn [fst snd].
  - rewrite lastWrite_none by assumption. discriminate.
  - change (es1 ++ WriteFile (jsonPath dirname) m' :: es2)%list
      with (es1 ++ [WriteFile (jsonPath dirname) m'] ++ es2)%list.
    rewrite !lastWrite_app, (lastWrite_none _ es2 H2). cbn.
    rewrite String.eqb_refl. intros [= <-].
    exists db, t, techs, techMap.
    repeat split; try assumption.
    apply (Forall2_map_l jsRow (fun x y => withTechArray techMap x = Some y)).
    apply mapAll_Forall2. assumption.
Qed.

End DbManifest.

(** ** The records and the rows as stored *)

Lemma Forall2_In_l {X Y : Type} (R : X -> Y -> Prop) (l : list X) (l' : list Y)
      (x : X) :
  Forall2 R l l' -> In x l -> exists y, In y l' /\ R x y.
Proof.
  induction 1 as [|a b l l' Hab _ IH]; intros Hin; [destruct Hin|].
  destruct Hin as [<-|Hin].
  - exists b. split; [left; reflexivity | assumption].
  - destruct (IH Hin) as (y & Hy & Hr). exists y. split; [right|]; assumption.
Qed.

Lemma techEntries_names (l : list Sqlite.Row) (entries : list (string * Sqlite.Row)) :
  DbPipeline.techEntries l = Some entries ->
  Forall2 (fun r e => exists n, assoc "name" r = Some (Sqlite.SqlText n)
                                /\ e = (JsString.toLowerCase n, r))
          l entries.
Proof.
  revert entries. induction l as [|r rest IH]; intros entries; simpl.
  - intros [= <-]. constructor.
  - destruct (assoc "name" r) as [[| |n|]|] eqn:En; try discriminate.
    destruct (DbPipeline.techEntries rest) as [es|]; [|discriminate].
    intros [= <-]. constructor; [|apply IH; reflexivity].
    exists n. split; [exact En | reflexivity].
Qed.


Lemma assoc_none {V : Type} (k : string) (l : list (string * V)) :
  assoc k l = None -> forall v, ~ In (k, v) l.
Proof.
  induction l as [|[k' v'] r IH]; simpl; [tauto|].
  destruct (String.eqb_spec k k') as [->|Hne]; [discriminate|].
  intros H v [E|Hin]; [congruence | exact (IH H v Hin)].
Qed.

(** The [tech] cell is truthy for JavaScript exactly when it is so as
    stored, and a text is handed over as it is. *)
Lemma techArray_jsRow (row : Sqlite.Row) :
  DbPipeline.techArray (Sqlite.jsRow row) = DbPipeline.techArray row.
Proof.
  unfold DbPipeline.techArray. rewrite assoc_jsRow.
  destruct (assoc "tech" row) as [[|z|s|b]|]; cbn; try reflexivity.
  destruct (Z.eqb_spec z 0) as [->|Hz]; [reflexivity|].
  destruct (Z.eqb_spec (Sqlite.toDouble z) 0) as [E|_]; [|reflexivity].
  apply (proj1 (toDouble_zero z)) in E. contradiction.
Qed.

Lemma techArray_segments (row : Sqlite.Row) (names : list string) :
  DbPipeline.techArray row = Some names -> names = DbPipeline.segmentsOf row.
Proof.
  unfold DbPipeline.techArray, DbPipeline.segmentsOf.
  destruct (assoc "tech" row) as [[|z|s|b]|]; try congruence.
  - destruct (z =? 0); congruence.
  - destruct (JsString.nonempty s); congruence.
Qed.

(** A record has the columns of its row as JavaScript receives them, and
    the resolved array under [tech]. *)
Lemma record_columns (techMap : list (string * Sqlite.Row)) (row : Sqlite.Row)
      (out : DbPipeline.Record_) :
  DbPipeline.withTechArray techMap (Sqlite.jsRow row) = Some out ->
  (forall c, c <> "tech" ->
             assoc c out
             = option_map (fun v => DbPipeline.Col (Sqlite.jsValue v))
                          (assoc c row)) /\
  exists names,
    DbPipeline.techArray row = Some names /\
    assoc "tech" out
    = Some (DbPipeline.TechArray (map (DbPipeline.techWithIcon techMap) names)).
Proof.
  intros W.
  destruct (withTechArray_columns techMap _ out W) as [Hc (names & Hn & Ht)].
  split.
  - intros c Hne. rewrite (Hc c Hne), assoc_jsRow.
    destruct (assoc c row); reflexivity.
  - exists names. rewrite techArray_jsRow in Hn. split; assumption.
Qed.

Lemma assoc_app {V : Type} (k : string) (l1 l2 : list (string * V)) :
  assoc k (l1 ++ l2)
  = match assoc k l1 with Some v => Some v | None => assoc k l2 end.
Proof.
  induction l1 as [|[k' v'] r IH]; simpl; [reflexivity|].
  destruct (String.eqb k k'); [reflexivity | exact IH].
Qed.

(** The entry a [Map] holds under a key is the last one of the array it
    was built from. *)
Lemma assoc_rev_last {V : Type} (k : string) (l : list (string * V)) (v : V) :
  assoc k (rev l) = Some v ->
  exists l1 l2, l = (l1 ++ (k, v) :: l2)%list /\ forall v', ~ In (k, v') l2.
Proof.
  induction l as [|[k' v'] t IH]; simpl; [discriminate|].
  rewrite assoc_app. destruct (assoc k (rev t)) as [w|] eqn:E.
  - intros [= ->]. destruct (IH eq_refl) as (l1 & l2 & -> & Hn).
    exists ((k', v') :: l1), l2. split; [reflexivity | exact Hn].
  - simpl. destruct (String.eqb_spec k k') as [->|_]; [|discriminate].
    intros [= ->]. exists [], t. split; [reflexivity|].
    intros w Hin. apply (assoc_none _ _ E w). apply -> in_rev. exact Hin.
Qed.

(** The entry of a segment is its resolved technology: the [Map] is
    keyed by the lower-cased names of the rows, and holds each row as
    JavaScript received it. *)
Lemma techWithIcon_resolved (techRows : list Sqlite.Row)
      (techMap : list (string * Sqlite.Row)) (segment : string) :
  DbPipeline.techEntries (map Sqlite.jsRow techRows) = Some techMap ->
  DbPipeline.resolvedFrom techRows segment
                          (DbPipeline.techWithIcon techMap segment).
Proof.
  intros Te. pose proof (techEntries_names _ _ Te) as F.
  apply (Forall2_map_l Sqlite.jsRow
           (fun r e => exists n, assoc "name" r = Some (Sqlite.SqlText n)
                                 /\ e = (JsString.toLowerCase n, r))) in F.
  assert (Hbears : forall l l' r,
             Forall2 (fun r e =>
                        exists n, assoc "name" (Sqlite.jsRow r)
                                  = Some (Sqlite.SqlText n)
                                  /\ e = (JsString.toLowerCase n, Sqlite.jsRow r))
                     l l' ->
             In r l -> DbPipeline.bearsName r segment ->
             In (JsString.toLowerCase (JsString.trim segment), Sqlite.jsRow r) l').
  { intros l l' r Fl Hin (n & Hn & Hk).
    destruct (Forall2_In_l _ _ _ r Fl Hin) as (e & He & n' & Hn' & ->).
    apply (proj1 (assoc_jsRow_text _ _ _)) in Hn'.
    rewrite Hn in Hn'. injection Hn' as <-. rewrite <- Hk. exact He. }
  unfold DbPipeline.resolvedFrom, DbPipeline.techWithIcon, DbPipeline.mapGet.
  destruct (assoc (JsString.toLowerCase (JsString.trim segment)) (rev techMap))
    as [r|] eqn:G; cbn [DbPipeline.name DbPipeline.icon DbPipeline.iconType].
  - split; [reflexivity|]. left.
    destruct (assoc_rev_last _ _ _ G) as (l1 & l2 & -> & Hlast).
    apply Forall2_app_inv_r in F.
    destruct F as (before & rest & F1 & F2 & ->).
    inversion F2 as [|x e after l2' Hxe Fafter]; subst.
    destruct Hxe as (n & Hn & [= Hk ->]).
    apply (proj1 (assoc_jsRow_text _ _ _)) in Hn.
    exists before, x, after. rewrite !assoc_jsRow.
    split; [reflexivity|].
    split; [exists n; split; [exact Hn | symmetry; exact Hk]|].
    split; [|split; reflexivity].
    intros r' Hin Hb. exact (Hlast _ (Hbears _ _ _ Fafter Hin Hb)).
  - split; [reflexivity|]. right. split; [|split; reflexivity].
    intros r Hin Hb.
    apply (assoc_none _ _ G (Sqlite.jsRow r)). apply -> in_rev.
    exact (Hbears _ _ _ F Hin Hb).
Qed.

(** * The claims *)

(** ** Exit status *)

(** C5: the filesystem pipeline ends with status 0 whatever the file
    system holds (every error is logged and swallowed); the database
    pipeline ends with status 1 whenever the database cannot be opened or
    the body of its outer [try] throws, and with status 0 otherwise. *)
Theorem C5_exit_status :
  (forall (fs : FileSystem) (dateValue : JsVal -> JsNumber),
      exitStatus (fst (FsPipeline.buildProjectsJson fs dateValue)) = 0)
  /\
  (forall (now dirname : string) (fs : FileSystem)
          (store : option Sqlite.Database),
      (store = None \/
       exists db, store = Some db /\
                  fst (fst (DbPipeline.exportBody now dirname fs db)) = Throw) ->
      exitStatus (fst (fst (DbPipeline.exportProjectsToJson now dirname fs store)))
      = 1)
  /\
  (forall (now dirname : string) (fs : FileSystem) (db : Sqlite.Database),
      fst (fst (DbPipeline.exportBody now dirname fs db)) = Normal tt ->
      exitStatus
        (fst (fst (DbPipeline.exportProjectsToJson now dirname fs (Some db))))
      = 0).
Proof.
  split; [|split].
  - intros fs dateValue. rewrite buildProjectsJson_normal. reflexivity.
  - intros now dirname fs store H.
    destruct (exportProjectsToJson_cases now dirname fs store)
      as [(es & -> & _)
         | (db & t & techs & techMap & m & es1 & es2 & -> & Hn & _)];
      [reflexivity|].
    destruct H as [H | (db' & [= <-] & H)]; [discriminate | congruence].
  - intros now dirname fs db H.
    destruct (exportProjectsToJson_cases now dirname fs (Some db))
      as [(es & _ & _ & [H' | (db' & [= <-] & H')])
         | (db' & t & techs & techMap & m & es1 & es2 & _ & _ & -> & _)];
      [discriminate | congruence | reflexivity].
Qed.

Lemma C5_exit_status_witness :
  exitStatus (fst (FsPipeline.buildProjectsJson Examples.noRootFs Examples.dateOf)) = 0
  /\ exitStatus
       (fst (fst (DbPipeline.exportProjectsToJson
                    Examples.runNow Examples.toolsDir Examples.diskFs
                    (Some Examples.noTechnologiesDb)))) = 1
  /\ exitStatus
       (fst (fst (DbPipeline.exportProjectsToJson
                    Examples.runNow Examples.toolsDir Examples.diskFs
                    (Some Examples.storeDb)))) = 0.
Proof.
  split; [|split].
  - apply (proj1 C5_exit_status).
  - apply (proj1 (proj2 C5_exit_status)).
    right. exists Examples.noTechnologiesDb. split; reflexivity.
  - apply (proj2 (proj2 C5_exit_status)). reflexivity.
Defined.

(** ** Columns of the database records *)

(** C10 (as amended): every record of a manifest the database pipeline
    writes has the columns of its [projects] row as JavaScript reads
    them, [id], [image], [created_at] and [updated_at] among them: a
    NULL, a text, a blob and an integer of at most [2 ^ 53] in absolute
    value as the store holds it, a greater integer as the nearest
    double.  Under [tech] it has one entry for each comma-separated
    segment of the cell, the resolved technology of the segment: its
    trimmed name with icon and icon type of the [technologies] row of
    that name up to case, null without such a row.  The rows are those
    of the table the run leaves, in the order of the main query. *)
Theorem C10_columns_as_read (now dirname : string) (fs : FileSystem)
        (store : option Sqlite.Database) (m : list DbPipeline.Record_) :
  DbPipeline.manifest now dirname fs store = Some m ->
  exists db t techs sourceRows,
    snd (fst (DbPipeline.exportProjectsToJson now dirname fs store)) = Some db /\
    Sqlite.projects db = Some t /\
    Sqlite.technologies db = Some techs /\
    sourceRows = array_sort DbPipeline.orderBy (Sqlite.rows t) /\
    Permutation sourceRows (Sqlite.rows t) /\
    Forall2
      (fun row out =>
         (forall c, c <> "tech" ->
                    assoc c out
                    = option_map (fun v => DbPipeline.Col (Sqlite.jsValue v))
                                 (assoc c row)) /\
         (forall c v, c <> "tech" -> assoc c row = Some v -> Sqlite.unrounded v ->
                      assoc c out = Some (DbPipeline.Col v)) /\
         assoc "id" out
         = option_map (fun v => DbPipeline.Col (Sqlite.jsValue v))
                      (assoc "id" row) /\
         assoc "image" out
         = option_map (fun v => DbPipeline.Col (Sqlite.jsValue v))
                      (assoc "image" row) /\
         assoc "created_at" out
         = option_map (fun v => DbPipeline.Col (Sqlite.jsValue v))
                      (assoc "created_at" row) /\
         assoc "updated_at" out
         = option_map (fun v => DbPipeline.Col (Sqlite.jsValue v))
                      (assoc "updated_at" row) /\
         exists l,
           assoc "tech" out = Some (DbPipeline.TechArray l) /\
           Forall2 (DbPipeline.resolvedFrom (Sqlite.rows techs))
                   (DbPipeline.segmentsOf row) l)
      sourceRows m.
Proof.
  intros H.
  destruct (manifest_rows now dirname fs store m H)
    as (db & t & techs & techMap & -> & _ & Pt & Tt & Te & F).
  exists (DbPipeline.prepared now db), t, techs,
    (array_sort DbPipeline.orderBy (Sqlite.rows t)).
  split; [apply database_after|]. split; [assumption|].
  split; [assumption|]. split; [reflexivity|].
  split; [apply array_sort_perm|].
  eapply Forall2_impl; [|exact F].
  intros row out W. cbn in W.
  destruct (record_columns techMap row out W) as [Hc (names & Hn & Ht)].
  split; [exact Hc|]. split.
  { intros c v Hne Hv Hex. rewrite (Hc c Hne), Hv. cbn [option_map].
    rewrite jsValue_unrounded by exact Hex. reflexivity. }
  repeat (split; [apply Hc; discriminate|]).
  exists (map (DbPipeline.techWithIcon techMap) names).
  split; [exact Ht|].
  rewrite <- (techArray_segments row names Hn).
  clear Hn Ht. induction names as [|seg rest IH]; constructor;
    [apply techWithIcon_resolved; exact Te | exact IH].
Qed.

Lemma C10_columns_as_read_witness :
  exists m,
    DbPipeline.manifest Examples.runNow Examples.toolsDir Examples.diskFs
                        (Some Examples.storeDb) = Some m /\
    exists db t techs sourceRows,
      snd (fst (DbPipeline.exportProjectsToJson
                  Examples.runNow Examples.toolsDir Examples.diskFs
                  (Some Examples.storeDb))) = Some db /\
      Sqlite.projects db = Some t /\
      Sqlite.technologies db = Some techs /\
      sourceRows = array_sort DbPipeline.orderBy (Sqlite.rows t) /\
      Permutation sourceRows (Sqlite.rows t) /\
      Forall2
        (fun row out =>
           (forall c, c <> "tech" ->
                      assoc c out
                      = option_map (fun v => DbPipeline.Col (Sqlite.jsValue v))
                                   (assoc c row)) /\
           (forall c v, c <> "tech" -> assoc c row = Some v -> Sqlite.unrounded v ->
                        assoc c out = Some (DbPipeline.Col v)) /\
           assoc "id" out
           = option_map (fun v => DbPipeline.Col (Sqlite.jsValue v))
                        (assoc "id" row) /\
           assoc "image" out
           = option_map (fun v => DbPipeline.Col (Sqlite.jsValue v))
                        (assoc "image" row) /\
           assoc "created_at" out
           = option_map (fun v => DbPipeline.Col (Sqlite.jsValue v))
                        (assoc "created_at" row) /\
           assoc "updated_at" out
           = option_map (fun v => DbPipeline.Col (Sqlite.jsValue v))
                        (assoc "updated_at" row) /\
           exists l,
             assoc "tech" out = Some (DbPipeline.TechArray l) /\
             Forall2 (DbPipeline.resolvedFrom (Sqlite.rows techs))
                     (DbPipeline.segmentsOf row) l)
        sourceRows m.
Proof.
  eexists. split; [reflexivity|].
  apply (C10_columns_as_read Examples.runNow Examples.toolsDir Examples.diskFs
                             (Some Examples.storeDb)).
  reflexivity.
Defined.

(** C10 read literally fails: of a row with the id [2 ^ 53 + 1] the
    manifest holds a record with the id [2 ^ 53], which is the id of no
    row of the table. *)
Lemma C10_counterexample :
  exists m,
    DbPipeline.manifest Examples.runNow Examples.toolsDir Examples.diskFs
                        (Some MoreExamples.bigIdDb) = Some m /\
    map DbPipeline.recordId m = [Some 9007199254740992] /\
    map (assoc "id") [MoreExamples.bigIdRow]
    = [Some (Sqlite.SqlInt 9007199254740993)] /\
    ~ exists sourceRows,
        Permutation sourceRows [MoreExamples.bigIdRow] /\
        DbPipeline.columnsAsStored sourceRows m.
Proof.
  eexists. split; [vm_compute; reflexivity|].
  split; [vm_compute; reflexivity|]. split; [reflexivity|].
  intros (sourceRows & Hp & Hc).
  apply Permutation_sym, Permutation_length_1_inv in Hp. subst sourceRows.
  inversion Hc as [|row out rows outs Hrow _]; subst.
  specialize (Hrow "id" ltac:(discriminate)).
  vm_compute in Hrow. discriminate Hrow.
Qed.

(** ** Schema migration *)

(** C3 (what the code does): when the [projects] table exists, whatever
    its schema, the run leaves the database as it found it, so a table
    with the legacy NOT NULL columns is read without being migrated; and
    in the one branch that holds the migration code, the table inspected
    is the one just created and the nullability check finds nothing. *)
Theorem C3_legacy_table_not_migrated (now dirname : string) (fs : FileSystem)
        (db : Sqlite.Database) (t : Sqlite.Table) :
  Sqlite.projects db = Some t ->
  snd (fst (DbPipeline.exportProjectsToJson now dirname fs (Some db))) = Some db
  /\ (forall db0,
         Sqlite.projects db0 = None ->
         DbPipeline.migrate (snd (fst (DbPipeline.createTables db0)))
         = (Normal tt, snd (fst (DbPipeline.createTables db0)), [])).
Proof.
  intros P. split.
  - rewrite database_after. cbn [option_map]. unfold DbPipeline.prepared.
    rewrite P. reflexivity.
  - intros db0 P0. unfold DbPipeline.migrate, DbPipeline.createTables.
    unfold DbPipeline.bind, DbPipeline.getDb, DbPipeline.putDb. cbn [fst snd].
    cbn [Sqlite.projects]. rewrite P0. reflexivity.
Qed.

Lemma C3_legacy_table_not_migrated_witness :
  snd (fst (DbPipeline.exportProjectsToJson
              Examples.runNow Examples.toolsDir Examples.diskFs
              (Some Examples.legacyDb))) = Some Examples.legacyDb
  /\ DbPipeline.hasOldSchema Examples.legacySchema = true.
Proof.
  split; [|reflexivity].
  apply (C3_legacy_table_not_migrated
           Examples.runNow Examples.toolsDir Examples.diskFs Examples.legacyDb
           {| Sqlite.columns := Examples.legacySchema;
              Sqlite.rows := Examples.someProjects;
              Sqlite.next_id := 6 |});
    reflexivity.
Defined.

(** ** Technology names *)

Lemma resolveTech_name (fs : FileSystem) (techName : string) :
  FsPipeline.name (FsPipeline.resolveTech fs techName) = techName.
Proof.
  unfold FsPipeline.resolveTech.
  destruct (existsSync fs _); reflexivity.
Qed.

(** C2 (what the code does): the filesystem pipeline splits the string at
    the commas, trims each segment and drops the empty ones, in order;
    the database pipeline splits and trims but keeps empty segments as
    entries with an empty name.  ["React, Node.js,  MongoDB"] gives the
    three names in both; ["React,,Node"] gives [""] as second name in the
    database manifest. *)
Theorem C2_tech_names :
  (forall (fs : FileSystem) (s : string),
      map FsPipeline.name (FsPipeline.processTechString fs (JStr s))
      = filter JsString.nonempty (map JsString.trim (JsString.split "," s)))
  /\ (forall fs : FileSystem,
         map FsPipeline.name
             (FsPipeline.processTechString fs (JStr "React, Node.js,  MongoDB"))
         = ["React"; "Node.js"; "MongoDB"])
  /\ (forall (techMap : list (string * Sqlite.Row)) (s : string),
         map DbPipeline.name
             (map (DbPipeline.techWithIcon techMap) (JsString.split "," s))
         = map JsString.trim (JsString.split "," s))
  /\ (forall (techMap : list (string * Sqlite.Row)) (row : Sqlite.Row),
         assoc "tech" row = Some (Sqlite.SqlText "React, Node.js,  MongoDB") ->
         option_map DbPipeline.techNamesOf (DbPipeline.withTechArray techMap row)
         = Some ["React"; "Node.js"; "MongoDB"])
  /\ option_map (map DbPipeline.techNamesOf)
                (DbPipeline.manifest Examples.runNow Examples.toolsDir
                                     Examples.diskFs (Some Examples.storeDb))
     = Some [["Rust"]; ["React"; ""; "Node"]].
Proof.
  assert (Hfs : forall (fs : FileSystem) (l : list string),
             map FsPipeline.name (map (FsPipeline.resolveTech fs) l) = l).
  { intros fs l. induction l as [|x r IH]; simpl; [reflexivity|].
    rewrite resolveTech_name, IH. reflexivity. }
  assert (Hdb : forall (techMap : list (string * Sqlite.Row)) (l : list string),
             map DbPipeline.name (map (DbPipeline.techWithIcon techMap) l)
             = map JsString.trim l).
  { intros techMap l. induction l as [|x r IH]; simpl; [reflexivity|].
    rewrite IH. unfold DbPipeline.techWithIcon.
    destruct (DbPipeline.mapGet _ techMap); reflexivity. }
  split; [|split; [|split; [|split]]].
  - intros fs s. unfold FsPipeline.processTechString.
    destruct s as [|c r]; [reflexivity|].
    cbn [JsString.nonempty]. apply Hfs.
  - intros fs. unfold FsPipeline.processTechString. cbn [JsString.nonempty].
    rewrite Hfs. reflexivity.
  - intros techMap s. apply Hdb.
  - intros techMap row H. unfold DbPipeline.withTechArray, DbPipeline.techArray.
    rewrite H. cbn [JsString.nonempty option_map].
    unfold DbPipeline.techNamesOf. rewrite assoc_setField_same, Hdb.
    reflexivity.
  - reflexivity.
Qed.

Lemma C2_tech_names_witness :
  option_map DbPipeline.techNamesOf
             (DbPipeline.withTechArray
                [] [("tech", Sqlite.SqlText "React, Node.js,  MongoDB")])
  = Some ["React"; "Node.js"; "MongoDB"].
Proof.
  apply (proj1 (proj2 (proj2 (proj2 C2_tech_names)))). reflexivity.
Defined.

(** ** Skipped folders *)

Section FsSkip.

Import FsPipeline.
Variable fs : FileSystem.

Lemma assemble_app (l1 l2 : list string) (n : Z) :
  assemble fs (l1 ++ l2) n
  = (assemble fs l1 n
     ++ assemble fs l2 (n + Z.of_nat (length (assemble fs l1 n))))%list.
Proof.
  revert n. induction l1 as [|f r IH]; intros n; simpl.
  - rewrite Z.add_0_r. reflexivity.
  - destruct (emitsRecord fs f); [|apply IH].
    cbn [app length]. rewrite IH. do 3 f_equal. lia.
Qed.

Lemma assemble_length (folders : list string) (n : Z) :
  length (assemble fs folders n) = length (filter (emitsRecord fs) folders).
Proof.
  revert n. induction folders as [|f r IH]; intros n; simpl; [reflexivity|].
  destruct (emitsRecord fs f); simpl; rewrite IH; reflexivity.
Qed.

Lemma sidecarMissing_skips (f : string) :
  sidecarMissing fs f = true -> emitsRecord fs f = false.
Proof.
  unfold sidecarMissing, emitsRecord, folderData.
  destruct (loadYaml fs _); [discriminate|].
  destruct (statIsDirectory fs _) as [[|]|]; reflexivity.
Qed.

(** A folder without readable sidecar leaves the array as if it were
    not listed. *)
Lemma assemble_skip (l1 l2 : list string) (f : string) (n : Z) :
  sidecarMissing fs f = true ->
  assemble fs (l1 ++ f :: l2) n = assemble fs (l1 ++ l2) n.
Proof.
  intros H. rewrite !assemble_app. cbn [assemble].
  rewrite (sidecarMissing_skips f H). reflexivity.
Qed.

Lemma in_bind_left {A B : Type} (m : Js A) (f : A -> Js B) (e : Eff) :
  In e (snd m) -> In e (snd (bind m f)).
Proof.
  unfold bind. destruct m as [[a| |code] es]; cbn [snd]; try (intros; assumption).
  destruct (f a) as [c es']. cbn [snd]. intros H.
  apply in_or_app. left. assumption.
Qed.

Lemma in_bind_right {A B : Type} (m : Js A) (f : A -> Js B) (a : A)
      (es : list Eff) (e : Eff) :
  m = (Normal a, es) -> In e (snd (f a)) -> In e (snd (bind m f)).
Proof.
  intros -> H. unfold bind. destruct (f a) as [c es']. cbn [snd] in *.
  apply in_or_app. right. assumption.
Qed.

(** Its turn of the loop logs the error. *)
Lemma forEach_logs_error (folders : list string) (f : string) (st : LoopState) :
  In f folders ->
  forallb (statSucceeds fs) folders = true ->
  isDirectory fs f = true -> sidecarMissing fs f = true ->
  In (Console (ErrReadingYaml (Path.join projectsDir f)))
     (snd (forEach (processFolder fs) folders st)).
Proof.
  revert st. induction folders as [|x r IH]; intros st Hin Hall Hd Hm;
    [destruct Hin|].
  cbn [forallb] in Hall. apply andb_prop in Hall. destruct Hall as [Hx Hr].
  cbn [forEach].
  destruct (processFolder_spec fs st x) as (e1 & _ & E1).
  unfold statSucceeds in Hx.
  destruct (statIsDirectory fs (Path.join projectsDir x)) eqn:S;
    [|discriminate].
  destruct Hin as [<-|Hin].
  - clear E1. apply in_bind_left.
    unfold processFolder. unfold isDirectory in Hd.
    rewrite S in Hd. destruct b; [|discriminate]. rewrite S.
    unfold readProjectYaml. unfold sidecarMissing in Hm.
    destruct (loadYaml fs _); [discriminate|].
    right. left. reflexivity.
  - eapply in_bind_right; [exact E1|].
    apply IH; assumption.
Qed.

Lemma candidates_truthy_length (folders : list string) :
  (forall g, In g (candidates fs folders) -> truthy (folderData fs g) = true) ->
  length (filter (emitsRecord fs) folders) = length (candidates fs folders).
Proof.
  unfold candidates. induction folders as [|g r IH]; intros H; simpl;
    [reflexivity|].
  unfold emitsRecord at 1, isDirectory at 1.
  destruct (statIsDirectory fs (Path.join projectsDir g)) as [[|]|] eqn:S.
  - rewrite (H g).
    + simpl. f_equal. apply IH. intros g' Hg'. apply H. simpl.
      unfold isDirectory at 1. rewrite S. right. assumption.
    + simpl. unfold isDirectory at 1. rewrite S. left. reflexivity.
  - apply IH. intros g' Hg'. apply H. simpl.
    unfold isDirectory at 1. rewrite S. assumption.
  - apply IH. intros g' Hg'. apply H. simpl.
    unfold isDirectory at 1. rewrite S. assumption.
Qed.

End FsSkip.

(** C6 (as amended): a candidate directory whose sidecar is missing or
    does not parse gets an error line and no record, and the loop goes on:
    the manifest is the one of the listing without that directory.  With
    N candidate directories of which that one has no readable sidecar and
    every other has a sidecar that parses to a truthy document, a run that
    writes the manifest writes N-1 records. *)
Theorem C6_missing_sidecar_skipped (fs : FileSystem)
        (dateValue : JsVal -> JsNumber) (l1 l2 : list string) (f : string)
        (m : list FsPipeline.Project) :
  readdirSync fs FsPipeline.projectsDir = Some (l1 ++ f :: l2)%list ->
  FsPipeline.isDirectory fs f = true ->
  FsPipeline.sidecarMissing fs f = true ->
  FsPipeline.written fs dateValue = Some m ->
  In (Console (FsPipeline.ErrReadingYaml (Path.join FsPipeline.projectsDir f)))
     (snd (FsPipeline.buildProjectsJson fs dateValue))
  /\ m = array_sort (FsPipeline.compareEndDate dateValue)
                    (FsPipeline.assemble fs (l1 ++ l2) 1)
  /\ ((forall g, In g (FsPipeline.candidates fs (l1 ++ l2)) ->
                 truthy (FsPipeline.folderData fs g) = true) ->
      length (FsPipeline.candidates fs (l1 ++ f :: l2)) = S (length m)).
Proof.
  intros R Hd Hm W.
  destruct (buildProjectsJson_written fs dateValue m W)
    as (folders & _ & R' & -> & Hs & Hincl).
  rewrite R in R'. injection R' as <-.
  split; [|split].
  - apply Hincl. apply forEach_logs_error; try assumption.
    apply in_or_app. right. left. reflexivity.
  - rewrite assemble_skip by assumption. reflexivity.
  - intros Ht. rewrite array_sort_length, assemble_skip by assumption.
    rewrite assemble_length, (candidates_truthy_length fs _ Ht).
    unfold FsPipeline.candidates. rewrite !filter_app. cbn [filter].
    rewrite Hd. rewrite !length_app. cbn [length]. lia.
Qed.

Lemma C6_missing_sidecar_skipped_witness :
  exists m,
    FsPipeline.written Examples.demoFs Examples.dateOf = Some m /\
    In (Console (FsPipeline.ErrReadingYaml "public/projects/alpha"))
       (snd (FsPipeline.buildProjectsJson Examples.demoFs Examples.dateOf)) /\
    length (FsPipeline.candidates Examples.demoFs
              ["README.md"; "alpha"; "beta"; "gamma"; "delta"]) = S (length m).
Proof.
  eexists. split; [reflexivity|].
  destruct (C6_missing_sidecar_skipped
              Examples.demoFs Examples.dateOf
              ["README.md"] ["beta"; "gamma"; "delta"] "alpha" _
              eq_refl eq_refl eq_refl eq_refl)
    as (Hlog & _ & Hcount).
  split; [exact Hlog|].
  apply Hcount. intros g [<-|[<-|[<-|[]]]]; reflexivity.
Defined.

(** C6 read literally fails: with two candidate directories, one without
    sidecar and one whose sidecar is an empty document, the manifest has no
    record at all. *)
Lemma C6_counterexample :
  ~ FsPipeline.oneMissingLeavesOneOut Examples.emptySidecarFs Examples.dateOf.
Proof.
  intros H.
  specialize (H ["a"; "b"] [] eq_refl eq_refl eq_refl).
  discriminate H.
Qed.

(** ** Numbering *)

Lemma NoDup_map_of_nat_seq (start len : nat) :
  NoDup (map Z.of_nat (seq start len)).
Proof.
  apply Finite.Injective_map_NoDup; [|apply seq_NoDup].
  intros x y. apply Nat2Z.inj.
Qed.

(** C4 (as amended): in a manifest of the filesystem pipeline the ids are
    1, 2, ..., N, given in the order of the directory listing before the
    sort, and belong to the run alone; in a manifest of the database
    pipeline each record carries the [id] of its row as JavaScript reads
    it, which is the id the store holds when that is at most [2 ^ 53] in
    absolute value, and the nearest double otherwise. *)
Theorem C4_ids :
  (forall (fs : FileSystem) (dateValue : JsVal -> JsNumber)
          (m : list FsPipeline.Project),
      FsPipeline.written fs dateValue = Some m ->
      exists folders,
        readdirSync fs FsPipeline.projectsDir = Some folders /\
        m = array_sort (FsPipeline.compareEndDate dateValue)
                       (FsPipeline.assemble fs folders 1) /\
        map FsPipeline.id (FsPipeline.assemble fs folders 1)
        = map Z.of_nat (seq 1 (length m)) /\
        denseIds (map FsPipeline.id m) /\
        NoDup (map FsPipeline.id m))
  /\
  (forall (now dirname : string) (fs : FileSystem)
          (store : option Sqlite.Database) (m : list DbPipeline.Record_),
      DbPipeline.manifest now dirname fs store = Some m ->
      exists db t,
        snd (fst (DbPipeline.exportProjectsToJson now dirname fs store)) = Some db /\
        Sqlite.projects db = Some t /\
        Forall2 (fun row out =>
                   assoc "id" out
                   = option_map (fun v => DbPipeline.Col (Sqlite.jsValue v))
                                (assoc "id" row) /\
                   forall z, assoc "id" row = Some (Sqlite.SqlInt z) ->
                             DbPipeline.recordId out = Some (Sqlite.toDouble z) /\
                             (Z.abs z <= 2 ^ 53 ->
                              DbPipeline.recordId out = Some z))
                (array_sort DbPipeline.orderBy (Sqlite.rows t)) m).
Proof.
  split.
  - intros fs dateValue m W.
    destruct (buildProjectsJson_written fs dateValue m W)
      as (folders & _ & R & -> & _ & _).
    exists folders. split; [assumption|]. split; [reflexivity|].
    rewrite array_sort_length.
    pose proof (assemble_ids fs folders 1) as Hids.
    change (Z.of_nat 1) with 1 in Hids.
    split; [exact Hids|].
    assert (Hperm : Permutation
                      (map FsPipeline.id
                           (array_sort (FsPipeline.compareEndDate dateValue)
                                       (FsPipeline.assemble fs folders 1)))
                      (map Z.of_nat (seq 1 (length (FsPipeline.assemble fs folders 1))))).
    { rewrite <- Hids. apply Permutation_map, array_sort_perm. }
    split.
    + unfold denseIds. rewrite length_map, array_sort_length. exact Hperm.
    + eapply Permutation_NoDup;
        [apply Permutation_sym; exact Hperm | apply NoDup_map_of_nat_seq].
  - intros now dirname fs store m H.
    destruct (manifest_rows now dirname fs store m H)
      as (db & t & techs & techMap & -> & _ & Pt & _ & _ & F).
    exists (DbPipeline.prepared now db), t.
    split; [apply database_after|]. split; [assumption|].
    eapply Forall2_impl; [|exact F].
    intros row out W. cbn in W.
    destruct (record_columns techMap row out W) as [Hc _].
    specialize (Hc "id" ltac:(discriminate)).
    split; [exact Hc|].
    intros z Hz. unfold DbPipeline.recordId.
    rewrite Hc, Hz. cbn [option_map Sqlite.jsValue].
    split; [reflexivity|].
    intros Hsmall. rewrite toDouble_exact by exact Hsmall. reflexivity.
Qed.

Lemma C4_ids_witness :
  (exists m,
      FsPipeline.written Examples.demoFs Examples.dateOf = Some m /\
      map FsPipeline.id m = [3; 1; 2] /\
      denseIds (map FsPipeline.id m))
  /\
  (exists m row out,
      DbPipeline.manifest Examples.runNow Examples.toolsDir Examples.diskFs
                          (Some Examples.storeDb) = Some m /\
      nth_error Examples.someProjects 1 = Some row /\
      nth_error m 0 = Some out /\
      assoc "id" row = Some (Sqlite.SqlInt 5) /\
      Z.abs 5 <= 2 ^ 53 /\
      DbPipeline.recordId out = Some 5).
Proof.
  split.
  - eexists. split; [reflexivity|]. split; [reflexivity|].
    destruct (proj1 C4_ids Examples.demoFs Examples.dateOf _ eq_refl)
      as (folders & _ & _ & _ & Hdense & _).
    exact Hdense.
  - eexists. eexists. eexists.
    split; [reflexivity|]. split; [reflexivity|]. split; [reflexivity|].
    split; [reflexivity|]. split; [vm_compute; discriminate|].
    destruct (proj2 C4_ids Examples.runNow Examples.toolsDir Examples.diskFs
                    (Some Examples.storeDb) _ eq_refl)
      as (db & t & Hdb & Ht & F).
    cbn in Hdb. injection Hdb as <-. cbn in Ht. injection Ht as <-.
    inversion F as [|row out rows outs [_ Hid] _]; subst.
    apply (Hid 5); [reflexivity | vm_compute; discriminate].
Defined.

(** C4 read literally fails for the database pipeline: a store whose rows
    have the ids 2 and 5 yields a manifest with the ids 5 and 2. *)
Lemma C4_counterexample :
  exists m,
    DbPipeline.manifest Examples.runNow Examples.toolsDir Examples.diskFs
                        (Some Examples.storeDb) = Some m /\
    map DbPipeline.recordId m = [Some 5; Some 2] /\
    ~ DbPipeline.denselyNumbered m.
Proof.
  eexists. split; [reflexivity|]. split; [reflexivity|].
  intros (ids & Hids & Hdense).
  destruct ids as [|a [|b [|c r]]]; try discriminate Hids.
  cbn in Hids. injection Hids as <- <-.
  unfold denseIds in Hdense. cbn in Hdense.
  apply Permutation_in with (x := 5) in Hdense; [|left; reflexivity].
  destruct Hdense as [H|[H|[]]]; discriminate H.
Qed.

(** ** Order of the manifest *)

Lemma Forall2_nth_error_r {X Y : Type} (R : X -> Y -> Prop) (l : list X)
      (l' : list Y) :
  Forall2 R l l' ->
  forall (i : nat) (y : Y),
    nth_error l' i = Some y -> exists x, nth_error l i = Some x /\ R x y.
Proof.
  induction 1 as [|x y l l' Hxy _ IH]; intros i y0 Hi.
  - destruct i; discriminate.
  - destruct i as [|i]; simpl in Hi.
    + injection Hi as <-. exists x. split; [reflexivity | assumption].
    + apply IH. assumption.
Qed.

Lemma outColumn_of_row (techMap : list (string * Sqlite.Row))
      (row : Sqlite.Row) (out : DbPipeline.Record_) (c : string) :
  DbPipeline.withTechArray techMap (Sqlite.jsRow row) = Some out ->
  c <> "tech" ->
  DbPipeline.outColumn c out = Sqlite.jsValue (Sqlite.column c row).
Proof.
  intros W Hc.
  destruct (record_columns techMap row out W) as [H _].
  unfold DbPipeline.outColumn, Sqlite.column. rewrite (H c Hc).
  destruct (assoc c row); reflexivity.
Qed.

Lemma outKey_of_row (techMap : list (string * Sqlite.Row))
      (row : Sqlite.Row) (out : DbPipeline.Record_) :
  DbPipeline.withTechArray techMap (Sqlite.jsRow row) = Some out ->
  DbPipeline.outKey out = Sqlite.jsValue (DbPipeline.orderKey row).
Proof.
  intros W. unfold DbPipeline.outKey, DbPipeline.orderKey.
  rewrite !(outColumn_of_row techMap row out) by (assumption || discriminate).
  rewrite isNull_jsValue.
  destruct (Sqlite.isNull (Sqlite.column "end_date" row)); reflexivity.
Qed.

(** In a manifest of the database pipeline, a record never stands before
    one that the main query ranks higher.  The query ranks the cells as
    stored; the keys of the records are doubles, and tell of the order of
    [created_at] where they are safe integers or no numbers. *)
Lemma db_manifest_order (now dirname : string) (fs : FileSystem)
      (store : option Sqlite.Database) (m : list DbPipeline.Record_) :
  DbPipeline.manifest now dirname fs store = Some m ->
  forall (i j : nat) (a b : DbPipeline.Record_),
    (i < j)%nat -> nth_error m i = Some a -> nth_error m j = Some b ->
    Sqlite.sqlCompare (DbPipeline.outKey a) (DbPipeline.outKey b) <> Lt /\
    (DbPipeline.outKey a = DbPipeline.outKey b ->
     Sqlite.safe (DbPipeline.outKey a) ->
     Sqlite.sqlCompare (DbPipeline.outColumn "created_at" a)
                       (DbPipeline.outColumn "created_at" b) <> Lt).
Proof.
  intros H i j a b Hij Ha Hb.
  destruct (manifest_rows now dirname fs store m H)
    as (db & t & techs & techMap & _ & _ & _ & _ & _ & F).
  destruct (Forall2_nth_error_r _ _ _ F i a Ha) as (ra & Hra & Wa).
  destruct (Forall2_nth_error_r _ _ _ F j b Hb) as (rb & Hrb & Wb).
  cbn in Wa, Wb.
  pose proof (StronglySorted_nth_error _ _ (selected_sorted (Sqlite.rows t))
                                       i j ra rb Hij Hra Hrb) as [Hle _].
  rewrite (outKey_of_row techMap ra a Wa), (outKey_of_row techMap rb b Wb).
  rewrite (outColumn_of_row techMap ra a "created_at" Wa) by discriminate.
  rewrite (outColumn_of_row techMap rb b "created_at" Wb) by discriminate.
  unfold cmpZ, DbPipeline.orderBy in Hle.
  destruct (Sqlite.sqlCompare (DbPipeline.orderKey ra) (DbPipeline.orderKey rb))
           eqn:K; cbn in Hle.
  - split; [apply sqlCompare_jsValue; rewrite K; discriminate|]. intros _ _.
    apply sqlCompare_jsValue.
    destruct (Sqlite.sqlCompare (Sqlite.column "created_at" ra)
                                (Sqlite.column "created_at" rb));
      cbn in Hle; [discriminate | lia | discriminate].
  - lia.
  - split; [apply sqlCompare_jsValue; rewrite K; discriminate|].
    intros E Hsafe. exfalso.
    assert (Ea : Sqlite.jsValue (DbPipeline.orderKey ra) = DbPipeline.orderKey ra)
      by (apply jsValue_safe; exact Hsafe).
    assert (Eb : Sqlite.jsValue (DbPipeline.orderKey rb) = DbPipeline.orderKey rb)
      by (apply jsValue_safe; rewrite <- E; exact Hsafe).
    rewrite Ea, Eb in E. rewrite E, sqlCompare_refl in K. discriminate.
Qed.

(** Why the keys have to be safe: two end dates beyond [2 ^ 53] that
    differ in the store are the same double, so the records look tied
    on the key, and stand against the order of [created_at]. *)
Lemma rounded_keys_look_tied :
  exists m a b,
    DbPipeline.manifest Examples.runNow Examples.toolsDir Examples.diskFs
                        (Some MoreExamples.tiedKeysDb) = Some m /\
    nth_error m 0 = Some a /\ nth_error m 1 = Some b /\
    DbPipeline.outColumn "title" a = Sqlite.SqlText "Older" /\
    DbPipeline.outKey a = Sqlite.SqlInt 1719705600000000000 /\
    DbPipeline.outKey a = DbPipeline.outKey b /\
    Sqlite.sqlCompare (DbPipeline.outColumn "created_at" a)
                      (DbPipeline.outColumn "created_at" b) = Lt.
Proof.
  eexists. eexists. eexists.
  split; [vm_compute; reflexivity|].
  repeat split; vm_compute; reflexivity.
Qed.

(** Why the end dates have to be valid: next to a record whose end date is
    no date the comparator answers [NaN] both ways and is not consistent.
    The order is then up to the engine; one that compares neighbours only
    finds nothing to move in this listing, as [array_sort] does, and an
    earlier project stays before a later one. *)
Lemma invalid_date_keeps_listing_order :
  option_map (map FsPipeline.title)
             (FsPipeline.written Examples.badDateFs Examples.dateOf)
  = Some [JStr "X"; JStr "Y"; JStr "Z"].
Proof. reflexivity. Qed.

(** C1 (as amended): in a manifest of the filesystem pipeline whose
    non-empty end dates are valid dates, a record with a later end date
    stands before one with an earlier end date, every record without end
    date stands after every record with one, and records the comparator
    does not tell apart stand in the order of their ids, which is the order
    of assembly.  In a manifest of the database pipeline, of two records
    with non-NULL end dates the one with the greater end date stands first;
    the records are in descending order of [end_date], with [created_at]
    taking its place where it is NULL, and equal keys in descending order
    of [created_at], unless the key is a number that is no safe integer; a
    record without end date is not placed last. *)
Theorem C1_manifest_order :
  (forall (fs : FileSystem) (dateValue : JsVal -> JsNumber)
          (m : list FsPipeline.Project),
      FsPipeline.written fs dateValue = Some m ->
      Forall (FsPipeline.validEndDate dateValue) m ->
      forall (i j : nat) (a b : FsPipeline.Project),
        nth_error m i = Some a -> nth_error m j = Some b ->
        (forall ta tb,
            truthy (FsPipeline.end_date a) = true ->
            truthy (FsPipeline.end_date b) = true ->
            dateValue (FsPipeline.end_date a) = Some ta ->
            dateValue (FsPipeline.end_date b) = Some tb ->
            tb < ta -> (i < j)%nat)
        /\ (truthy (FsPipeline.end_date a) = true ->
            truthy (FsPipeline.end_date b) = false -> (i < j)%nat)
        /\ (cmpZ (FsPipeline.compareEndDate dateValue) a b = 0 ->
            FsPipeline.id a < FsPipeline.id b -> (i < j)%nat))
  /\
  (forall (now dirname : string) (fs : FileSystem)
          (store : option Sqlite.Database) (m : list DbPipeline.Record_),
      DbPipeline.manifest now dirname fs store = Some m ->
      forall (i j : nat) (a b : DbPipeline.Record_),
        nth_error m i = Some a -> nth_error m j = Some b ->
        (Sqlite.isNull (DbPipeline.outColumn "end_date" a) = false ->
         Sqlite.isNull (DbPipeline.outColumn "end_date" b) = false ->
         Sqlite.sqlCompare (DbPipeline.outColumn "end_date" a)
                           (DbPipeline.outColumn "end_date" b) = Gt ->
         (i < j)%nat)
        /\ ((i < j)%nat ->
            Sqlite.sqlCompare (DbPipeline.outKey a) (DbPipeline.outKey b) <> Lt /\
            (DbPipeline.outKey a = DbPipeline.outKey b ->
             Sqlite.safe (DbPipeline.outKey a) ->
             Sqlite.sqlCompare (DbPipeline.outColumn "created_at" a)
                               (DbPipeline.outColumn "created_at" b) <> Lt))).
Proof.
  split.
  - intros fs dateValue m W Hv i j a b Ha Hb.
    destruct (buildProjectsJson_written fs dateValue m W)
      as (folders & _ & _ & -> & _ & _).
    assert (Hs : StronglySorted
                   (inOrder (FsPipeline.compareEndDate dateValue)
                            (fun x y => FsPipeline.id x < FsPipeline.id y))
                   (array_sort (FsPipeline.compareEndDate dateValue)
                               (FsPipeline.assemble fs folders 1))).
    { apply sorted_manifest.
      eapply Permutation_Forall; [apply array_sort_perm | exact Hv]. }
    assert (Hback : (j < i)%nat ->
                    inOrder (FsPipeline.compareEndDate dateValue)
                            (fun x y => FsPipeline.id x < FsPipeline.id y) b a).
    { intros Hji. exact (StronglySorted_nth_error _ _ Hs j i b a Hji Hb Ha). }
    assert (Hsame : i = j -> a = b) by (intros ->; congruence).
    split; [|split].
    + intros ta tb Ta Tb Da Db Hlt.
      destruct (lt_eq_lt_dec i j) as [[Hij|Hij]|Hij]; [assumption | |].
      * specialize (Hsame Hij). subst b. rewrite Da in Db.
        injection Db as ->. lia.
      * destruct (Hback Hij) as [Hle _].
        unfold cmpZ, FsPipeline.compareEndDate in Hle.
        rewrite Ta, Tb, Da, Db in Hle. cbn in Hle. lia.
    + intros Ta Tb.
      destruct (lt_eq_lt_dec i j) as [[Hij|Hij]|Hij]; [assumption | |].
      * specialize (Hsame Hij). subst b. congruence.
      * destruct (Hback Hij) as [Hle _].
        unfold cmpZ, FsPipeline.compareEndDate in Hle.
        rewrite Ta, Tb in Hle. cbn in Hle. lia.
    + intros Hc Hid.
      destruct (lt_eq_lt_dec i j) as [[Hij|Hij]|Hij]; [assumption | |].
      * specialize (Hsame Hij). subst b. lia.
      * destruct (Hback Hij) as [_ Hlt]. lia.
  - intros now dirname fs store m H i j a b Ha Hb. split.
    + intros Na Nb Hgt.
      destruct (lt_eq_lt_dec i j) as [[Hij|Hij]|Hij]; [assumption | |].
      * subst j. rewrite Ha in Hb. injection Hb as <-.
        rewrite sqlCompare_refl in Hgt. discriminate.
      * destruct (db_manifest_order now dirname fs store m H j i b a Hij Hb Ha)
          as [Hk _].
        exfalso. apply Hk. unfold DbPipeline.outKey. rewrite Na, Nb.
        rewrite sqlCompare_antisym, Hgt. reflexivity.
    + intros Hij. exact (db_manifest_order now dirname fs store m H i j a b Hij Ha Hb).
Qed.

Lemma C1_manifest_order_witness :
  (exists m a b,
      DbPipeline.manifest Examples.runNow Examples.toolsDir Examples.diskFs
                          (Some Examples.storeDb) = Some m /\
      nth_error m 0 = Some a /\ nth_error m 1 = Some b /\
      (0 < 1)%nat /\
      DbPipeline.outKey a = Sqlite.SqlText "2025-01-20 09:00:00" /\
      DbPipeline.outKey b = Sqlite.SqlText "2024-06-30" /\
      Sqlite.sqlCompare (DbPipeline.outKey a) (DbPipeline.outKey b) <> Lt)
  /\
  exists m a b,
    FsPipeline.written Examples.demoFs Examples.dateOf = Some m /\
    Forall (FsPipeline.validEndDate Examples.dateOf) m /\
    nth_error m 0 = Some a /\ nth_error m 2 = Some b /\
    FsPipeline.title a = JStr "Delta" /\ FsPipeline.title b = JStr "Gamma" /\
    truthy (FsPipeline.end_date a) = true /\
    truthy (FsPipeline.end_date b) = false /\
    (0 < 2)%nat.
Proof.
  split.
  { eexists. eexists. eexists.
    split; [reflexivity|]. split; [reflexivity|]. split; [reflexivity|].
    split; [lia|]. split; [reflexivity|]. split; [reflexivity|].
    refine (proj1 (proj2 (proj2 C1_manifest_order
                            Examples.runNow Examples.toolsDir Examples.diskFs
                            (Some Examples.storeDb) _ eq_refl
                            0%nat 1%nat _ _ eq_refl eq_refl)
                         _)).
    lia. }
  eexists. eexists. eexists.
  split; [reflexivity|].
  assert (Hv : Forall (FsPipeline.validEndDate Examples.dateOf)
                      (array_sort (FsPipeline.compareEndDate Examples.dateOf)
                                  (FsPipeline.assemble
                                     Examples.demoFs
                                     ["README.md"; "alpha"; "beta"; "gamma"; "delta"]
                                     1))).
  { apply Forall_forall. intros p Hp. cbn in Hp.
    destruct Hp as [<-|[<-|[<-|[]]]]; intros H;
      try discriminate H; discriminate. }
  split; [exact Hv|].
  split; [reflexivity|]. split; [reflexivity|].
  split; [reflexivity|]. split; [reflexivity|].
  split; [reflexivity|]. split; [reflexivity|].
  refine (proj1 (proj2 (proj1 C1_manifest_order
                          Examples.demoFs Examples.dateOf _ eq_refl Hv
                          0%nat 2%nat _ _ eq_refl eq_refl))
                eq_refl eq_refl).
Defined.

(** C1 read literally fails for the database pipeline: in the manifest of
    a store with a dated row and a later created row without end date, the
    record without end date comes first. *)
Lemma C1_counterexample :
  exists m,
    DbPipeline.manifest Examples.runNow Examples.toolsDir Examples.diskFs
                        (Some Examples.storeDb) = Some m /\
    map DbPipeline.undated m = [true; false] /\
    ~ DbPipeline.undatedLast m.
Proof.
  eexists. split; [reflexivity|]. split; [reflexivity|].
  intros H.
  specialize (H 0%nat 1%nat _ _ eq_refl eq_refl eq_refl eq_refl).
  lia.
Qed.

(** ** The scanner and the missing root on concrete worlds *)

Lemma C7_video_thumbnail_witness :
  readdirSync Examples.demoFs "public/projects/beta"
  = Some ["cover.JPG"; "demo-thumb.png"; "demo.mp4"; "project.yml"]
  /\ In {| FsPipeline.path := "/portfolio/projects/beta/demo.mp4";
           FsPipeline.thumbnail := Some "/portfolio/projects/beta/demo-thumb.png" |}
        (map (FsPipeline.videoAsset Examples.demoFs "public/projects/beta")
             (filter (FsPipeline.hasExtension FsPipeline.videoExtensions)
                     ["cover.JPG"; "demo-thumb.png"; "demo.mp4"; "project.yml"])).
Proof.
  split; [reflexivity|].
  apply (proj2 (proj2 (C7_video_thumbnail
                         Examples.demoFs "public/projects/beta"
                         ["cover.JPG"; "demo-thumb.png"; "demo.mp4"; "project.yml"]
                         eq_refl))).
  - right. right. left. reflexivity.
  - reflexivity.
  - reflexivity.
  - reflexivity.
Defined.

Lemma C8_missing_root_no_write_witness :
  existsSync Examples.noRootFs FsPipeline.projectsDir = false
  /\ FsPipeline.silent
       (snd (FsPipeline.buildProjectsJson Examples.noRootFs Examples.dateOf))
  /\ FsPipeline.manifestAfter Examples.noRootFs Examples.dateOf (Some [])
     = Some [].
Proof.
  split; [reflexivity|].
  apply (C8_missing_root_no_write Examples.noRootFs Examples.dateOf (Some [])).
  reflexivity.
Defined.

(** * Further properties of the two scripts *)

(** ** Classification of directory entries *)

Lemma lower_char_is_dot (c : ascii) :
  Ascii.eqb (JsString.lower_char c) "." = Ascii.eqb c ".".
Proof. destruct c as [[] [] [] [] [] [] [] []]; reflexivity. Qed.

Lemma lower_char_idem (c : ascii) :
  JsString.lower_char (JsString.lower_char c) = JsString.lower_char c.
Proof. destruct c as [[] [] [] [] [] [] [] []]; reflexivity. Qed.

Lemma toLowerCase_idem (s : string) :
  JsString.toLowerCase (JsString.toLowerCase s) = JsString.toLowerCase s.
Proof.
  induction s as [|c r IH]; simpl; [reflexivity|].
  rewrite lower_char_idem, IH. reflexivity.
Qed.

Lemma lastDot_toLowerCase (s : string) :
  Path.lastDot (JsString.toLowerCase s) = Path.lastDot s.
Proof.
  induction s as [|c r IH]; simpl; [reflexivity|].
  rewrite IH, lower_char_is_dot. reflexivity.
Qed.

Lemma drop_toLowerCase (n : nat) (s : string) :
  JsString.drop n (JsString.toLowerCase s)
  = JsString.toLowerCase (JsString.drop n s).
Proof.
  revert s. induction n as [|n IH]; intros [|c r]; simpl; try reflexivity.
  apply IH.
Qed.

Lemma dotdot_toLowerCase (s : string) :
  String.eqb (JsString.toLowerCase s) ".." = String.eqb s "..".
Proof.
  destruct s as [|c1 [|c2 [|c3 r]]]; simpl; try reflexivity;
    rewrite ?lower_char_is_dot; reflexivity.
Qed.

Lemma extname_toLowerCase (file : string) :
  Path.extname (JsString.toLowerCase file)
  = JsString.toLowerCase (Path.extname file).
Proof.
  unfold Path.extname. rewrite lastDot_toLowerCase, dotdot_toLowerCase.
  destruct (Path.lastDot file) as [[|i]|]; try reflexivity.
  destruct (String.eqb file ".."); [reflexivity|].
  apply (drop_toLowerCase (S i)).
Qed.

(** X1: an entry is classified by its extension whatever the case of its
    name: the lower-cased name is an image (a video) exactly when the name
    is. *)
Theorem X1_classification_ignores_case (allowed : list string) (file : string) :
  FsPipeline.hasExtension allowed (JsString.toLowerCase file)
  = FsPipeline.hasExtension allowed file.
Proof.
  unfold FsPipeline.hasExtension.
  rewrite extname_toLowerCase, toLowerCase_idem. reflexivity.
Qed.

(** X2: the two allow-lists do not overlap: an entry that is scanned as an
    image is never scanned as a video, so no file of a project folder gets
    a descriptor in both arrays. *)
Theorem X2_image_is_no_video (files : list string) (file : string) :
  In file (filter (FsPipeline.hasExtension FsPipeline.imageExtensions) files) ->
  FsPipeline.hasExtension FsPipeline.videoExtensions file = false
  /\ ~ In file (filter (FsPipeline.hasExtension FsPipeline.videoExtensions) files).
Proof.
  intros H. apply filter_In in H. destruct H as [_ H].
  assert (Hv : FsPipeline.hasExtension FsPipeline.videoExtensions file = false).
  { unfold FsPipeline.hasExtension in *.
    remember (JsString.toLowerCase (Path.extname file)) as e eqn:He. clear He.
    cbn [existsb FsPipeline.imageExtensions FsPipeline.videoExtensions] in *.
    repeat (apply orb_prop in H; destruct H as [H|H]); try discriminate H;
      apply String.eqb_eq in H; subst e; reflexivity. }
  split; [exact Hv|].
  intros Hin. apply filter_In in Hin. destruct Hin as [_ Hin]. congruence.
Qed.

Lemma X2_image_is_no_video_witness :
  In "cover.JPG"
     (filter (FsPipeline.hasExtension FsPipeline.imageExtensions)
             ["cover.JPG"; "demo-thumb.png"; "demo.mp4"; "project.yml"])
  /\ FsPipeline.hasExtension FsPipeline.videoExtensions "cover.JPG" = false.
Proof.
  split; [left; reflexivity|].
  apply (X2_image_is_no_video
           ["cover.JPG"; "demo-thumb.png"; "demo.mp4"; "project.yml"] "cover.JPG").
  left. reflexivity.
Defined.

(** ** Thumbnails are images *)

Lemma string_length_app (s t : string) :
  String.length (s ++ t) = (String.length s + String.length t)%nat.
Proof. induction s as [|c r IH]; simpl; [reflexivity | rewrite IH; reflexivity]. Qed.

Lemma string_app_assoc (s t u : string) : s ++ t ++ u = (s ++ t) ++ u.
Proof. induction s as [|c r IH]; simpl; [reflexivity | rewrite IH; reflexivity]. Qed.

Lemma lastDot_app (p e : string) :
  Path.lastDot e = Some O -> Path.lastDot (p ++ e) = Some (String.length p).
Proof.
  intros He. induction p as [|c r IH]; simpl; [exact He|].
  rewrite IH. reflexivity.
Qed.

Lemma drop_app (p e : string) : JsString.drop (String.length p) (p ++ e) = e.
Proof. induction p as [|c r IH]; simpl; [destruct e; reflexivity | exact IH]. Qed.

(** The extension of [<p><e>] is [<e>] when [<e>] is a dot followed by
    dot-free characters and [<p>] has at least two characters. *)
Lemma extname_app (p e : string) :
  Path.lastDot e = Some O -> (2 <= String.length p)%nat ->
  Path.extname (p ++ e) = e.
Proof.
  intros He Hp. unfold Path.extname. rewrite (lastDot_app p e He).
  destruct (String.length p) as [|n] eqn:L; [lia|].
  destruct (String.eqb_spec (p ++ e) "..") as [E|_].
  - apply (f_equal String.length) in E. rewrite string_length_app, L in E.
    destruct e as [|c r]; [discriminate He|]. simpl in E. lia.
  - rewrite <- L. apply drop_app.
Qed.

(** X3: the file probed as thumbnail of a video, [<base>-thumb<ext>], has
    an image extension for each of the four thumbnail extensions; a
    thumbnail found in the folder's listing is therefore also one of the
    project's images. *)
Theorem X3_thumbnail_is_image (fs : FileSystem) (projectPath baseName ext : string)
        (files : list string) :
  In ext FsPipeline.thumbnailExtensions ->
  readdirSync fs projectPath = Some files ->
  In (FsPipeline.thumbFile baseName ext) files ->
  FsPipeline.hasExtension FsPipeline.imageExtensions
                          (FsPipeline.thumbFile baseName ext) = true
  /\ In (FsPipeline.imageAsset projectPath (FsPipeline.thumbFile baseName ext))
        (FsPipeline.imagesOf fs projectPath).
Proof.
  intros Hext R Hin.
  assert (Hx : FsPipeline.hasExtension FsPipeline.imageExtensions
                                       (FsPipeline.thumbFile baseName ext) = true).
  { unfold FsPipeline.hasExtension, FsPipeline.thumbFile.
    rewrite string_app_assoc.
    assert (Hlen : (2 <= String.length (baseName ++ "-thumb"))%nat)
      by (rewrite string_length_app; simpl; lia).
    destruct Hext as [<-|[<-|[<-|[<-|[]]]]];
      rewrite extname_app by (reflexivity || exact Hlen); reflexivity. }
  split; [exact Hx|].
  unfold FsPipeline.imagesOf. rewrite R.
  apply in_map. apply filter_In. split; assumption.
Qed.

Lemma X3_thumbnail_is_image_witness :
  In ".png" FsPipeline.thumbnailExtensions
  /\ In {| FsPipeline.path := "/portfolio/projects/beta/demo-thumb.png";
           FsPipeline.thumbnail := Some "/portfolio/projects/beta/demo-thumb.png" |}
        (FsPipeline.imagesOf Examples.demoFs "public/projects/beta").
Proof.
  split; [right; right; left; reflexivity|].
  apply (X3_thumbnail_is_image
           Examples.demoFs "public/projects/beta" "demo" ".png"
           ["cover.JPG"; "demo-thumb.png"; "demo.mp4"; "project.yml"]).
  - right. right. left. reflexivity.
  - reflexivity.
  - right. left. reflexivity.
Defined.

(** ** Technology names of the filesystem pipeline *)

Lemma trimEnd_idem (s : string) :
  JsString.trimEnd (JsString.trimEnd s) = JsString.trimEnd s.
Proof.
  induction s as [|c r IH]; simpl; [reflexivity|].
  destruct (JsString.trimEnd r) as [|c' r'] eqn:E.
  - destruct (JsString.is_ws c) eqn:W; simpl; [reflexivity|].
    rewrite W. reflexivity.
  - change (JsString.trimEnd (String c (String c' r')))
      with (match JsString.trimEnd (String c' r') with
            | EmptyString =>
                if JsString.is_ws c then EmptyString else String c EmptyString
            | r'' => String c r''
            end).
    rewrite IH. reflexivity.
Qed.

Lemma trimStart_head (s : string) :
  match JsString.trimStart s with
  | EmptyString => True
  | String c _ => JsString.is_ws c = false
  end.
Proof.
  induction s as [|c r IH]; simpl; [exact I|].
  destruct (JsString.is_ws c) eqn:W; [exact IH | exact W].
Qed.

Lemma trimEnd_head (c : ascii) (r : string) :
  JsString.is_ws c = false ->
  exists r', JsString.trimEnd (String c r) = String c r'.
Proof.
  intros W. simpl. destruct (JsString.trimEnd r).
  - rewrite W. eexists. reflexivity.
  - eexists. reflexivity.
Qed.

Lemma trim_idem (s : string) : JsString.trim (JsString.trim s) = JsString.trim s.
Proof.
  unfold JsString.trim.
  pose proof (trimStart_head s) as H.
  destruct (JsString.trimStart s) as [|c r]; [reflexivity|].
  destruct (trimEnd_head c r H) as (r' & E). rewrite E.
  cbn [JsString.trimStart]. rewrite H, <- E. apply trimEnd_idem.
Qed.

Lemma trimStart_chars (x : ascii) (s : string) :
  In x (list_ascii_of_string (JsString.trimStart s)) ->
  In x (list_ascii_of_string s).
Proof.
  induction s as [|c r IH]; simpl; [tauto|].
  destruct (JsString.is_ws c); simpl; [right; apply IH; assumption | tauto].
Qed.

Lemma trimEnd_chars (x : ascii) (s : string) :
  In x (list_ascii_of_string (JsString.trimEnd s)) ->
  In x (list_ascii_of_string s).
Proof.
  induction s as [|c r IH]; simpl; [tauto|].
  destruct (JsString.trimEnd r) as [|c' r'].
  - destruct (JsString.is_ws c); simpl; tauto.
  - simpl in *. intros [H|H]; [left; assumption | right; apply IH; assumption].
Qed.

Lemma split_segments (sep : ascii) (s : string) :
  Forall (fun seg => ~ In sep (list_ascii_of_string seg)) (JsString.split sep s).
Proof.
  induction s as [|c r IH]; simpl.
  - constructor; [simpl; tauto | constructor].
  - destruct (Ascii.eqb_spec c sep) as [->|Hne].
    + constructor; [simpl; tauto | exact IH].
    + destruct (JsString.split sep r) as [|h t]; inversion IH; subst;
        constructor; try assumption; simpl; intros [H|H]; congruence || tauto.
Qed.

Lemma resolveTech_names (fs : FileSystem) (l : list string) :
  map FsPipeline.name (map (FsPipeline.resolveTech fs) l) = l.
Proof.
  induction l as [|x r IH]; simpl; [reflexivity|].
  rewrite resolveTech_name, IH. reflexivity.
Qed.

(** X4: whatever the sidecar holds under [tech], every technology name of
    a record is non-empty, has no white space at either end and contains no
    comma; a value that is no string gives no technology at all. *)
Theorem X4_tech_names_are_clean (fs : FileSystem) (techString : JsVal) :
  Forall (fun n => JsString.nonempty n = true
                   /\ JsString.trim n = n
                   /\ ~ In ","%char (list_ascii_of_string n))
         (map FsPipeline.name (FsPipeline.processTechString fs techString))
  /\ ((forall s, techString <> JStr s) ->
      FsPipeline.processTechString fs techString = []).
Proof.
  split.
  - destruct techString; try constructor.
    unfold FsPipeline.processTechString.
    destruct (JsString.nonempty s); [|constructor].
    rewrite resolveTech_names. unfold FsPipeline.techNames.
    apply Forall_forall. intros n Hn.
    apply filter_In in Hn. destruct Hn as [Hn Hne].
    apply in_map_iff in Hn. destruct Hn as (seg & <- & Hseg).
    split; [exact Hne|]. split; [apply trim_idem|].
    intros Hc. unfold JsString.trim in Hc.
    apply trimEnd_chars, trimStart_chars in Hc.
    pose proof (split_segments "," s) as Hs.
    rewrite Forall_forall in Hs. exact (Hs seg Hseg Hc).
  - intros H. destruct techString; try reflexivity.
    exfalso. apply (H s). reflexivity.
Qed.

Lemma X4_tech_names_are_clean_witness :
  FsPipeline.processTechString Examples.demoFs (JNum 5) = [].
Proof.
  apply (proj2 (X4_tech_names_are_clean Examples.demoFs (JNum 5))).
  intros s. discriminate.
Defined.

(** ** Icon files *)

Lemma iconFile_icons (rest : string) :
  FsPipeline.iconFile ("/portfolio/icons/" ++ rest) = "public/icons/" ++ rest.
Proof. reflexivity. Qed.

(** X5: the icon of a technology is looked up under the lower-cased name:
    [public/icons/<name>.svg] first, then [public/icons/<name>.png], and it
    is null when neither exists; two names that differ only in case get the
    same icon. *)
Theorem X5_icon_lookup (fs : FileSystem) (techName : string) :
  FsPipeline.icon (FsPipeline.resolveTech fs techName)
  = (if existsSync fs ("public/icons/" ++ JsString.toLowerCase techName ++ ".svg")
     then Some ("/portfolio/icons/" ++ JsString.toLowerCase techName ++ ".svg")
     else if existsSync fs ("public/icons/" ++ JsString.toLowerCase techName ++ ".png")
          then Some ("/portfolio/icons/" ++ JsString.toLowerCase techName ++ ".png")
          else None)
  /\ (forall other,
         JsString.toLowerCase other = JsString.toLowerCase techName ->
         FsPipeline.icon (FsPipeline.resolveTech fs other)
         = FsPipeline.icon (FsPipeline.resolveTech fs techName)).
Proof.
  split.
  - unfold FsPipeline.resolveTech. rewrite !iconFile_icons.
    destruct (existsSync fs _); reflexivity.
  - intros other H. unfold FsPipeline.resolveTech. rewrite H.
    destruct (existsSync fs _); reflexivity.
Qed.

Lemma X5_icon_lookup_witness :
  FsPipeline.icon (FsPipeline.resolveTech Examples.demoFs "REACT")
  = FsPipeline.icon (FsPipeline.resolveTech Examples.demoFs "React")
  /\ FsPipeline.icon (FsPipeline.resolveTech Examples.demoFs "React")
     = Some "/portfolio/icons/react.svg".
Proof.
  split.
  - apply (proj2 (X5_icon_lookup Examples.demoFs "React") "REACT"). reflexivity.
  - exact (proj1 (X5_icon_lookup Examples.demoFs "React")).
Defined.

(** ** Records of the filesystem manifest *)

Lemma assemble_In (fs : FileSystem) (folders : list string) (start : Z)
      (p : FsPipeline.Project) :
  In p (FsPipeline.assemble fs folders start) ->
  exists folder k,
    In folder folders /\ FsPipeline.emitsRecord fs folder = true /\
    p = FsPipeline.recordOf fs k folder.
Proof.
  revert start. induction folders as [|f r IH]; intros start; simpl; [tauto|].
  destruct (FsPipeline.emitsRecord fs f) eqn:E.
  - intros [<-|H].
    + exists f, start. repeat split; [left; reflexivity | assumption].
    + destruct (IH _ H) as (folder & k & Hin & He & ->).
      exists folder, k. repeat split; [right; assumption | assumption].
  - intros H. destruct (IH _ H) as (folder & k & Hin & He & ->).
    exists folder, k. repeat split; [right; assumption | assumption].
Qed.

Lemma emitsRecord_candidate (fs : FileSystem) (folder : string) :
  FsPipeline.emitsRecord fs folder = true ->
  FsPipeline.isDirectory fs folder = true
  /\ truthy (FsPipeline.folderData fs folder) = true
  /\ FsPipeline.sidecarMissing fs folder = false.
Proof.
  unfold FsPipeline.emitsRecord, FsPipeline.isDirectory,
    FsPipeline.sidecarMissing, FsPipeline.folderData.
  destruct (statIsDirectory fs _) as [[|]|]; try discriminate.
  destruct (loadYaml fs _); [|discriminate].
  intros H. repeat split. exact H.
Qed.

Lemma filter_length_le {X : Type} (f g : X -> bool) (l : list X) :
  (forall x, f x = true -> g x = true) ->
  (length (filter f l) <= length (filter g l))%nat.
Proof.
  intros H. induction l as [|x r IH]; simpl; [lia|].
  destruct (f x) eqn:F.
  - rewrite (H x F). simpl. lia.
  - destruct (g x); simpl; lia.
Qed.

(** X6: every record of a written manifest stems from one listed entry
    that is a directory and whose sidecar parsed to a truthy document; its
    title is the document's [title] as it is, its assets are those of that
    directory; and the manifest never has more records than the listing has
    directories. *)
Theorem X6_records_stem_from_sidecars (fs : FileSystem)
        (dateValue : JsVal -> JsNumber) (m : list FsPipeline.Project) :
  FsPipeline.written fs dateValue = Some m ->
  exists folders,
    readdirSync fs FsPipeline.projectsDir = Some folders /\
    (length m <= length (FsPipeline.candidates fs folders))%nat /\
    forall p,
      In p m ->
      exists folder,
        In folder folders /\
        FsPipeline.isDirectory fs folder = true /\
        loadYaml fs (Path.join (Path.join FsPipeline.projectsDir folder)
                               "project.yml")
        = Some (FsPipeline.folderData fs folder) /\
        truthy (FsPipeline.folderData fs folder) = true /\
        FsPipeline.title p = getProp (FsPipeline.folderData fs folder) "title" /\
        FsPipeline.images p
        = FsPipeline.imagesOf fs (Path.join FsPipeline.projectsDir folder) /\
        FsPipeline.videos p
        = FsPipeline.videosOf fs (Path.join FsPipeline.projectsDir folder).
Proof.
  intros W.
  destruct (buildProjectsJson_written fs dateValue m W)
    as (folders & _ & R & -> & _ & _).
  exists folders. split; [assumption|]. split.
  - rewrite array_sort_length, assemble_length.
    apply filter_length_le. intros x Hx.
    apply (emitsRecord_candidate fs x Hx).
  - intros p Hp.
    apply (Permutation_in _ (array_sort_perm _ _)) in Hp.
    destruct (assemble_In fs folders 1 p Hp) as (folder & k & Hin & He & ->).
    destruct (emitsRecord_candidate fs folder He) as (Hd & Ht & Hm).
    exists folder. repeat split; try assumption.
    unfold FsPipeline.folderData, FsPipeline.sidecarMissing in *.
    destruct (loadYaml fs _); [reflexivity | discriminate].
Qed.

Lemma X6_records_stem_from_sidecars_witness :
  exists m folders,
    FsPipeline.written Examples.demoFs Examples.dateOf = Some m /\
    readdirSync Examples.demoFs FsPipeline.projectsDir = Some folders /\
    (length m <= length (FsPipeline.candidates Examples.demoFs folders))%nat.
Proof.
  eexists. 
  destruct (X6_records_stem_from_sidecars
              Examples.demoFs Examples.dateOf _ eq_refl)
    as (folders & R & Hlen & _).
  exists folders. split; [reflexivity|]. split; assumption.
Defined.

Lemma orElse_cases (v d : JsVal) :
  (orElse v d = d /\ truthy v = false) \/ (orElse v d = v /\ truthy v = true).
Proof. unfold orElse. destruct (truthy v); [right | left]; split; reflexivity. Qed.

(** X7: in every record of a written manifest the optional fields are
    filled: [image_layout] is truthy (["grid"] when the sidecar gives none),
    [description], [start_date] and [end_date] are truthy or the empty
    string, [subtitle], [github_url] and [live_url] are truthy or null; a
    falsy sidecar value (0, false, an empty string) never reaches the
    manifest. *)
Theorem X7_optional_fields_filled (fs : FileSystem)
        (dateValue : JsVal -> JsNumber) (m : list FsPipeline.Project) :
  FsPipeline.written fs dateValue = Some m ->
  Forall (fun p =>
            truthy (FsPipeline.image_layout p) = true
            /\ (FsPipeline.description p = JStr "" \/
                truthy (FsPipeline.description p) = true)
            /\ (FsPipeline.start_date p = JStr "" \/
                truthy (FsPipeline.start_date p) = true)
            /\ (FsPipeline.end_date p = JStr "" \/
                truthy (FsPipeline.end_date p) = true)
            /\ (FsPipeline.subtitle p = JNull \/
                truthy (FsPipeline.subtitle p) = true)
            /\ (FsPipeline.github_url p = JNull \/
                truthy (FsPipeline.github_url p) = true)
            /\ (FsPipeline.live_url p = JNull \/
                truthy (FsPipeline.live_url p) = true))
         m.
Proof.
  intros W.
  destruct (buildProjectsJson_written fs dateValue m W)
    as (folders & _ & R & -> & _ & _).
  apply Forall_forall. intros p Hp.
  apply (Permutation_in _ (array_sort_perm _ _)) in Hp.
  destruct (assemble_In fs folders 1 p Hp) as (folder & k & _ & _ & ->).
  unfold FsPipeline.recordOf, FsPipeline.buildProject.
  cbn [FsPipeline.image_layout FsPipeline.description FsPipeline.start_date
       FsPipeline.end_date FsPipeline.subtitle FsPipeline.github_url
       FsPipeline.live_url].
  split.
  - destruct (orElse_cases (getProp (FsPipeline.folderData fs folder) "image_layout")
                           (JStr "grid")) as [[-> _]|[-> H]];
      [reflexivity | exact H].
  - repeat split;
      match goal with
      | |- orElse ?v ?d = _ \/ _ =>
          destruct (orElse_cases v d) as [[-> _]|[-> H]];
          [left; reflexivity | right; exact H]
      end.
Qed.

Lemma X7_optional_fields_filled_witness :
  exists m,
    FsPipeline.written Examples.demoFs Examples.dateOf = Some m /\
    Forall (fun p => truthy (FsPipeline.image_layout p) = true) m.
Proof.
  eexists. split; [reflexivity|].
  eapply Forall_impl;
    [|exact (X7_optional_fields_filled Examples.demoFs Examples.dateOf _ eq_refl)].
  intros p H. exact (proj1 H).
Defined.

(** ** Failures of the filesystem pipeline *)

(** X8: when the listing of a project folder cannot be read, the project
    is kept: both scans log their error and give no asset, and the record
    is pushed with empty [images] and [videos] and the next id. *)
Theorem X8_unreadable_folder_keeps_project (fs : FileSystem)
        (st : FsPipeline.LoopState) (folder : string) :
  statIsDirectory fs (Path.join FsPipeline.projectsDir folder) = Some true ->
  truthy (FsPipeline.folderData fs folder) = true ->
  readdirSync fs (Path.join FsPipeline.projectsDir folder) = None ->
  exists p,
    FsPipeline.processFolder fs st folder
    = (Normal ((fst st ++ [p])%list, snd st + 1),
       [Console (FsPipeline.LogProcessing folder);
        Console (FsPipeline.ErrScanningImages
                   (Path.join FsPipeline.projectsDir folder));
        Console (FsPipeline.ErrScanningVideos
                   (Path.join FsPipeline.projectsDir folder));
        Console (FsPipeline.LogAdded (FsPipeline.title p))])
    /\ FsPipeline.id p = snd st
    /\ FsPipeline.images p = [] /\ FsPipeline.videos p = []
    /\ FsPipeline.title p = getProp (FsPipeline.folderData fs folder) "title".
Proof.
  intros S T R.
  unfold FsPipeline.processFolder. rewrite S.
  unfold FsPipeline.readProjectYaml, FsPipeline.scanProjectImages,
    FsPipeline.scanProjectVideos.
  rewrite R.
  unfold FsPipeline.folderData in T |- *.
  destruct (loadYaml fs (Path.join (Path.join FsPipeline.projectsDir folder)
                                   "project.yml")) as [doc|];
    [|discriminate T].
  exists (FsPipeline.buildProject
            (snd st) doc
            (FsPipeline.processTechString fs (getProp doc "tech")) [] []).
  cbn. rewrite T. cbn. repeat split.
Qed.

Lemma X8_unreadable_folder_keeps_project_witness :
  option_map (map (fun p => (FsPipeline.id p, FsPipeline.title p,
                             FsPipeline.images p, FsPipeline.videos p)))
             (FsPipeline.written MoreExamples.unreadableFs Examples.dateOf)
  = Some [(1, JStr "Locked", [], [])]
  /\ exists p,
      fst (FsPipeline.processFolder MoreExamples.unreadableFs ([], 1) "locked")
      = Normal ([p], 2)
      /\ FsPipeline.images p = [].
Proof.
  split; [reflexivity|].
  destruct (X8_unreadable_folder_keeps_project
              MoreExamples.unreadableFs ([], 1) "locked"
              eq_refl eq_refl eq_refl)
    as (p & E & _ & Hi & _).
  exists p. rewrite E. split; [reflexivity | exact Hi].
Defined.

Lemma filter_silent (es : list FsPipeline.Eff) :
  FsPipeline.silent es -> filter isWrite es = [].
Proof.
  induction 1 as [|e es He _ IH]; simpl; [reflexivity|].
  rewrite He. exact IH.
Qed.

(** The three ways a run of [buildProjectsJson] can go. *)
Lemma buildProjectsJson_effects (fs : FileSystem) (dateValue : JsVal -> JsNumber) :
  (existsSync fs FsPipeline.projectsDir = false /\
   snd (FsPipeline.buildProjectsJson fs dateValue)
   = [Console FsPipeline.LogScanning;
      Console (FsPipeline.ErrDirNotFound FsPipeline.projectsDir)])
  \/
  (existsSync fs FsPipeline.projectsDir = true /\
   (readdirSync fs FsPipeline.projectsDir = None \/
    exists folders,
      readdirSync fs FsPipeline.projectsDir = Some folders /\
      (forallb (FsPipeline.statSucceeds fs) folders = false
       \/ writeOk fs FsPipeline.outputPath = false)) /\
   exists es,
     FsPipeline.silent es /\
     snd (FsPipeline.buildProjectsJson fs dateValue)
     = (Console FsPipeline.LogScanning :: es
        ++ [Console FsPipeline.ErrBuilding])%list)
  \/
  (exists folders es1 es2,
      existsSync fs FsPipeline.projectsDir = true /\
      readdirSync fs FsPipeline.projectsDir = Some folders /\
      forallb (FsPipeline.statSucceeds fs) folders = true /\
      writeOk fs FsPipeline.outputPath = true /\
      FsPipeline.silent es1 /\ FsPipeline.silent es2 /\
      snd (FsPipeline.buildProjectsJson fs dateValue)
      = (Console FsPipeline.LogScanning :: es1
         ++ WriteFile FsPipeline.outputPath
              (array_sort (FsPipeline.compareEndDate dateValue)
                          (FsPipeline.assemble fs folders 1))
         :: es2)%list).
Proof.
  unfold FsPipeline.buildProjectsJson, FsPipeline.bind, FsPipeline.say.
  destruct (existsSync fs FsPipeline.projectsDir) eqn:X; cbn [negb].
  2:{ left. split; reflexivity. }
  right. unfold FsPipeline.tryCatch.
  destruct (buildBody_cases fs dateValue)
    as [(es & -> & Hs & Hwhy)
       | (folders & e1 & e2 & R & F & W & -> & H1 & H2 & _)].
  - left. split; [reflexivity|]. split; [exact Hwhy|].
    exists es. split; [assumption | reflexivity].
  - right. exists folders, e1, e2. repeat split; assumption.
Qed.

(** X9: when the root cannot be listed, when [statSync] throws on any
    entry of the listing, or when the write fails, the run logs the build
    error, writes nothing (records already assembled are dropped) and still
    returns normally. *)
Theorem X9_failed_build_writes_nothing (fs : FileSystem)
        (dateValue : JsVal -> JsNumber) :
  existsSync fs FsPipeline.projectsDir = true ->
  (readdirSync fs FsPipeline.projectsDir = None \/
   exists folders,
     readdirSync fs FsPipeline.projectsDir = Some folders /\
     (forallb (FsPipeline.statSucceeds fs) folders = false
      \/ writeOk fs FsPipeline.outputPath = false)) ->
  FsPipeline.written fs dateValue = None
  /\ filter isWrite (snd (FsPipeline.buildProjectsJson fs dateValue)) = []
  /\ last (snd (FsPipeline.buildProjectsJson fs dateValue))
          (Console FsPipeline.LogScanning)
     = Console FsPipeline.ErrBuilding
  /\ fst (FsPipeline.buildProjectsJson fs dateValue) = Normal tt.
Proof.
  intros X Hwhy.
  assert (Hs : exists es,
             FsPipeline.silent es /\
             snd (FsPipeline.buildProjectsJson fs dateValue)
             = (Console FsPipeline.LogScanning :: es
                ++ [Console FsPipeline.ErrBuilding])%list).
  { destruct (buildProjectsJson_effects fs dateValue)
      as [[X' _] | [(_ & _ & H) | (folders & e1 & e2 & _ & R & F & W & _)]].
    - congruence.
    - exact H.
    - exfalso. destruct Hwhy as [R'|(f & R' & [F'|W'])]; try congruence.
      all: rewrite R in R'; injection R' as <-; congruence. }
  destruct Hs as (es & Hes & E).
  assert (Hsil : FsPipeline.silent
                   (Console FsPipeline.LogScanning :: es
                    ++ [Console FsPipeline.ErrBuilding])).
  { constructor; [reflexivity|].
    apply Forall_app; split; [assumption | repeat constructor]. }
  split; [|split; [|split]].
  - unfold FsPipeline.written. rewrite E. apply lastWrite_none. exact Hsil.
  - rewrite E. apply filter_silent. exact Hsil.
  - rewrite E.
    change (Console FsPipeline.LogScanning :: es ++ [Console FsPipeline.ErrBuilding])%list
      with ((Console FsPipeline.LogScanning :: es) ++ [Console FsPipeline.ErrBuilding])%list.
    apply last_last.
  - apply buildProjectsJson_normal.
Qed.

Lemma X9_failed_build_writes_nothing_witness :
  FsPipeline.statSucceeds MoreExamples.danglingFs "gone" = false
  /\ FsPipeline.written MoreExamples.danglingFs Examples.dateOf = None
  /\ In (Console (FsPipeline.LogAdded (JStr "Fine")))
        (snd (FsPipeline.buildProjectsJson MoreExamples.danglingFs Examples.dateOf)).
Proof.
  split; [reflexivity|]. split.
  - apply (X9_failed_build_writes_nothing MoreExamples.danglingFs Examples.dateOf).
    + reflexivity.
    + right. exists ["fine"; "gone"]. split; [reflexivity | left; reflexivity].
  - cbn. tauto.
Defined.

(** X10: a run performs at most one write, and only to
    [public/projects.json]: the write effects of a run are exactly the
    manifest it leaves, if any. *)
Theorem X10_at_most_one_write (fs : FileSystem) (dateValue : JsVal -> JsNumber) :
  filter isWrite (snd (FsPipeline.buildProjectsJson fs dateValue))
  = match FsPipeline.written fs dateValue with
    | Some m => [WriteFile FsPipeline.outputPath m]
    | None => []
    end.
Proof.
  unfold FsPipeline.written.
  destruct (buildProjectsJson_effects fs dateValue)
    as [[_ ->] | [(_ & _ & es & Hs & ->)
                 | (folders & e1 & e2 & _ & _ & _ & _ & H1 & H2 & ->)]].
  - reflexivity.
  - assert (Hsil : FsPipeline.silent
                     (Console FsPipeline.LogScanning :: es
                      ++ [Console FsPipeline.ErrBuilding])).
    { constructor; [reflexivity|].
      apply Forall_app; split; [assumption | repeat constructor]. }
    rewrite (lastWrite_none _ _ Hsil). apply filter_silent. exact Hsil.
  - change (Console FsPipeline.LogScanning
              :: e1 ++ WriteFile FsPipeline.outputPath
                         (array_sort (FsPipeline.compareEndDate dateValue)
                                     (FsPipeline.assemble fs folders 1)) :: e2)%list
      with ((Console FsPipeline.LogScanning :: e1)
              ++ [WriteFile FsPipeline.outputPath
                    (array_sort (FsPipeline.compareEndDate dateValue)
                                (FsPipeline.assemble fs folders 1))] ++ e2)%list.
    rewrite !lastWrite_app, (lastWrite_none _ e2 H2). cbn [lastWrite].
    rewrite String.eqb_refl.
    rewrite !filter_app, (filter_silent e2 H2).
    rewrite (filter_silent (Console FsPipeline.LogScanning :: e1)).
    + reflexivity.
    + constructor; [reflexivity | assumption].
Qed.

(** ** Listings that are already in order *)

Lemma array_sort_ordered {A : Type} (comparefn : A -> A -> JsNumber)
      (l : list A) :
  StronglySorted (fun x y => cmpZ comparefn x y <= 0) l ->
  array_sort comparefn l = l.
Proof.
  induction 1 as [|x t Hs IH Hall]; simpl; [reflexivity|].
  rewrite IH. destruct t as [|y t']; [reflexivity|].
  simpl. inversion Hall as [|? ? Hxy _]; subst.
  destruct (0 <? cmpZ comparefn x y) eqn:E; [|reflexivity].
  apply Z.ltb_lt in E. lia.
Qed.

Lemma StronglySorted_of_pairs {A : Type} (P : A -> Prop) (R : A -> A -> Prop)
      (l : list A) :
  (forall x y, P x -> P y -> R x y) -> Forall P l -> StronglySorted R l.
Proof.
  intros H. induction 1 as [|x t Hx Ht IH]; constructor; [exact IH|].
  eapply Forall_impl; [|exact Ht]. intros y Hy. apply H; assumption.
Qed.

(** X11: the sort leaves a listing alone that is already in order: when
    no assembled record compares after a later one, the manifest written is
    the array in directory order. *)
Theorem X11_ordered_listing_is_kept (fs : FileSystem)
        (dateValue : JsVal -> JsNumber) (folders : list string) :
  existsSync fs FsPipeline.projectsDir = true ->
  readdirSync fs FsPipeline.projectsDir = Some folders ->
  forallb (FsPipeline.statSucceeds fs) folders = true ->
  writeOk fs FsPipeline.outputPath = true ->
  StronglySorted
    (fun a b => cmpZ (FsPipeline.compareEndDate dateValue) a b <= 0)
    (FsPipeline.assemble fs folders 1) ->
  FsPipeline.written fs dateValue = Some (FsPipeline.assemble fs folders 1).
Proof.
  intros X R F W Hs. unfold FsPipeline.written.
  rewrite (buildProjectsJson_writes fs dateValue folders X R F W).
  rewrite (array_sort_ordered _ _ Hs). reflexivity.
Qed.

Lemma X11_ordered_listing_is_kept_witness :
  option_map (map FsPipeline.title)
             (FsPipeline.written MoreExamples.undatedFs Examples.dateOf)
  = Some [JStr "public/projects/one/project.yml";
          JStr "public/projects/two/project.yml";
          JStr "public/projects/three/project.yml"].
Proof.
  rewrite (X11_ordered_listing_is_kept
             MoreExamples.undatedFs Examples.dateOf ["one"; "two"; "three"]
             eq_refl eq_refl eq_refl eq_refl).
  - reflexivity.
  - repeat constructor; cbn; lia.
Defined.

(** X12: when no record of the manifest has an end date, the records stand
    in directory order: their ids read 1, 2, ..., N from first to last. *)
Theorem X12_undated_manifest_in_listing_order (fs : FileSystem)
        (dateValue : JsVal -> JsNumber) (m : list FsPipeline.Project) :
  FsPipeline.written fs dateValue = Some m ->
  Forall (fun p => truthy (FsPipeline.end_date p) = false) m ->
  map FsPipeline.id m = map Z.of_nat (seq 1 (length m)).
Proof.
  intros W Hm.
  destruct (buildProjectsJson_written fs dateValue m W)
    as (folders & _ & _ & -> & _ & _).
  assert (Ha : Forall (fun p => truthy (FsPipeline.end_date p) = false)
                      (FsPipeline.assemble fs folders 1)).
  { eapply Permutation_Forall; [apply array_sort_perm | exact Hm]. }
  rewrite array_sort_ordered.
  - apply (assemble_ids fs folders 1).
  - eapply StronglySorted_of_pairs; [|exact Ha].
    cbn beta. intros x y Hx Hy.
    unfold cmpZ, FsPipeline.compareEndDate. rewrite Hx, Hy. cbn. lia.
Qed.

Lemma X12_undated_manifest_in_listing_order_witness :
  exists m,
    FsPipeline.written MoreExamples.undatedFs Examples.dateOf = Some m /\
    map FsPipeline.id m = [1; 2; 3].
Proof.
  eexists. split; [reflexivity|].
  apply (X12_undated_manifest_in_listing_order
           MoreExamples.undatedFs Examples.dateOf _ eq_refl).
  repeat constructor.
Defined.

(** ** The bootstrap of the database pipeline *)

Lemma bind_keeps {A B : Type} (P : Sqlite.Database -> Prop)
      (m : DbPipeline.Db A) (f : A -> DbPipeline.Db B) :
  (forall db, P db -> P (snd (fst (m db)))) ->
  (forall a db, P db -> P (snd (fst (f a db)))) ->
  forall db, P db -> P (snd (fst (DbPipeline.bind m f db))).
Proof.
  intros Hm Hf db Hdb. unfold DbPipeline.bind.
  specialize (Hm db Hdb).
  destruct (m db) as [[[a| |code] db'] es]; cbn [fst snd] in *; try assumption.
  specialize (Hf a db' Hm).
  destruct (f a db') as [[c db''] es']. exact Hf.
Qed.

Lemma tryCatch_keeps {A : Type} (P : Sqlite.Database -> Prop)
      (m h : DbPipeline.Db A) :
  (forall db, P db -> P (snd (fst (m db)))) ->
  (forall db, P db -> P (snd (fst (h db)))) ->
  forall db, P db -> P (snd (fst (DbPipeline.tryCatch m h db))).
Proof.
  intros Hm Hh db Hdb. unfold DbPipeline.tryCatch.
  specialize (Hm db Hdb).
  destruct (m db) as [[[a| |code] db'] es]; cbn [fst snd] in *; try assumption.
  specialize (Hh db' Hm).
  destruct (h db') as [[c db''] es']. exact Hh.
Qed.

Lemma migrate_keeps_projects (db : Sqlite.Database) :
  Sqlite.projects db <> None ->
  Sqlite.projects (snd (fst (DbPipeline.migrate db))) <> None.
Proof.
  intros H. unfold DbPipeline.migrate, DbPipeline.bind, DbPipeline.getDb,
              DbPipeline.putDb, DbPipeline.say, DbPipeline.throw, DbPipeline.ret.
  destruct (DbPipeline.hasOldSchema _); cbn [fst snd]; [|exact H].
  destruct (Sqlite.projects_new db); cbn [fst snd]; [exact H|].
  destruct (Sqlite.projects db) as [old|]; cbn [fst snd Sqlite.projects];
    [|congruence].
  destruct (DbPipeline.copyRows old); cbn [fst snd Sqlite.projects];
    discriminate.
Qed.

Lemma seedTechnologies_keeps_projects (now : string) (db : Sqlite.Database) :
  Sqlite.projects db <> None ->
  Sqlite.projects (snd (fst (DbPipeline.seedTechnologies now db))) <> None.
Proof.
  intros H. unfold DbPipeline.seedTechnologies, DbPipeline.bind, DbPipeline.getDb,
              DbPipeline.putDb, DbPipeline.say, DbPipeline.throw, DbPipeline.ret.
  cbn [fst snd].
  destruct (Sqlite.technologies db) as [t|]; cbn [fst snd]; [|exact H].
  destruct (length (Sqlite.rows t) =? 0)%nat; cbn [fst snd]; [|exact H].
  destruct (Sqlite.insertAll now t
              (map DbPipeline.techValues DbPipeline.initialTechnologies))
    as [t' [|]]; cbn [fst snd Sqlite.projects]; exact H.
Qed.

Lemma seedProjects_keeps_projects (now : string) (db : Sqlite.Database) :
  Sqlite.projects db <> None ->
  Sqlite.projects (snd (fst (DbPipeline.seedProjects now db))) <> None.
Proof.
  intros H. unfold DbPipeline.seedProjects, DbPipeline.bind, DbPipeline.getDb,
              DbPipeline.putDb, DbPipeline.say, DbPipeline.throw, DbPipeline.ret.
  cbn [fst snd].
  destruct (Sqlite.projects db) as [t|]; cbn [fst snd]; [|congruence].
  destruct (Sqlite.insertAll now t
              (map DbPipeline.projectValues DbPipeline.initialProjects))
    as [t' [|]]; cbn [fst snd Sqlite.projects]; discriminate.
Qed.

(** Whatever happens while seeding, the bootstrap leaves a [projects]
    table behind. *)
Lemma bootstrap_creates_projects (now : string) (db : Sqlite.Database) :
  Sqlite.projects (snd (fst (DbPipeline.bootstrap now db))) <> None.
Proof.
  set (P := fun x : Sqlite.Database => Sqlite.projects x <> None).
  assert (Hrest : forall d, P d ->
            P (snd (fst (DbPipeline.bind
                           (DbPipeline.tryCatch DbPipeline.migrate
                              (DbPipeline.say DbPipeline.LogNoMigration))
                           (fun _ => DbPipeline.bind
                                       (DbPipeline.seedTechnologies now)
                                       (fun _ => DbPipeline.seedProjects now))
                           d)))).
  { apply (bind_keeps P).
    - apply (tryCatch_keeps P); [apply migrate_keeps_projects|].
      intros d Hd. exact Hd.
    - intros _. apply (bind_keeps P).
      + apply seedTechnologies_keeps_projects.
      + intros _. apply seedProjects_keeps_projects. }
  unfold DbPipeline.bootstrap.
  unfold DbPipeline.bind at 1. unfold DbPipeline.say at 1.
  unfold DbPipeline.bind at 1. unfold DbPipeline.createTables at 1.
  unfold DbPipeline.bind at 1. unfold DbPipeline.getDb, DbPipeline.putDb.
  cbn [app].
  match goal with
  | |- context [DbPipeline.bind ?m ?f ?d] =>
      specialize (Hrest d);
      destruct (DbPipeline.bind m f d) as [[c d'] e]
  end.
  cbn [fst snd] in *. apply Hrest.
  unfold P. cbn [Sqlite.projects]. unfold DbPipeline.orEmpty.
  destruct (Sqlite.projects db); discriminate.
Qed.

(** X13: on a store that holds its tables under the spellings of the
    script and no view of such a name, and whose file can be written
    (see [Sqlite.Database]), a run leaves a [projects] table behind, and
    a further run does not change the database a run has left: the
    bootstrap is not repeated, also when it was cut short by an error
    after the table was created.  With a table [projects] the run only
    reads. *)
Theorem X13_bootstrap_at_most_once (now now' dirname dirname' : string)
        (fs fs' : FileSystem) (db : Sqlite.Database) :
  (exists db1,
      snd (fst (DbPipeline.exportProjectsToJson now dirname fs (Some db)))
      = Some db1 /\
      Sqlite.projects db1 <> None /\
      snd (fst (DbPipeline.exportProjectsToJson now' dirname' fs' (Some db1)))
      = Some db1)
  /\ (forall t, Sqlite.projects db = Some t ->
                snd (fst (DbPipeline.exportProjectsToJson now dirname fs (Some db)))
                = Some db).
Proof.
  assert (Hp : Sqlite.projects (DbPipeline.prepared now db) <> None).
  { unfold DbPipeline.prepared. destruct (Sqlite.projects db) eqn:P.
    - cbn. rewrite P. discriminate.
    - apply bootstrap_creates_projects. }
  split.
  - exists (DbPipeline.prepared now db).
    rewrite !database_after. cbn [option_map].
    split; [reflexivity|]. split; [exact Hp|].
    f_equal. unfold DbPipeline.prepared at 1.
    destruct (Sqlite.projects (DbPipeline.prepared now db)); [reflexivity|].
    exfalso. apply Hp. reflexivity.
  - intros t P. rewrite database_after. cbn [option_map].
    unfold DbPipeline.prepared. rewrite P. reflexivity.
Qed.

Lemma X13_bootstrap_at_most_once_witness :
  snd (fst (DbPipeline.exportProjectsToJson
              Examples.runNow Examples.toolsDir Examples.diskFs
              (Some Examples.storeDb))) = Some Examples.storeDb.
Proof.
  apply (proj2 (X13_bootstrap_at_most_once
                  Examples.runNow Examples.runNow Examples.toolsDir
                  Examples.toolsDir Examples.diskFs Examples.diskFs
                  Examples.storeDb)
               {| Sqlite.columns := DbPipeline.projectsSchema;
                  Sqlite.rows := Examples.someProjects;
                  Sqlite.next_id := 6 |}).
  reflexivity.
Defined.

(** ** Success and failure of the database pipeline *)

Lemma filter_db_silent (es : list DbPipeline.Eff) :
  DbPipeline.silent es -> filter isWrite es = [].
Proof.
  induction 1 as [|e es He _ IH]; simpl; [reflexivity|].
  rewrite He. exact IH.
Qed.

Lemma export_written_or_failed (now dirname : string) (fs : FileSystem)
      (store : option Sqlite.Database) :
  (exitStatus (fst (fst (DbPipeline.exportProjectsToJson now dirname fs store))) = 0
   /\ exists m,
       DbPipeline.manifest now dirname fs store = Some m /\
       filter isWrite (snd (DbPipeline.exportProjectsToJson now dirname fs store))
       = [WriteFile (DbPipeline.jsonPath dirname) m])
  \/
  (exitStatus (fst (fst (DbPipeline.exportProjectsToJson now dirname fs store))) = 1
   /\ DbPipeline.manifest now dirname fs store = None
   /\ filter isWrite (snd (DbPipeline.exportProjectsToJson now dirname fs store))
      = []).
Proof.
  unfold DbPipeline.manifest.
  destruct (exportProjectsToJson_cases now dirname fs store)
    as [(es & -> & Hs & _)
       | (db & t & techs & techMap & m & es1 & es2 & _ & _ & -> & H1 & H2 & _)];
    cbn [fst snd exitStatus].
  - right. split; [reflexivity|]. split.
    + apply lastWrite_none. exact Hs.
    + apply filter_db_silent. exact Hs.
  - left. split; [reflexivity|]. exists m.
    change (es1 ++ WriteFile (DbPipeline.jsonPath dirname) m :: es2)%list
      with (es1 ++ [WriteFile (DbPipeline.jsonPath dirname) m] ++ es2)%list.
    split.
    + rewrite !lastWrite_app, (lastWrite_none _ es2 H2). cbn [lastWrite].
      rewrite String.eqb_refl. reflexivity.
    + rewrite !filter_app, (filter_db_silent es1 H1), (filter_db_silent es2 H2).
      reflexivity.
Qed.

(** X14: the database run writes the manifest exactly when it ends with
    status 0, and then exactly once; a run that ends with status 1 has
    written nothing.  No other status occurs. *)
Theorem X14_written_iff_success (now dirname : string) (fs : FileSystem)
        (store : option Sqlite.Database) :
  (exitStatus (fst (fst (DbPipeline.exportProjectsToJson now dirname fs store))) = 0
   /\ exists m,
       DbPipeline.manifest now dirname fs store = Some m /\
       filter isWrite (snd (DbPipeline.exportProjectsToJson now dirname fs store))
       = [WriteFile (DbPipeline.jsonPath dirname) m])
  \/
  (exitStatus (fst (fst (DbPipeline.exportProjectsToJson now dirname fs store))) = 1
   /\ DbPipeline.manifest now dirname fs store = None
   /\ filter isWrite (snd (DbPipeline.exportProjectsToJson now dirname fs store))
      = []).
Proof.
  unfold DbPipeline.manifest.
  destruct (exportProjectsToJson_cases now dirname fs store)
    as [(es & -> & Hs & _)
       | (db & t & techs & techMap & m & es1 & es2 & _ & _ & -> & H1 & H2 & _)];
    cbn [fst snd exitStatus].
  - right. split; [reflexivity|]. split.
    + apply lastWrite_none. exact Hs.
    + apply filter_db_silent. exact Hs.
  - left. split; [reflexivity|]. exists m.
    change (es1 ++ WriteFile (DbPipeline.jsonPath dirname) m :: es2)%list
      with (es1 ++ [WriteFile (DbPipeline.jsonPath dirname) m] ++ es2)%list.
    split.
    + rewrite !lastWrite_app, (lastWrite_none _ es2 H2). cbn [lastWrite].
      rewrite String.eqb_refl. reflexivity.
    + rewrite !filter_app, (filter_db_silent es1 H1), (filter_db_silent es2 H2).
      reflexivity.
Qed.

(** X15: the manifest has one record per row of the [projects] table as
    the run leaves it: no row is filtered out and none is duplicated. *)
Theorem X15_one_record_per_row (now dirname : string) (fs : FileSystem)
        (store : option Sqlite.Database) (m : list DbPipeline.Record_) :
  DbPipeline.manifest now dirname fs store = Some m ->
  exists db t,
    snd (fst (DbPipeline.exportProjectsToJson now dirname fs store)) = Some db /\
    Sqlite.projects db = Some t /\
    length m = length (Sqlite.rows t).
Proof.
  intros H.
  destruct (manifest_rows now dirname fs store m H)
    as (db & t & techs & techMap & -> & _ & Pt & _ & _ & F).
  exists (DbPipeline.prepared now db), t.
  split; [apply database_after|]. split; [assumption|].
  rewrite <- (Forall2_length F). apply array_sort_length.
Qed.

Lemma X15_one_record_per_row_witness :
  exists m,
    DbPipeline.manifest Examples.runNow Examples.toolsDir Examples.diskFs
                        (Some Examples.storeDb) = Some m /\
    length m = 2%nat.
Proof.
  eexists. split; [reflexivity|].
  destruct (X15_one_record_per_row
              Examples.runNow Examples.toolsDir Examples.diskFs
              (Some Examples.storeDb) _ eq_refl)
    as (db & t & Hdb & Ht & Hlen).
  cbn in Hdb. injection Hdb as <-. cbn in Ht. injection Ht as <-.
  exact Hlen.
Defined.



(** ** Icons of the database pipeline *)



(** ** Shape of the database records *)

Lemma setField_keys (k : string) (v : DbPipeline.OutValue) (o : DbPipeline.Record_) :
  map fst (DbPipeline.setField k v o)
  = if existsb (String.eqb k) (map fst o) then map fst o
    else (map fst o ++ [k])%list.
Proof.
  induction o as [|[k' v'] r IH]; simpl; [reflexivity|].
  destruct (String.eqb_spec k k') as [->|_]; simpl; [reflexivity|].
  rewrite IH. destruct (existsb (String.eqb k) (map fst r)); reflexivity.
Qed.

(** X18: an output object has the properties of its row in column order;
    [tech] stays at the place of the column, and is added at the end when
    the row has no such column. *)
Theorem X18_record_keeps_column_order (techMap : list (string * Sqlite.Row))
        (row : Sqlite.Row) (out : DbPipeline.Record_) :
  DbPipeline.withTechArray techMap row = Some out ->
  map fst out
  = if existsb (String.eqb "tech") (map fst row) then map fst row
    else (map fst row ++ ["tech"])%list.
Proof.
  unfold DbPipeline.withTechArray.
  destruct (DbPipeline.techArray row); [|discriminate].
  intros [= <-]. rewrite setField_keys, map_map. cbn [fst]. reflexivity.
Qed.

Lemma X18_record_keeps_column_order_witness :
  exists out,
    DbPipeline.withTechArray [] (Examples.projectRow 2 "Dated" "Go" Sqlite.SqlNull "x")
    = Some out /\
    map fst out
    = ["id"; "title"; "description"; "image"; "tech"; "start_date";
       "end_date"; "created_at"; "updated_at"].
Proof.
  eexists. split; [reflexivity|].
  apply (X18_record_keeps_column_order
           [] (Examples.projectRow 2 "Dated" "Go" Sqlite.SqlNull "x")).
  reflexivity.
Defined.

(** ** A database without tables *)

(** X19: on a database that has neither table, a run that can write
    creates and seeds both: fifteen technologies, and the three sample
    projects with the ids 1 to 3.  The manifest lists them by end date,
    latest first, and none of their technologies has an icon, since no
    seeded technology bears one of their names. *)
Theorem X19_fresh_database_is_seeded (now dirname : string) (fs : FileSystem)
        (db : Sqlite.Database) :
  Sqlite.projects db = None ->
  Sqlite.technologies db = None ->
  writeOk fs (DbPipeline.jsonPath dirname) = true ->
  (existsSync fs (DbPipeline.publicDir dirname) = true
   \/ mkdirOk fs (DbPipeline.publicDir dirname) = true) ->
  exitStatus (fst (fst (DbPipeline.exportProjectsToJson now dirname fs (Some db))))
  = 0
  /\ option_map
       (map (fun o => (DbPipeline.recordId o, DbPipeline.outColumn "title" o,
                       DbPipeline.outColumn "end_date" o,
                       DbPipeline.techNamesOf o)))
       (DbPipeline.manifest now dirname fs (Some db))
     = Some [(Some 3, Sqlite.SqlText "Portfolio Website",
              Sqlite.SqlText "2024-08-24", ["React"; "Vite"; "Pico CSS"]);
             (Some 2, Sqlite.SqlText "Task Management App",
              Sqlite.SqlText "2024-08-15",
              ["React"; "Firebase"; "Tailwind CSS"]);
             (Some 1, Sqlite.SqlText "E-Commerce Platform",
              Sqlite.SqlText "2024-06-30",
              ["React"; "Node.js"; "MongoDB"; "Express"])]
  /\ option_map
       (map (fun o => match assoc "tech" o with
                      | Some (DbPipeline.TechArray l) =>
                          forallb (fun e => match DbPipeline.icon e with
                                            | Some Sqlite.SqlNull => true
                                            | _ => false
                                            end) l
                      | _ => false
                      end))
       (DbPipeline.manifest now dirname fs (Some db))
     = Some [true; true; true]
  /\ option_map
       (fun d => (option_map (fun t => length (Sqlite.rows t)) (Sqlite.technologies d),
                  option_map (fun t => length (Sqlite.rows t)) (Sqlite.projects d)))
       (snd (fst (DbPipeline.exportProjectsToJson now dirname fs (Some db))))
     = Some (Some 15%nat, Some 3%nat).
Proof.
  destruct db as [p t pn]. cbn [Sqlite.projects Sqlite.technologies].
  intros -> -> W D.
  set (db := {| Sqlite.projects := None; Sqlite.technologies := None;
                Sqlite.projects_new := pn |}).
  assert (Hbody : fst (fst (DbPipeline.exportBody now dirname fs db)) = Normal tt).
  { unfold DbPipeline.exportBody, DbPipeline.exportRows,
      DbPipeline.ensurePublicDir, DbPipeline.writeFileSync.
    rewrite W.
    destruct (existsSync fs (DbPipeline.publicDir dirname)); cbn [negb];
      [|destruct D as [D|D]; [discriminate D | rewrite D]];
      vm_compute; reflexivity. }
  destruct (exportProjectsToJson_cases now dirname fs (Some db))
    as [(es & _ & _ & [H|(db' & [= <-] & H)])
       | (db' & t & techs & techMap & m & es1 & es2 & [= <-] & _ & E & H1 & H2
          & Pt & _ & _ & Tt & Te & Ma)].
  - discriminate H.
  - rewrite Hbody in H. discriminate H.
  - vm_compute in Pt. injection Pt as <-.
    vm_compute in Tt. injection Tt as <-.
    vm_compute in Te. injection Te as <-.
    vm_compute in Ma. injection Ma as <-.
    unfold DbPipeline.manifest. rewrite E. cbn [fst snd exitStatus].
    match goal with
    | |- context [(es1 ++ WriteFile ?q ?d :: es2)%list] =>
        change (es1 ++ WriteFile q d :: es2)%list
          with (es1 ++ [WriteFile q d] ++ es2)%list
    end.
    rewrite !lastWrite_app, (lastWrite_none _ es2 H2). cbn [lastWrite].
    rewrite String.eqb_refl.
    repeat split; vm_compute; reflexivity.
Qed.

Lemma X19_fresh_database_is_seeded_witness :
  exitStatus (fst (fst (DbPipeline.exportProjectsToJson
                          Examples.runNow Examples.toolsDir Examples.diskFs
                          (Some Examples.freshDb)))) = 0
  /\ option_map (map DbPipeline.recordId)
                (DbPipeline.manifest Examples.runNow Examples.toolsDir
                                     Examples.diskFs (Some Examples.freshDb))
     = Some [Some 3; Some 2; Some 1].
Proof.
  destruct (X19_fresh_database_is_seeded
              Examples.runNow Examples.toolsDir Examples.diskFs Examples.freshDb
              eq_refl eq_refl eq_refl (or_introl eq_refl))
    as (Hexit & _ & _ & _).
  split; [exact Hexit | reflexivity].
Defined.

(** ** The migration block *)




(** X21: the inner [try] around the migration block never lets an error
    out: whatever the database holds, the block completes normally and
    writes no file; a copy that fails leaves the [projects] table as it
    was, and the empty [projects_new] table behind. *)
Theorem X21_migration_errors_are_swallowed (db : Sqlite.Database) :
  fst (fst (DbPipeline.tryCatch DbPipeline.migrate
                                (DbPipeline.say DbPipeline.LogNoMigration) db))
  = Normal tt
  /\ DbPipeline.silent
       (snd (DbPipeline.tryCatch DbPipeline.migrate
                                 (DbPipeline.say DbPipeline.LogNoMigration) db))
  /\ (forall old,
         Sqlite.projects db = Some old ->
         DbPipeline.hasOldSchema (Sqlite.columns old) = true ->
         Sqlite.projects_new db = None ->
         DbPipeline.copyRows old = None ->
         DbPipeline.tryCatch DbPipeline.migrate
                             (DbPipeline.say DbPipeline.LogNoMigration) db
         = (Normal tt,
            {| Sqlite.projects := Some old;
               Sqlite.technologies := Sqlite.technologies db;
               Sqlite.projects_new :=
                 Some (DbPipeline.emptyTable DbPipeline.projectsSchema) |},
            [Console DbPipeline.LogMigrating; Console DbPipeline.LogNoMigration])).
Proof.
  split; [|split].
  - unfold DbPipeline.tryCatch, DbPipeline.migrate, DbPipeline.bind,
      DbPipeline.getDb, DbPipeline.putDb, DbPipeline.say, DbPipeline.throw,
      DbPipeline.ret.
    destruct (DbPipeline.hasOldSchema _); [|reflexivity].
    destruct (Sqlite.projects_new db); [reflexivity|].
    destruct (Sqlite.projects db) as [old|]; [|reflexivity].
    destruct (DbPipeline.copyRows old); reflexivity.
  - unfold DbPipeline.tryCatch, DbPipeline.migrate, DbPipeline.bind,
      DbPipeline.getDb, DbPipeline.putDb, DbPipeline.say, DbPipeline.throw,
      DbPipeline.ret.
    destruct (DbPipeline.hasOldSchema _); [|constructor].
    destruct (Sqlite.projects_new db); [repeat constructor|].
    destruct (Sqlite.projects db) as [old|]; [|repeat constructor].
    destruct (DbPipeline.copyRows old); repeat constructor.
  - intros old P Hold Pn Hcopy.
    unfold DbPipeline.tryCatch, DbPipeline.migrate, DbPipeline.bind,
      DbPipeline.getDb, DbPipeline.putDb, DbPipeline.say, DbPipeline.throw,
      DbPipeline.ret.
    rewrite P, Hold, Pn, Hcopy. reflexivity.
Qed.

Lemma X21_migration_errors_are_swallowed_witness :
  DbPipeline.tryCatch DbPipeline.migrate
                      (DbPipeline.say DbPipeline.LogNoMigration)
                      MoreExamples.narrowLegacyDb
  = (Normal tt,
     {| Sqlite.projects := Sqlite.projects MoreExamples.narrowLegacyDb;
        Sqlite.technologies := None;
        Sqlite.projects_new :=
          Some (DbPipeline.emptyTable DbPipeline.projectsSchema) |},
     [Console DbPipeline.LogMigrating; Console DbPipeline.LogNoMigration]).
Proof.
  apply (proj2 (proj2 (X21_migration_errors_are_swallowed
                         MoreExamples.narrowLegacyDb)));
    reflexivity.
Defined.

(** ** Technologies already present *)

(** X22: the technologies are seeded only into an empty table: when the
    bootstrap finds a [technologies] table that has rows, the run leaves
    that table exactly as it was. *)
Theorem X22_existing_technologies_are_kept (now dirname : string)
        (fs : FileSystem) (db : Sqlite.Database) (techs : Sqlite.Table) :
  Sqlite.projects db = None ->
  Sqlite.technologies db = Some techs ->
  Sqlite.rows techs <> [] ->
  option_map Sqlite.technologies
             (snd (fst (DbPipeline.exportProjectsToJson now dirname fs (Some db))))
  = Some (Some techs).
Proof.
  destruct db as [p t pn]. cbn [Sqlite.projects Sqlite.technologies].
  intros -> -> Hrows. rewrite database_after. cbn [option_map]. f_equal.
  destruct techs as [cols rws nid]. cbn [Sqlite.rows] in Hrows.
  destruct rws as [|r l]; [contradiction|].
  vm_compute. reflexivity.
Qed.

Lemma X22_existing_technologies_are_kept_witness :
  option_map Sqlite.technologies
             (snd (fst (DbPipeline.exportProjectsToJson
                          Examples.runNow Examples.toolsDir Examples.diskFs
                          (Some MoreExamples.ownTechnologiesDb))))
  = Some (Some Examples.someTechnologies).
Proof.
  apply (X22_existing_technologies_are_kept
           Examples.runNow Examples.toolsDir Examples.diskFs
           MoreExamples.ownTechnologiesDb Examples.someTechnologies);
    [reflexivity | reflexivity | discriminate].
Defined.

(** ** Technology cells *)

Lemma split_length (sep : ascii) (s : string) :
  length (JsString.split sep s)
  = S (length (filter (Ascii.eqb sep) (list_ascii_of_string s))).
Proof.
  induction s as [|c r IH]; simpl; [reflexivity|].
  rewrite (Ascii.eqb_sym sep c).
  destruct (Ascii.eqb c sep); simpl.
  - rewrite IH. reflexivity.
  - destruct (JsString.split sep r) as [|h t]; simpl in *; [discriminate IH|].
    exact IH.
Qed.

(** X23: a row whose [tech] cell is NULL, the empty string or 0, or that
    has no such column, gets an empty technology array; a cell with a
    non-empty text gets one entry per comma-separated segment, one more
    than the text has commas. *)
Theorem X23_tech_cell (techMap : list (string * Sqlite.Row)) (row : Sqlite.Row) :
  ((assoc "tech" row = None \/ assoc "tech" row = Some Sqlite.SqlNull \/
    assoc "tech" row = Some (Sqlite.SqlText "") \/
    assoc "tech" row = Some (Sqlite.SqlInt 0)) ->
   exists out,
     DbPipeline.withTechArray techMap row = Some out /\
     assoc "tech" out = Some (DbPipeline.TechArray []))
  /\ (forall s,
         assoc "tech" row = Some (Sqlite.SqlText s) ->
         JsString.nonempty s = true ->
         exists out,
           DbPipeline.withTechArray techMap row = Some out /\
           length (DbPipeline.techNamesOf out)
           = S (length (filter (Ascii.eqb ",") (list_ascii_of_string s)))).
Proof.
  split.
  - intros H. unfold DbPipeline.withTechArray, DbPipeline.techArray.
    destruct H as [H|[H|[H|H]]]; rewrite H; cbn [Z.eqb JsString.nonempty];
      eexists; (split; [reflexivity | apply assoc_setField_same]).
  - intros s H Hs. unfold DbPipeline.withTechArray, DbPipeline.techArray.
    rewrite H, Hs. eexists. split; [reflexivity|].
    unfold DbPipeline.techNamesOf. rewrite assoc_setField_same.
    rewrite !length_map. apply split_length.
Qed.

Lemma X23_tech_cell_witness :
  (exists out,
      DbPipeline.withTechArray [] [("id", Sqlite.SqlInt 1)] = Some out /\
      assoc "tech" out = Some (DbPipeline.TechArray []))
  /\ exists out,
      DbPipeline.withTechArray [] [("tech", Sqlite.SqlText "React, Node,")]
      = Some out /\
      length (DbPipeline.techNamesOf out) = 3%nat.
Proof.
  split.
  - apply (proj1 (X23_tech_cell [] [("id", Sqlite.SqlInt 1)])).
    left. reflexivity.
  - apply (proj2 (X23_tech_cell [] [("tech", Sqlite.SqlText "React, Node,")])
                 "React, Node,"); reflexivity.
Defined.

(** ** A manifest that cannot be written *)

(** X24: when the manifest file cannot be written, or the [public]
    directory is missing and cannot be created, the run ends with status 1
    and without manifest, although it has bootstrapped the database
    first. *)
Theorem X24_unwritable_manifest_fails (now dirname : string) (fs : FileSystem)
        (db : Sqlite.Database) :
  (writeOk fs (DbPipeline.jsonPath dirname) = false
   \/ (existsSync fs (DbPipeline.publicDir dirname) = false /\
       mkdirOk fs (DbPipeline.publicDir dirname) = false)) ->
  exitStatus (fst (fst (DbPipeline.exportProjectsToJson now dirname fs (Some db))))
  = 1
  /\ DbPipeline.manifest now dirname fs (Some db) = None
  /\ snd (fst (DbPipeline.exportProjectsToJson now dirname fs (Some db)))
     = Some (DbPipeline.prepared now db).
Proof.
  intros Hbad.
  assert (Hrows : forall d,
             fst (fst (DbPipeline.exportRows dirname fs d)) <> Normal tt).
  { intros d.
    unfold DbPipeline.exportRows, DbPipeline.selectProjects,
      DbPipeline.selectTechnologies, DbPipeline.ensurePublicDir,
      DbPipeline.writeFileSync, DbPipeline.bind, DbPipeline.getDb,
      DbPipeline.ret, DbPipeline.throw, DbPipeline.say.
    destruct (Sqlite.projects d) as [t|]; [|discriminate].
    destruct (Sqlite.hasColumn "end_date" t && Sqlite.hasColumn "created_at" t);
      [|discriminate].
    destruct (Sqlite.technologies d) as [techs|]; [|discriminate].
    destruct (DbPipeline.techEntries (map Sqlite.jsRow (Sqlite.rows techs)))
      as [techMap|]; [|discriminate].
    destruct (DbPipeline.mapAll _ _) as [m|]; [|discriminate].
    destruct Hbad as [W|[E K]].
    - rewrite W.
      destruct (negb (existsSync fs (DbPipeline.publicDir dirname)));
        [destruct (mkdirOk fs (DbPipeline.publicDir dirname))|]; discriminate.
    - rewrite E, K. discriminate. }
  split; [|split; [|apply database_after]].
  - destruct (exportProjectsToJson_cases now dirname fs (Some db))
      as [(es & -> & _)
         | (db' & t & techs & techMap & m & es1 & es2 & [= <-] & Hn & _)];
      [reflexivity|].
    exfalso. revert Hn. unfold DbPipeline.exportBody.
    rewrite bind_run. cbn [DbPipeline.getDb]. rewrite bind_run.
    destruct ((match Sqlite.projects db with
               | Some _ => DbPipeline.ret tt
               | None => DbPipeline.bootstrap now
               end) db) as [[[[]| |code] d] e0]; cbn [fst]; try discriminate.
    specialize (Hrows d).
    destruct (DbPipeline.exportRows dirname fs d) as [[c d'] e1].
    cbn [fst] in *. exact Hrows.
  - destruct (export_written_or_failed now dirname fs (Some db))
      as [[H0 _] | [_ [H _]]]; [|exact H].
    exfalso.
    destruct (exportProjectsToJson_cases now dirname fs (Some db))
      as [(es & E & _)
         | (db' & t & techs & techMap & m & es1 & es2 & [= <-] & Hn & _)].
    + rewrite E in H0. discriminate H0.
    + revert Hn. unfold DbPipeline.exportBody.
      rewrite bind_run. cbn [DbPipeline.getDb]. rewrite bind_run.
      destruct ((match Sqlite.projects db with
                 | Some _ => DbPipeline.ret tt
                 | None => DbPipeline.bootstrap now
                 end) db) as [[[[]| |code] d] e0]; cbn [fst]; try discriminate.
      specialize (Hrows d).
      destruct (DbPipeline.exportRows dirname fs d) as [[c d'] e1].
      cbn [fst] in *. exact Hrows.
Qed.

Lemma X24_unwritable_manifest_fails_witness :
  exitStatus (fst (fst (DbPipeline.exportProjectsToJson
                          Examples.runNow Examples.toolsDir
                          MoreExamples.readOnlyFs (Some Examples.freshDb)))) = 1
  /\ option_map (fun d => option_map (fun t => length (Sqlite.rows t))
                                     (Sqlite.projects d))
                (snd (fst (DbPipeline.exportProjectsToJson
                             Examples.runNow Examples.toolsDir
                             MoreExamples.readOnlyFs (Some Examples.freshDb))))
     = Some (Some 3%nat).
Proof.
  destruct (X24_unwritable_manifest_fails
              Examples.runNow Examples.toolsDir MoreExamples.readOnlyFs
              Examples.freshDb (or_intror (conj eq_refl eq_refl)))
    as (Hexit & _ & Hdb).
  split; [exact Hexit|]. rewrite Hdb. reflexivity.
Defined.
